(** * The virtio balloon driver: ledger, chunk encoder and negotiation loop

    A shallow embedding of [drivers/virtio/virtio_balloon.c].  The driver
    state [struct virtio_balloon] is a record, every driver function is a
    function on that record in a small state-and-error monad, and everything
    the driver does to the outside world (buffers handed to a virtqueue,
    configuration writes, page references, the balloon lock) is appended to
    a trace.

    Integers are [Z] with the wrap-around of their C type written out; the
    model is the 64-bit kernel ([unsigned long] and [size_t] are 64 bits
    wide, [BITS_PER_LONG = 64]).  Byte-order conversions ([cpu_to_le64],
    [cpu_to_virtio32], the legacy little-endian configuration space) do not
    change the value of a field and are left out. *)

From stdpp Require Import list numbers.

Open Scope Z_scope.

(** ** Fixed-width arithmetic and kernel helpers *)

Definition u32 (x : Z) : Z := x mod 2 ^ 32.
Definition u64 (x : Z) : Z := x mod 2 ^ 64.
Definition s32 (x : Z) : Z := (x + 2 ^ 31) mod 2 ^ 32 - 2 ^ 31.

Definition ULONG_MAX : Z := 2 ^ 64 - 1.
Definition BITS_PER_LONG : Z := 64.
Definition BITS_PER_BYTE : Z := 8.

(** [roundup(x, y)] is [((x + (y - 1)) / y) * y] and [rounddown(x, y)] is
    [x - (x % y)], here on [unsigned long]. *)
Definition roundup (x y : Z) : Z := u64 (u64 (x + (y - 1)) / y * y).
Definition rounddown (x y : Z) : Z := u64 (x - x mod y).

(** [ALIGN(x, a)] is [(x + (a - 1)) & ~(a - 1)]. *)
Definition ALIGN (x a : Z) : Z := Z.land (u64 (x + (a - 1))) (Z.lnot (a - 1)).

(** Modelled from the spec: the bitmap helpers [find_next_bit] and
    [find_next_zero_bit] live in the kernel library, outside this file.  The
    encoder "finds the next set bit, then the next unset bit after it": the
    result is the first position at or after [offset] and below [size] whose
    bit is as wanted, and [size] when there is none.  A bitmap buffer is the
    integer whose binary digits are its bits. *)
Fixpoint scan_bits (want : bool) (bmap : Z) (n : nat) (pos : Z) : Z :=
  match n with
  | O => pos
  | S k =>
      if Bool.eqb (Z.testbit bmap pos) want then pos
      else scan_bits want bmap k (pos + 1)
  end.

Definition find_next_bit (bmap size offset : Z) : Z :=
  if size <=? offset then size
  else scan_bits true bmap (Z.to_nat (size - offset)) offset.

Definition find_next_zero_bit (bmap size offset : Z) : Z :=
  if size <=? offset then size
  else scan_bits false bmap (Z.to_nat (size - offset)) offset.

Definition set_bit (nr : Z) (bmap : Z) : Z := Z.lor bmap (Z.shiftl 1 nr).

(** ** Data model *)

(** [struct virtio_balloon_page_chunk]: both fields as transmitted, that
    is, already shifted. *)
Record page_chunk := mk_chunk { chunk_base : Z; chunk_size : Z }.

Inductive chunk_type := PAGE_CHUNK_TYPE_BALLOON | PAGE_CHUNK_TYPE_UNUSED.

Inductive virtqueue := inflate_vq | deflate_vq | miscq.

(** What one buffer handed to a virtqueue holds. *)
Inductive payload :=
  | PfnArray (buf : list Z)
  | BalloonChunks (chunks : list page_chunk)
  | UnusedChunks (cmd flags : Z) (chunks : list page_chunk).

(** How the driver waits for the host to return the buffer: [wait_event] on
    [vb->acked], or the [cpu_relax] loop. *)
Inductive wait_mode := Sleeping | BusyWait.

Inductive event :=
  | EvLock
  | EvUnlock
  | EvSend (vq : virtqueue) (buf : payload) (w : wait_mode)
  | EvConfigActual (actual : Z)
  | EvQueueWork
  | EvMsleep (ms : Z)
  | EvGetPage (page : Z)
  | EvPutPage (page : Z).

Definition is_send (e : event) : bool :=
  match e with EvSend _ _ _ => true | _ => false end.

(** [struct virtio_balloon], with the parts of the device and of the kernel
    that the driver reads next to it.  A page is named by its
    [page_to_pfn]. *)
Record virtio_balloon := mk_vb {
  (* the device and the environment *)
  feat_chunks : bool;       (* VIRTIO_BALLOON_F_BALLOON_CHUNKS was negotiated *)
  vq_broken : bool;         (* virtqueue_add_outbuf refuses every buffer *)
  config_num_pages : Z;     (* virtio_balloon_config.num_pages, set by the host *)
  config_actual : Z;        (* virtio_balloon_config.actual *)
  n_alloc : nat;            (* page allocations requested so far *)
  n_kmalloc : nat;          (* bitmap buffers requested so far *)
  trace : list event;       (* what the driver did, oldest first *)
  (* the structure itself *)
  balloon_lock : bool;      (* the mutex is held *)
  num_pages : Z;
  pages : list Z;           (* vb_dev_info.pages *)
  isolated_pages : Z;       (* vb_dev_info.isolated_pages *)
  balloon_chunks : list page_chunk;
      (* the valid entries of balloon_page_chunk;
         balloon_page_chunk_hdr->chunks is the length *)
  unused_chunks : list page_chunk;
      (* likewise for unused_page_chunk and unused_page_chunk_hdr *)
  miscq_cmd : Z;            (* miscq_out_hdr->cmd *)
  miscq_flags : Z;          (* miscq_out_hdr->flags *)
  page_bmap : list (option Z);
      (* page_bmap[PAGE_BMAP_COUNT_MAX]: None is a NULL slot, Some b a
         buffer with the bits of b *)
  page_bmaps : Z;
  pfn_min : Z;
  pfn_max : Z;
  pfn_start : Z;
  pfn_stop : Z;
  num_pfns : Z;
  pfns : list Z             (* pfns[VIRTIO_BALLOON_ARRAY_PFNS_MAX] *)
}.

(** Field updates. *)
Definition with_config_actual (v : Z) (vb : virtio_balloon) : virtio_balloon :=
  {| feat_chunks := feat_chunks vb; vq_broken := vq_broken vb;
     config_num_pages := config_num_pages vb; config_actual := v;
     n_alloc := n_alloc vb; n_kmalloc := n_kmalloc vb; trace := trace vb;
     balloon_lock := balloon_lock vb; num_pages := num_pages vb;
     pages := pages vb; isolated_pages := isolated_pages vb;
     balloon_chunks := balloon_chunks vb; unused_chunks := unused_chunks vb;
     miscq_cmd := miscq_cmd vb; miscq_flags := miscq_flags vb;
     page_bmap := page_bmap vb; page_bmaps := page_bmaps vb;
     pfn_min := pfn_min vb; pfn_max := pfn_max vb; pfn_start := pfn_start vb;
     pfn_stop := pfn_stop vb; num_pfns := num_pfns vb; pfns := pfns vb |}.

Definition with_n_alloc (v : nat) (vb : virtio_balloon) : virtio_balloon :=
  {| feat_chunks := feat_chunks vb; vq_broken := vq_broken vb;
     config_num_pages := config_num_pages vb;
     config_actual := config_actual vb; n_alloc := v;
     n_kmalloc := n_kmalloc vb; trace := trace vb;
     balloon_lock := balloon_lock vb; num_pages := num_pages vb;
     pages := pages vb; isolated_pages := isolated_pages vb;
     balloon_chunks := balloon_chunks vb; unused_chunks := unused_chunks vb;
     miscq_cmd := miscq_cmd vb; miscq_flags := miscq_flags vb;
     page_bmap := page_bmap vb; page_bmaps := page_bmaps vb;
     pfn_min := pfn_min vb; pfn_max := pfn_max vb; pfn_start := pfn_start vb;
     pfn_stop := pfn_stop vb; num_pfns := num_pfns vb; pfns := pfns vb |}.

Definition with_n_kmalloc (v : nat) (vb : virtio_balloon) : virtio_balloon :=
  {| feat_chunks := feat_chunks vb; vq_broken := vq_broken vb;
     config_num_pages := config_num_pages vb;
     config_actual := config_actual vb; n_alloc := n_alloc vb;
     n_kmalloc := v; trace := trace vb; balloon_lock := balloon_lock vb;
     num_pages := num_pages vb; pages := pages vb;
     isolated_pages := isolated_pages vb;
     balloon_chunks := balloon_chunks vb; unused_chunks := unused_chunks vb;
     miscq_cmd := miscq_cmd vb; miscq_flags := miscq_flags vb;
     page_bmap := page_bmap vb; page_bmaps := page_bmaps vb;
     pfn_min := pfn_min vb; pfn_max := pfn_max vb; pfn_start := pfn_start vb;
     pfn_stop := pfn_stop vb; num_pfns := num_pfns vb; pfns := pfns vb |}.

Definition with_trace (v : list event) (vb : virtio_balloon) : virtio_balloon :=
  {| feat_chunks := feat_chunks vb; vq_broken := vq_broken vb;
     config_num_pages := config_num_pages vb;
     config_actual := config_actual vb; n_alloc := n_alloc vb;
     n_kmalloc := n_kmalloc vb; trace := v; balloon_lock := balloon_lock vb;
     num_pages := num_pages vb; pages := pages vb;
     isolated_pages := isolated_pages vb;
     balloon_chunks := balloon_chunks vb; unused_chunks := unused_chunks vb;
     miscq_cmd := miscq_cmd vb; miscq_flags := miscq_flags vb;
     page_bmap := page_bmap vb; page_bmaps := page_bmaps vb;
     pfn_min := pfn_min vb; pfn_max := pfn_max vb; pfn_start := pfn_start vb;
     pfn_stop := pfn_stop vb; num_pfns := num_pfns vb; pfns := pfns vb |}.

Definition with_balloon_lock (v : bool) (vb : virtio_balloon) : virtio_balloon :=
  {| feat_chunks := feat_chunks vb; vq_broken := vq_broken vb;
     config_num_pages := config_num_pages vb;
     config_actual := config_actual vb; n_alloc := n_alloc vb;
     n_kmalloc := n_kmalloc vb; trace := trace vb; balloon_lock := v;
     num_pages := num_pages vb; pages := pages vb;
     isolated_pages := isolated_pages vb;
     balloon_chunks := balloon_chunks vb; unused_chunks := unused_chunks vb;
     miscq_cmd := miscq_cmd vb; miscq_flags := miscq_flags vb;
     page_bmap := page_bmap vb; page_bmaps := page_bmaps vb;
     pfn_min := pfn_min vb; pfn_max := pfn_max vb; pfn_start := pfn_start vb;
     pfn_stop := pfn_stop vb; num_pfns := num_pfns vb; pfns := pfns vb |}.

Definition with_num_pages (v : Z) (vb : virtio_balloon) : virtio_balloon :=
  {| feat_chunks := feat_chunks vb; vq_broken := vq_broken vb;
     config_num_pages := config_num_pages vb;
     config_actual := config_actual vb; n_alloc := n_alloc vb;
     n_kmalloc := n_kmalloc vb; trace := trace vb;
     balloon_lock := balloon_lock vb; num_pages := v; pages := pages vb;
     isolated_pages := isolated_pages vb;
     balloon_chunks := balloon_chunks vb; unused_chunks := unused_chunks vb;
     miscq_cmd := miscq_cmd vb; miscq_flags := miscq_flags vb;
     page_bmap := page_bmap vb; page_bmaps := page_bmaps vb;
     pfn_min := pfn_min vb; pfn_max := pfn_max vb; pfn_start := pfn_start vb;
     pfn_stop := pfn_stop vb; num_pfns := num_pfns vb; pfns := pfns vb |}.

Definition with_pages (v : list Z) (vb : virtio_balloon) : virtio_balloon :=
  {| feat_chunks := feat_chunks vb; vq_broken := vq_broken vb;
     config_num_pages := config_num_pages vb;
     config_actual := config_actual vb; n_alloc := n_alloc vb;
     n_kmalloc := n_kmalloc vb; trace := trace vb;
     balloon_lock := balloon_lock vb; num_pages := num_pages vb; pages := v;
     isolated_pages := isolated_pages vb;
     balloon_chunks := balloon_chunks vb; unused_chunks := unused_chunks vb;
     miscq_cmd := miscq_cmd vb; miscq_flags := miscq_flags vb;
     page_bmap := page_bmap vb; page_bmaps := page_bmaps vb;
     pfn_min := pfn_min vb; pfn_max := pfn_max vb; pfn_start := pfn_start vb;
     pfn_stop := pfn_stop vb; num_pfns := num_pfns vb; pfns := pfns vb |}.

Definition with_isolated_pages (v : Z) (vb : virtio_balloon) : virtio_balloon :=
  {| feat_chunks := feat_chunks vb; vq_broken := vq_broken vb;
     config_num_pages := config_num_pages vb;
     config_actual := config_actual vb; n_alloc := n_alloc vb;
     n_kmalloc := n_kmalloc vb; trace := trace vb;
     balloon_lock := balloon_lock vb; num_pages := num_pages vb;
     pages := pages vb; isolated_pages := v;
     balloon_chunks := balloon_chunks vb; unused_chunks := unused_chunks vb;
     miscq_cmd := miscq_cmd vb; miscq_flags := miscq_flags vb;
     page_bmap := page_bmap vb; page_bmaps := page_bmaps vb;
     pfn_min := pfn_min vb; pfn_max := pfn_max vb; pfn_start := pfn_start vb;
     pfn_stop := pfn_stop vb; num_pfns := num_pfns vb; pfns := pfns vb |}.

Definition with_balloon_chunks (v : list page_chunk) (vb : virtio_balloon) : virtio_balloon :=
  {| feat_chunks := feat_chunks vb; vq_broken := vq_broken vb;
     config_num_pages := config_num_pages vb;
     config_actual := config_actual vb; n_alloc := n_alloc vb;
     n_kmalloc := n_kmalloc vb; trace := trace vb;
     balloon_lock := balloon_lock vb; num_pages := num_pages vb;
     pages := pages vb; isolated_pages := isolated_pages vb;
     balloon_chunks := v; unused_chunks := unused_chunks vb;
     miscq_cmd := miscq_cmd vb; miscq_flags := miscq_flags vb;
     page_bmap := page_bmap vb; page_bmaps := page_bmaps vb;
     pfn_min := pfn_min vb; pfn_max := pfn_max vb; pfn_start := pfn_start vb;
     pfn_stop := pfn_stop vb; num_pfns := num_pfns vb; pfns := pfns vb |}.

Definition with_unused_chunks (v : list page_chunk) (vb : virtio_balloon) : virtio_balloon :=
  {| feat_chunks := feat_chunks vb; vq_broken := vq_broken vb;
     config_num_pages := config_num_pages vb;
     config_actual := config_actual vb; n_alloc := n_alloc vb;
     n_kmalloc := n_kmalloc vb; trace := trace vb;
     balloon_lock := balloon_lock vb; num_pages := num_pages vb;
     pages := pages vb; isolated_pages := isolated_pages vb;
     balloon_chunks := balloon_chunks vb; unused_chunks := v;
     miscq_cmd := miscq_cmd vb; miscq_flags := miscq_flags vb;
     page_bmap := page_bmap vb; page_bmaps := page_bmaps vb;
     pfn_min := pfn_min vb; pfn_max := pfn_max vb; pfn_start := pfn_start vb;
     pfn_stop := pfn_stop vb; num_pfns := num_pfns vb; pfns := pfns vb |}.

Definition with_miscq_cmd (v : Z) (vb : virtio_balloon) : virtio_balloon :=
  {| feat_chunks := feat_chunks vb; vq_broken := vq_broken vb;
     config_num_pages := config_num_pages vb;
     config_actual := config_actual vb; n_alloc := n_alloc vb;
     n_kmalloc := n_kmalloc vb; trace := trace vb;
     balloon_lock := balloon_lock vb; num_pages := num_pages vb;
     pages := pages vb; isolated_pages := isolated_pages vb;
     balloon_chunks := balloon_chunks vb; unused_chunks := unused_chunks vb;
     miscq_cmd := v; miscq_flags := miscq_flags vb;
     page_bmap := page_bmap vb; page_bmaps := page_bmaps vb;
     pfn_min := pfn_min vb; pfn_max := pfn_max vb; pfn_start := pfn_start vb;
     pfn_stop := pfn_stop vb; num_pfns := num_pfns vb; pfns := pfns vb |}.

Definition with_miscq_flags (v : Z) (vb : virtio_balloon) : virtio_balloon :=
  {| feat_chunks := feat_chunks vb; vq_broken := vq_broken vb;
     config_num_pages := config_num_pages vb;
     config_actual := config_actual vb; n_alloc := n_alloc vb;
     n_kmalloc := n_kmalloc vb; trace := trace vb;
     balloon_lock := balloon_lock vb; num_pages := num_pages vb;
     pages := pages vb; isolated_pages := isolated_pages vb;
     balloon_chunks := balloon_chunks vb; unused_chunks := unused_chunks vb;
     miscq_cmd := miscq_cmd vb; miscq_flags := v; page_bmap := page_bmap vb;
     page_bmaps := page_bmaps vb; pfn_min := pfn_min vb;
     pfn_max := pfn_max vb; pfn_start := pfn_start vb;
     pfn_stop := pfn_stop vb; num_pfns := num_pfns vb; pfns := pfns vb |}.

Definition with_page_bmap (v : list (option Z)) (vb : virtio_balloon) : virtio_balloon :=
  {| feat_chunks := feat_chunks vb; vq_broken := vq_broken vb;
     config_num_pages := config_num_pages vb;
     config_actual := config_actual vb; n_alloc := n_alloc vb;
     n_kmalloc := n_kmalloc vb; trace := trace vb;
     balloon_lock := balloon_lock vb; num_pages := num_pages vb;
     pages := pages vb; isolated_pages := isolated_pages vb;
     balloon_chunks := balloon_chunks vb; unused_chunks := unused_chunks vb;
     miscq_cmd := miscq_cmd vb; miscq_flags := miscq_flags vb;
     page_bmap := v; page_bmaps := page_bmaps vb; pfn_min := pfn_min vb;
     pfn_max := pfn_max vb; pfn_start := pfn_start vb;
     pfn_stop := pfn_stop vb; num_pfns := num_pfns vb; pfns := pfns vb |}.

Definition with_page_bmaps (v : Z) (vb : virtio_balloon) : virtio_balloon :=
  {| feat_chunks := feat_chunks vb; vq_broken := vq_broken vb;
     config_num_pages := config_num_pages vb;
     config_actual := config_actual vb; n_alloc := n_alloc vb;
     n_kmalloc := n_kmalloc vb; trace := trace vb;
     balloon_lock := balloon_lock vb; num_pages := num_pages vb;
     pages := pages vb; isolated_pages := isolated_pages vb;
     balloon_chunks := balloon_chunks vb; unused_chunks := unused_chunks vb;
     miscq_cmd := miscq_cmd vb; miscq_flags := miscq_flags vb;
     page_bmap := page_bmap vb; page_bmaps := v; pfn_min := pfn_min vb;
     pfn_max := pfn_max vb; pfn_start := pfn_start vb;
     pfn_stop := pfn_stop vb; num_pfns := num_pfns vb; pfns := pfns vb |}.

Definition with_pfn_min (v : Z) (vb : virtio_balloon) : virtio_balloon :=
  {| feat_chunks := feat_chunks vb; vq_broken := vq_broken vb;
     config_num_pages := config_num_pages vb;
     config_actual := config_actual vb; n_alloc := n_alloc vb;
     n_kmalloc := n_kmalloc vb; trace := trace vb;
     balloon_lock := balloon_lock vb; num_pages := num_pages vb;
     pages := pages vb; isolated_pages := isolated_pages vb;
     balloon_chunks := balloon_chunks vb; unused_chunks := unused_chunks vb;
     miscq_cmd := miscq_cmd vb; miscq_flags := miscq_flags vb;
     page_bmap := page_bmap vb; page_bmaps := page_bmaps vb; pfn_min := v;
     pfn_max := pfn_max vb; pfn_start := pfn_start vb;
     pfn_stop := pfn_stop vb; num_pfns := num_pfns vb; pfns := pfns vb |}.

Definition with_pfn_max (v : Z) (vb : virtio_balloon) : virtio_balloon :=
  {| feat_chunks := feat_chunks vb; vq_broken := vq_broken vb;
     config_num_pages := config_num_pages vb;
     config_actual := config_actual vb; n_alloc := n_alloc vb;
     n_kmalloc := n_kmalloc vb; trace := trace vb;
     balloon_lock := balloon_lock vb; num_pages := num_pages vb;
     pages := pages vb; isolated_pages := isolated_pages vb;
     balloon_chunks := balloon_chunks vb; unused_chunks := unused_chunks vb;
     miscq_cmd := miscq_cmd vb; miscq_flags := miscq_flags vb;
     page_bmap := page_bmap vb; page_bmaps := page_bmaps vb;
     pfn_min := pfn_min vb; pfn_max := v; pfn_start := pfn_start vb;
     pfn_stop := pfn_stop vb; num_pfns := num_pfns vb; pfns := pfns vb |}.

Definition with_pfn_start (v : Z) (vb : virtio_balloon) : virtio_balloon :=
  {| feat_chunks := feat_chunks vb; vq_broken := vq_broken vb;
     config_num_pages := config_num_pages vb;
     config_actual := config_actual vb; n_alloc := n_alloc vb;
     n_kmalloc := n_kmalloc vb; trace := trace vb;
     balloon_lock := balloon_lock vb; num_pages := num_pages vb;
     pages := pages vb; isolated_pages := isolated_pages vb;
     balloon_chunks := balloon_chunks vb; unused_chunks := unused_chunks vb;
     miscq_cmd := miscq_cmd vb; miscq_flags := miscq_flags vb;
     page_bmap := page_bmap vb; page_bmaps := page_bmaps vb;
     pfn_min := pfn_min vb; pfn_max := pfn_max vb; pfn_start := v;
     pfn_stop := pfn_stop vb; num_pfns := num_pfns vb; pfns := pfns vb |}.

Definition with_pfn_stop (v : Z) (vb : virtio_balloon) : virtio_balloon :=
  {| feat_chunks := feat_chunks vb; vq_broken := vq_broken vb;
     config_num_pages := config_num_pages vb;
     config_actual := config_actual vb; n_alloc := n_alloc vb;
     n_kmalloc := n_kmalloc vb; trace := trace vb;
     balloon_lock := balloon_lock vb; num_pages := num_pages vb;
     pages := pages vb; isolated_pages := isolated_pages vb;
     balloon_chunks := balloon_chunks vb; unused_chunks := unused_chunks vb;
     miscq_cmd := miscq_cmd vb; miscq_flags := miscq_flags vb;
     page_bmap := page_bmap vb; page_bmaps := page_bmaps vb;
     pfn_min := pfn_min vb; pfn_max := pfn_max vb; pfn_start := pfn_start vb;
     pfn_stop := v; num_pfns := num_pfns vb; pfns := pfns vb |}.

Definition with_num_pfns (v : Z) (vb : virtio_balloon) : virtio_balloon :=
  {| feat_chunks := feat_chunks vb; vq_broken := vq_broken vb;
     config_num_pages := config_num_pages vb;
     config_actual := config_actual vb; n_alloc := n_alloc vb;
     n_kmalloc := n_kmalloc vb; trace := trace vb;
     balloon_lock := balloon_lock vb; num_pages := num_pages vb;
     pages := pages vb; isolated_pages := isolated_pages vb;
     balloon_chunks := balloon_chunks vb; unused_chunks := unused_chunks vb;
     miscq_cmd := miscq_cmd vb; miscq_flags := miscq_flags vb;
     page_bmap := page_bmap vb; page_bmaps := page_bmaps vb;
     pfn_min := pfn_min vb; pfn_max := pfn_max vb; pfn_start := pfn_start vb;
     pfn_stop := pfn_stop vb; num_pfns := v; pfns := pfns vb |}.

Definition with_pfns (v : list Z) (vb : virtio_balloon) : virtio_balloon :=
  {| feat_chunks := feat_chunks vb; vq_broken := vq_broken vb;
     config_num_pages := config_num_pages vb;
     config_actual := config_actual vb; n_alloc := n_alloc vb;
     n_kmalloc := n_kmalloc vb; trace := trace vb;
     balloon_lock := balloon_lock vb; num_pages := num_pages vb;
     pages := pages vb; isolated_pages := isolated_pages vb;
     balloon_chunks := balloon_chunks vb; unused_chunks := unused_chunks vb;
     miscq_cmd := miscq_cmd vb; miscq_flags := miscq_flags vb;
     page_bmap := page_bmap vb; page_bmaps := page_bmaps vb;
     pfn_min := pfn_min vb; pfn_max := pfn_max vb; pfn_start := pfn_start vb;
     pfn_stop := pfn_stop vb; num_pfns := num_pfns vb; pfns := v |}.

(** ** The monad of driver code

    A driver function either returns with a value and a new state, or it
    does not return: it touched memory outside a buffer or through a NULL
    pointer ([Fault]), it waits for something that will not happen
    ([Blocked]), or the model ran out of loop iterations ([OutOfFuel]).  The
    state at that point is kept. *)

Inductive stuck := Fault | Blocked | OutOfFuel.

Inductive outcome (A : Type) :=
  | Done (a : A) (vb : virtio_balloon)
  | Stuck (why : stuck) (vb : virtio_balloon).
Arguments Done {A} a vb.
Arguments Stuck {A} why vb.

Definition state_of {A} (o : outcome A) : virtio_balloon :=
  match o with Done _ vb => vb | Stuck _ vb => vb end.

Definition M (A : Type) : Type := virtio_balloon -> outcome A.

Definition ret {A} (a : A) : M A := fun vb => Done a vb.

Definition bind {A B} (m : M A) (k : A -> M B) : M B :=
  fun vb => match m vb with
            | Done a vb' => k a vb'
            | Stuck why vb' => Stuck why vb'
            end.

Notation "x <- m ;; k" := (bind m (fun x => k))
  (at level 100, m at next level, right associativity).
Notation "m ;; k" := (bind m (fun _ => k))
  (at level 100, right associativity).

Definition get : M virtio_balloon := fun vb => Done vb vb.
Definition modify (f : virtio_balloon -> virtio_balloon) : M unit :=
  fun vb => Done tt (f vb).
Definition stop {A} (why : stuck) : M A := fun vb => Stuck why vb.
Definition emit (e : event) : M unit :=
  modify (fun vb => with_trace (trace vb ++ [e]) vb).
Definition when (b : bool) (m : M unit) : M unit := if b then m else ret tt.

Definition mutex_lock : M unit :=
  vb <- get ;;
  if balloon_lock vb then stop Blocked
  else modify (with_balloon_lock true) ;; emit EvLock.

Definition mutex_trylock : M bool :=
  vb <- get ;;
  if balloon_lock vb then ret false
  else modify (with_balloon_lock true) ;; emit EvLock ;; ret true.

Definition mutex_unlock : M unit :=
  modify (with_balloon_lock false) ;; emit EvUnlock.

Section Driver.

Set Default Proof Using "Type".

(** Constants of the kernel configuration and of the device header, which
    this file only uses. *)
Variable PAGE_SHIFT : Z.
Variable VIRTIO_BALLOON_PFN_SHIFT : Z.
Variable VIRTIO_BALLOON_CHUNK_BASE_SHIFT : Z.
Variable VIRTIO_BALLOON_CHUNK_SIZE_SHIFT : Z.
Variable VIRTIO_BALLOON_MISCQ_INQUIRE_UNUSED_PAGES : Z.
Variable VIRTIO_BALLOON_MISCQ_F_COMPLETE : Z.
Variable MAX_ORDER : nat.
Variable MIGRATE_TYPES : nat.

(** The page allocator behind [balloon_page_enqueue]: the page it hands out
    at its n-th call, or none when it has no page left. *)
Variable alloc_page : nat -> option Z.
(** Whether the n-th [kmalloc] of a bitmap buffer succeeds. *)
Variable kmalloc_ok : nat -> bool.
(** The populated zones, and the free blocks of each zone, order and
    migratetype, by the page-frame number of their first page. *)
Variable populated_zones : list nat.
Variable free_list : nat -> nat -> nat -> list Z.

Definition PAGE_SIZE : Z := Z.shiftl 1 PAGE_SHIFT.
Definition VIRTIO_BALLOON_PAGES_PER_PAGE : Z :=
  u32 (Z.shiftr PAGE_SIZE VIRTIO_BALLOON_PFN_SHIFT).
Definition VIRTIO_BALLOON_ARRAY_PFNS_MAX : Z := 256.
Definition PAGE_BMAP_SIZE : Z := 8 * PAGE_SIZE.
Definition PFNS_PER_PAGE_BMAP : Z := PAGE_BMAP_SIZE * BITS_PER_BYTE.
Definition PAGE_BMAP_COUNT_MAX : Z := 32.
Definition MAX_PAGE_CHUNKS : Z := 4096.
Definition EAGAIN : Z := 11.
Definition MIGRATEPAGE_SUCCESS : Z := 0.

Definition page_to_balloon_pfn (page : Z) : Z :=
  u32 (u64 (page * VIRTIO_BALLOON_PAGES_PER_PAGE)).

Definition init_page_bmap_range : M unit :=
  modify (with_pfn_min ULONG_MAX) ;;
  modify (with_pfn_max 0).

Definition update_page_bmap_range (page : Z) : M unit :=
  let balloon_pfn := page_to_balloon_pfn page in
  modify (fun vb => with_pfn_min (Z.min balloon_pfn (pfn_min vb)) vb) ;;
  modify (fun vb => with_pfn_max (Z.max balloon_pfn (pfn_max vb)) vb).

(** Reading and writing a slot of [page_bmap]; an index outside the array
    is a fault. *)
Definition read_page_bmap (i : Z) : M (option Z) :=
  vb <- get ;;
  if (0 <=? i) && (i <? PAGE_BMAP_COUNT_MAX) then
    match page_bmap vb !! Z.to_nat i with
    | Some slot => ret slot
    | None => stop Fault
    end
  else stop Fault.

Definition write_page_bmap (i : Z) (slot : option Z) : M unit :=
  vb <- get ;;
  if (0 <=? i) && (i <? Z.of_nat (length (page_bmap vb)))
     && (i <? PAGE_BMAP_COUNT_MAX)
  then modify (with_page_bmap (<[Z.to_nat i := slot]> (page_bmap vb)))
  else stop Fault.

(** [kmalloc(PAGE_BMAP_SIZE, GFP_KERNEL)]: a buffer of unspecified content
    (every user clears it first), or NULL. *)
Definition kmalloc_bmap : M (option Z) :=
  vb <- get ;;
  modify (with_n_kmalloc (S (n_kmalloc vb))) ;;
  ret (if kmalloc_ok (n_kmalloc vb) then Some 0 else None).

Fixpoint extend_loop (todo : nat) (i : Z) : M unit :=
  match todo with
  | O => ret tt
  | S k =>
      slot <- kmalloc_bmap ;;
      write_page_bmap i slot ;;
      match slot with
      | Some _ =>
          modify (fun vb => with_page_bmaps (u32 (page_bmaps vb + 1)) vb) ;;
          extend_loop k (i + 1)
      | None => ret tt
      end
  end.

Definition extend_page_bmap_size (pfns : Z) : M unit :=
  let bmap_len := ALIGN pfns BITS_PER_LONG / BITS_PER_BYTE in
  let bmap_len := ALIGN bmap_len PAGE_BMAP_SIZE in
  let bmaps := Z.min (s32 (bmap_len / PAGE_BMAP_SIZE)) PAGE_BMAP_COUNT_MAX in
  extend_loop (Z.to_nat (bmaps - 1)) 1.

Fixpoint free_extended_loop (todo : nat) (i : Z) : M unit :=
  match todo with
  | O => ret tt
  | S k =>
      write_page_bmap i None ;;
      modify (fun vb => with_page_bmaps (u32 (page_bmaps vb - 1)) vb) ;;
      free_extended_loop k (i + 1)
  end.

Definition free_extended_page_bmap : M unit :=
  vb <- get ;;
  free_extended_loop (Z.to_nat (s32 (page_bmaps vb) - 1)) 1.

Fixpoint clear_loop (todo : nat) (i : Z) : M unit :=
  match todo with
  | O => ret tt
  | S k =>
      slot <- read_page_bmap i ;;
      match slot with
      | Some _ => write_page_bmap i (Some 0) ;; clear_loop k (i + 1)
      | None => stop Fault
      end
  end.

Definition clear_page_bmap : M unit :=
  vb <- get ;;
  clear_loop (Z.to_nat (page_bmaps vb)) 0.

(** The chunk buffer and its count, by chunk type. *)
Definition chunks_of (type : chunk_type) (vb : virtio_balloon)
  : list page_chunk :=
  match type with
  | PAGE_CHUNK_TYPE_BALLOON => balloon_chunks vb
  | PAGE_CHUNK_TYPE_UNUSED => unused_chunks vb
  end.

Definition set_chunks_of (type : chunk_type) (l : list page_chunk)
  : virtio_balloon -> virtio_balloon :=
  match type with
  | PAGE_CHUNK_TYPE_BALLOON => with_balloon_chunks l
  | PAGE_CHUNK_TYPE_UNUSED => with_unused_chunks l
  end.

(** The buffer that [send_page_chunks] hands over: from the chunk header
    for balloon chunks, from the miscq header in front of it for unused
    chunks. *)
Definition chunk_buf (type : chunk_type) (vb : virtio_balloon) : payload :=
  match type with
  | PAGE_CHUNK_TYPE_BALLOON => BalloonChunks (balloon_chunks vb)
  | PAGE_CHUNK_TYPE_UNUSED =>
      UnusedChunks (miscq_cmd vb) (miscq_flags vb) (unused_chunks vb)
  end.

Definition send_page_chunks (vq : virtqueue) (type : chunk_type)
    (busy_wait : bool) : M unit :=
  vb <- get ;;
  if negb (vq_broken vb) then
    (* virtqueue_add_outbuf returned 0: kick, wait, reset the count *)
    emit (EvSend vq (chunk_buf type vb)
            (if busy_wait then BusyWait else Sleeping)) ;;
    modify (set_chunks_of type [])
  else ret tt.

Definition add_one_chunk (vq : virtqueue) (type : chunk_type)
    (base size : Z) : M unit :=
  vb <- get ;;
  let chunks := chunks_of type vb in
  if Z.of_nat (length chunks) <? MAX_PAGE_CHUNKS then
    let chunk :=
      {| chunk_base := u64 (Z.shiftl base VIRTIO_BALLOON_CHUNK_BASE_SHIFT);
         chunk_size := u64 (Z.shiftl size VIRTIO_BALLOON_CHUNK_SIZE_SHIFT) |}
    in
    modify (set_chunks_of type (chunks ++ [chunk])) ;;
    when (Z.of_nat (length (chunks ++ [chunk])) =? MAX_PAGE_CHUNKS)
         (send_page_chunks vq type false)
  else
    (* the entry lies behind the MAX_PAGE_CHUNKS entries of the buffer *)
    stop Fault.

Fixpoint chunking_loop (fuel : nat) (vq : virtqueue) (pfn_start : Z)
    (bmap : option Z) (pos end_ : Z) : M unit :=
  match fuel with
  | O => if pos <? end_ then stop OutOfFuel else ret tt
  | S k =>
      if pos <? end_ then
        match bmap with
        | None => stop Fault
        | Some b =>
            let one := find_next_bit b end_ pos in
            if one <? end_ then
              let zero := find_next_zero_bit b end_ (one + 1) in
              let chunk_size :=
                if end_ <=? zero then end_ - one else zero - one in
              when (negb (chunk_size =? 0))
                   (add_one_chunk vq PAGE_CHUNK_TYPE_BALLOON
                      (u64 (pfn_start + one)) chunk_size) ;;
              chunking_loop k vq pfn_start bmap (one + chunk_size) end_
            else ret tt
        end
      else ret tt
  end.

(** Every turn of the loop moves [pos] forward by at least one bit, so
    [end_] turns are always enough. *)
Definition chunking_pages_from_bmap (vq : virtqueue) (pfn_start : Z)
    (bmap : option Z) (len : Z) : M unit :=
  let end_ := u64 (len * BITS_PER_BYTE) in
  chunking_loop (Z.to_nat end_) vq pfn_start bmap 0 end_.

Fixpoint tell_host_loop (todo : nat) (vq : virtqueue)
    (pfn_start page_bmaps pfns_len i : Z) : M unit :=
  match todo with
  | O => ret tt
  | S k =>
      let bmap_len :=
        if i + 1 =? page_bmaps then u32 (pfns_len - PAGE_BMAP_SIZE * i)
        else u32 PAGE_BMAP_SIZE in
      bmap <- read_page_bmap i ;;
      chunking_pages_from_bmap vq
        (u64 (pfn_start + i * PFNS_PER_PAGE_BMAP)) bmap bmap_len ;;
      tell_host_loop k vq pfn_start page_bmaps pfns_len (i + 1)
  end.

Definition tell_host (vq : virtqueue) : M unit :=
  vb <- get ;;
  if feat_chunks vb then
    let pfn_start := pfn_start vb in
    let pfns := s32 (pfn_stop vb - pfn_start + 1) in
    let pfns := s32 (roundup (roundup pfns BITS_PER_LONG) PFNS_PER_PAGE_BMAP) in
    let page_bmaps := s32 (pfns / PFNS_PER_PAGE_BMAP) in
    let pfns_len := pfns / BITS_PER_BYTE in
    tell_host_loop (Z.to_nat page_bmaps) vq pfn_start page_bmaps pfns_len 0 ;;
    vb <- get ;;
    when (0 <? Z.of_nat (length (balloon_chunks vb)))
         (send_page_chunks vq PAGE_CHUNK_TYPE_BALLOON false)
  else
    (* virtqueue_add_outbuf, its result ignored; virtqueue_kick; wait_event
       until virtqueue_get_buf returns the buffer *)
    if vq_broken vb then stop Blocked
    else emit (EvSend vq (PfnArray (take (Z.to_nat (num_pfns vb)) (pfns vb)))
                 Sleeping).

(** Writing [pfns[i]].  The source does not check the index: a write
    outside the array lands in the members of the structure that follow
    it.  The model does not follow such a write, it stops there with
    [Fault]; what is proved of a call that returns is proved of writes
    inside the array. *)
Definition write_pfn (i v : Z) : M unit :=
  vb <- get ;;
  if (0 <=? i) && (i <? Z.of_nat (length (pfns vb)))
     && (i <? VIRTIO_BALLOON_ARRAY_PFNS_MAX)
  then modify (with_pfns (<[Z.to_nat i := v]> (pfns vb)))
  else stop Fault.

Fixpoint set_page_pfns_loop (todo : nat) (off : Z) (page : Z) (i : Z)
  : M unit :=
  match todo with
  | O => ret tt
  | S k =>
      write_pfn (off + i) (u32 (page_to_balloon_pfn page + i)) ;;
      set_page_pfns_loop k off page (i + 1)
  end.

(** [set_page_pfns(vb, vb->pfns + off, page)]. *)
Definition set_page_pfns (off : Z) (page : Z) : M unit :=
  set_page_pfns_loop (Z.to_nat VIRTIO_BALLOON_PAGES_PER_PAGE) off page 0.

(** The [list_for_each_entry] of [with_page_bmap]: sets the bit of every
    page of the list that lies in the current cover, and tells whether there
    was one. *)
Fixpoint mark_pages (l : list Z) (pfn_start pfn_stop : Z) (found : bool)
  : M bool :=
  match l with
  | [] => ret found
  | page :: rest =>
      let balloon_pfn := page_to_balloon_pfn page in
      if (balloon_pfn <? pfn_start) || (pfn_stop <? balloon_pfn) then
        mark_pages rest pfn_start pfn_stop found
      else
        let bmap_idx := (balloon_pfn - pfn_start) / PFNS_PER_PAGE_BMAP in
        let bmap_pos := (balloon_pfn - pfn_start) mod PFNS_PER_PAGE_BMAP in
        slot <- read_page_bmap bmap_idx ;;
        match slot with
        | Some b =>
            write_page_bmap bmap_idx (Some (set_bit bmap_pos b)) ;;
            mark_pages rest pfn_start pfn_stop true
        | None => stop Fault
        end
  end.

Fixpoint set_page_bmap_loop (fuel : nat) (l : list Z) (vq : virtqueue)
    (pfn_start : Z) : M unit :=
  vb <- get ;;
  if pfn_start <? pfn_max vb then
    match fuel with
    | O => stop OutOfFuel
    | S k =>
        let pfn_stop := u64 (pfn_start + PFNS_PER_PAGE_BMAP * page_bmaps vb) in
        let pfn_stop :=
          if pfn_stop <? pfn_max vb then pfn_stop else pfn_max vb in
        modify (with_pfn_start pfn_start) ;;
        clear_page_bmap ;;
        found <- mark_pages l pfn_start pfn_stop false ;;
        when found (modify (with_pfn_stop pfn_stop) ;; tell_host vq) ;;
        set_page_bmap_loop k l vq pfn_stop
    end
  else ret tt.

(** [with_page_bmap(vb, pages, vq)], the list of pages given by value. *)
Definition set_page_bmap (fuel : nat) (l : list Z) (vq : virtqueue)
  : M unit :=
  modify (fun vb => with_pfn_min (rounddown (pfn_min vb) BITS_PER_LONG) vb) ;;
  modify (fun vb => with_pfn_max (roundup (pfn_max vb) BITS_PER_LONG) vb) ;;
  vb <- get ;;
  extend_page_bmap_size (u64 (pfn_max vb - pfn_min vb + 1)) ;;
  set_page_bmap_loop fuel l vq (pfn_min vb) ;;
  free_extended_page_bmap.

(** Modelled from the spec: [balloon_page_enqueue], [balloon_page_dequeue],
    [balloon_page_insert] and [balloon_page_delete] belong to the balloon
    compaction code, outside this file.  Growing takes one page from the
    allocator, which may have none, and appends it to the ledger; shrinking
    removes pages in a fixed order, oldest first, and has none to give when
    the ledger is empty. *)
Definition balloon_page_insert (page : Z) : M unit :=
  modify (fun vb => with_pages (pages vb ++ [page]) vb).

Definition balloon_page_enqueue : M (option Z) :=
  vb <- get ;;
  modify (with_n_alloc (S (n_alloc vb))) ;;
  match alloc_page (n_alloc vb) with
  | Some page => balloon_page_insert page ;; ret (Some page)
  | None => ret None
  end.

Definition balloon_page_dequeue : M (option Z) :=
  vb <- get ;;
  match pages vb with
  | [] => ret None
  | page :: rest => modify (with_pages rest) ;; ret (Some page)
  end.

Fixpoint remove_first (page : Z) (l : list Z) : list Z :=
  match l with
  | [] => []
  | x :: rest => if x =? page then rest else x :: remove_first page rest
  end.

Definition balloon_page_delete (page : Z) : M unit :=
  modify (fun vb => with_pages (remove_first page (pages vb)) vb).

(** The allocation loop of [fill_balloon]. *)
Fixpoint fill_loop (fuel : nat) (chunking : bool) (num : Z) : M unit :=
  vb <- get ;;
  if num_pfns vb <? num then
    match fuel with
    | O => stop OutOfFuel
    | S k =>
        page <- balloon_page_enqueue ;;
        match page with
        | None => emit (EvMsleep 200)
        | Some page =>
            (if chunking then update_page_bmap_range page
             else set_page_pfns (num_pfns vb) page) ;;
            modify (fun vb => with_num_pages
              (u32 (num_pages vb + VIRTIO_BALLOON_PAGES_PER_PAGE)) vb) ;;
            modify (fun vb => with_num_pfns
              (u32 (num_pfns vb + VIRTIO_BALLOON_PAGES_PER_PAGE)) vb) ;;
            fill_loop k chunking num
        end
    end
  else ret tt.

(** [fill_balloon]; [num] is the [size_t] argument, a number from 0 to
    2^64 - 1. *)
Definition fill_balloon (fuel : nat) (num : Z) : M Z :=
  vb <- get ;;
  let chunking := feat_chunks vb in
  (if chunking then init_page_bmap_range else ret tt) ;;
  let num :=
    if chunking then num else Z.min num VIRTIO_BALLOON_ARRAY_PFNS_MAX in
  mutex_lock ;;
  modify (with_num_pfns 0) ;;
  fill_loop fuel chunking num ;;
  vb <- get ;;
  let num_allocated_pages := num_pfns vb in
  when (negb (num_pfns vb =? 0))
       (if chunking then set_page_bmap fuel (pages vb) inflate_vq
        else tell_host inflate_vq) ;;
  mutex_unlock ;;
  ret num_allocated_pages.

Fixpoint release_pages_balloon (l : list Z) : M unit :=
  match l with
  | [] => ret tt
  | page :: rest => emit (EvPutPage page) ;; release_pages_balloon rest
  end.

(** The removal loop of [leak_balloon]; [l] is the local list [pages], on
    which [list_add] puts every page at the front. *)
Fixpoint leak_loop (fuel : nat) (chunking : bool) (num : Z) (l : list Z)
  : M (list Z) :=
  vb <- get ;;
  if num_pfns vb <? num then
    match fuel with
    | O => stop OutOfFuel
    | S k =>
        page <- balloon_page_dequeue ;;
        match page with
        | None => ret l
        | Some page =>
            set_page_pfns (num_pfns vb) page ;;
            (if chunking then update_page_bmap_range page
             else set_page_pfns (num_pfns vb) page) ;;
            modify (fun vb => with_num_pages
              (u32 (num_pages vb - VIRTIO_BALLOON_PAGES_PER_PAGE)) vb) ;;
            modify (fun vb => with_num_pfns
              (u32 (num_pfns vb + VIRTIO_BALLOON_PAGES_PER_PAGE)) vb) ;;
            leak_loop k chunking num (page :: l)
        end
    end
  else ret l.

(** [leak_balloon]; [num] is the [size_t] argument, a number from 0 to
    2^64 - 1. *)
Definition leak_balloon (fuel : nat) (num : Z) : M Z :=
  vb <- get ;;
  let chunking := feat_chunks vb in
  (if chunking then init_page_bmap_range else ret tt) ;;
  let num :=
    if chunking then num else Z.min num VIRTIO_BALLOON_ARRAY_PFNS_MAX in
  let num := Z.min num VIRTIO_BALLOON_ARRAY_PFNS_MAX in
  mutex_lock ;;
  vb <- get ;;
  let num := Z.min num (num_pages vb) in
  modify (with_num_pfns 0) ;;
  l <- leak_loop fuel chunking num [] ;;
  vb <- get ;;
  let num_freed_pages := num_pfns vb in
  when (negb (num_pfns vb =? 0))
       (if chunking then set_page_bmap fuel l deflate_vq
        else tell_host deflate_vq) ;;
  release_pages_balloon l ;;
  mutex_unlock ;;
  ret num_freed_pages.

Definition towards_target : M Z :=
  vb <- get ;;
  let target := u32 (config_num_pages vb) in
  ret (target - num_pages vb).

Definition update_balloon_size : M unit :=
  vb <- get ;;
  let actual := u32 (num_pages vb) in
  modify (with_config_actual actual) ;;
  emit (EvConfigActual actual).

(** [update_balloon_size_func]; [queue_work] of the same work item is the
    event [EvQueueWork]. *)
Definition update_balloon_size_func (fuel : nat) : M unit :=
  diff <- towards_target ;;
  diff <- (if 0 <? diff then
             n <- fill_balloon fuel diff ;; ret (diff - n)
           else if diff <? 0 then
             n <- leak_balloon fuel (- diff) ;; ret (diff + n)
           else ret diff) ;;
  update_balloon_size ;;
  when (negb (diff =? 0)) (emit EvQueueWork).

(** Modelled from the spec: [inquire_unused_page_block] belongs to the page
    allocator, outside this file.  The responder "repeatedly asks the
    allocator for one free block of this order and type": each call hands
    out the next block of the free list, and the call after the last one
    fails, which ends the [do ... while (!ret)] loop. *)
Fixpoint inquire_loop (blocks : list Z) (vq : virtqueue) (order : nat)
  : M unit :=
  match blocks with
  | [] => ret tt
  | pfn :: rest =>
      add_one_chunk vq PAGE_CHUNK_TYPE_UNUSED (u64 pfn)
        (u64 (s32 (Z.shiftl 1 (Z.of_nat order)))) ;;
      inquire_loop rest vq order
  end.

(** [for (migratetype = 0; migratetype < MIGRATE_TYPES; migratetype++)] *)
Fixpoint migratetype_loop (todo : nat) (vq : virtqueue) (zone order : nat)
    (migratetype : nat) : M unit :=
  match todo with
  | O => ret tt
  | S k =>
      inquire_loop (free_list zone order migratetype) vq order ;;
      migratetype_loop k vq zone order (S migratetype)
  end.

(** [for (order = MAX_ORDER - 1; order > 0; order--)] *)
Fixpoint order_loop (order : nat) (vq : virtqueue) (zone : nat) : M unit :=
  match order with
  | O => ret tt
  | S k =>
      migratetype_loop MIGRATE_TYPES vq zone order 0 ;;
      order_loop k vq zone
  end.

(** [for_each_populated_zone(zone)] *)
Fixpoint zone_loop (zones : list nat) (vq : virtqueue) : M unit :=
  match zones with
  | [] => ret tt
  | zone :: rest =>
      order_loop (MAX_ORDER - 1) vq zone ;;
      zone_loop rest vq
  end.

Definition miscq_send_unused_pages : M unit :=
  modify (with_miscq_cmd VIRTIO_BALLOON_MISCQ_INQUIRE_UNUSED_PAGES) ;;
  modify (with_miscq_flags 0) ;;
  zone_loop populated_zones miscq ;;
  modify (fun vb => with_miscq_flags
    (Z.lor (miscq_flags vb) VIRTIO_BALLOON_MISCQ_F_COMPLETE) vb) ;;
  send_page_chunks miscq PAGE_CHUNK_TYPE_UNUSED true.

Definition tell_host_one_page (vq : virtqueue) (page : Z) : M unit :=
  add_one_chunk vq PAGE_CHUNK_TYPE_BALLOON page 1.

(** [virtballoon_migratepage]; the result is the returned [int]. *)
Definition virtballoon_migratepage (newpage page : Z) : M Z :=
  vb <- get ;;
  let chunking := feat_chunks vb in
  locked <- mutex_trylock ;;
  if negb locked then ret (- EAGAIN)
  else
    emit (EvGetPage newpage) ;;
    (* 1st step -- inflate "newpage" *)
    balloon_page_insert newpage ;;
    modify (fun vb => with_isolated_pages (u64 (isolated_pages vb - 1)) vb) ;;
    (if chunking then tell_host_one_page inflate_vq newpage
     else
       modify (with_num_pfns VIRTIO_BALLOON_PAGES_PER_PAGE) ;;
       set_page_pfns 0 newpage ;;
       tell_host inflate_vq) ;;
    (* 2nd step -- deflate "page" *)
    balloon_page_delete page ;;
    (if chunking then tell_host_one_page deflate_vq page
     else
       modify (with_num_pfns VIRTIO_BALLOON_PAGES_PER_PAGE) ;;
       set_page_pfns 0 page ;;
       tell_host deflate_vq) ;;
    mutex_unlock ;;
    emit (EvPutPage page) ;;
    ret MIGRATEPAGE_SUCCESS.

(** The state that [virtballoon_probe] leaves: an empty balloon, and with
    the chunk feature one bitmap buffer and an empty chunk buffer. *)
Definition probe_state (chunking broken : bool) (target : Z)
  : virtio_balloon :=
  {| feat_chunks := chunking; vq_broken := broken;
     config_num_pages := target; config_actual := 0;
     n_alloc := 0; n_kmalloc := 0; trace := [];
     balloon_lock := false; num_pages := 0; pages := [];
     isolated_pages := 0; balloon_chunks := []; unused_chunks := [];
     miscq_cmd := 0; miscq_flags := 0;
     page_bmap := (if chunking then Some 0 else None)
                  :: replicate 31%nat None;
     page_bmaps := if chunking then 1 else 0;
     pfn_min := 0; pfn_max := 0; pfn_start := 0; pfn_stop := 0;
     num_pfns := 0; pfns := replicate 256%nat 0 |}.

(** ** Reasoning about driver code *)

(** [wp m Q E vb]: running [m] from [vb] returns with [Q], or gets stuck
    with [E]. *)
Definition wp {A} (m : M A) (Q : A -> virtio_balloon -> Prop)
    (E : virtio_balloon -> Prop) (vb : virtio_balloon) : Prop :=
  match m vb with
  | Done a vb' => Q a vb'
  | Stuck _ vb' => E vb'
  end.

Lemma wp_bind {A B} (m : M A) (k : A -> M B) Q E vb :
  wp m (fun a vb' => wp (k a) Q E vb') E vb -> wp (bind m k) Q E vb.
Proof. unfold wp, bind. destruct (m vb); auto. Qed.

Lemma wp_mono {A} (m : M A) (Q Q' : A -> virtio_balloon -> Prop)
    (E E' : virtio_balloon -> Prop) vb :
  wp m Q E vb ->
  (forall a vb', Q a vb' -> Q' a vb') ->
  (forall vb', E vb' -> E' vb') ->
  wp m Q' E' vb.
Proof. unfold wp. destruct (m vb); auto. Qed.

Lemma wp_Done {A} (m : M A) Q E vb a vb' :
  wp m Q E vb -> m vb = Done a vb' -> Q a vb'.
Proof. unfold wp. intros H Hm. now rewrite Hm in H. Qed.

(** The ledger proper, that is the counter and the collection, and with it
    the size of the batch in progress. *)
Definition ledger (vb : virtio_balloon) : Z * list Z * Z :=
  (num_pages vb, pages vb, num_pfns vb).

(** [m] leaves the ledger alone, however it ends. *)
Definition keeps_ledger {A} (m : M A) : Prop :=
  forall vb, ledger (state_of (m vb)) = ledger vb.

Lemma keeps_ret {A} (a : A) : keeps_ledger (ret a).
Proof. intros vb. reflexivity. Qed.

Lemma keeps_get : keeps_ledger get.
Proof. intros vb. reflexivity. Qed.

Lemma keeps_stop {A} why : keeps_ledger (@stop A why).
Proof. intros vb. reflexivity. Qed.

Lemma keeps_modify f :
  (forall vb, ledger (f vb) = ledger vb) -> keeps_ledger (modify f).
Proof. intros H vb. apply H. Qed.

Lemma keeps_bind {A B} (m : M A) (k : A -> M B) :
  keeps_ledger m -> (forall a, keeps_ledger (k a)) -> keeps_ledger (bind m k).
Proof.
  intros Hm Hk vb. unfold bind. specialize (Hm vb).
  destruct (m vb) as [a vb1|why vb1]; simpl in *; [|exact Hm].
  now rewrite Hk.
Qed.

Lemma keeps_emit e : keeps_ledger (emit e).
Proof. apply keeps_modify. reflexivity. Qed.

Lemma keeps_when b m : keeps_ledger m -> keeps_ledger (when b m).
Proof. destruct b; simpl; auto using keeps_ret. Qed.

Lemma keeps_wp {A} (m : M A) (P : Z * list Z * Z -> Prop) vb :
  keeps_ledger m -> P (ledger vb) ->
  wp m (fun _ vb' => P (ledger vb')) (fun vb' => P (ledger vb')) vb.
Proof.
  intros Hm HP. specialize (Hm vb). unfold wp.
  destruct (m vb); simpl in Hm; now rewrite Hm.
Qed.

Create HintDb keeps discriminated.
#[local] Hint Constants Opaque : keeps.
#[local] Hint Resolve keeps_ret keeps_get keeps_stop keeps_emit keeps_when
  : keeps.

(** One step through the structure of a piece of driver code. *)
Ltac keeps_step :=
  lazymatch goal with
  | |- keeps_ledger (bind _ _) => apply keeps_bind; [|intros ?]
  | |- keeps_ledger (ret _) => apply keeps_ret
  | |- keeps_ledger get => apply keeps_get
  | |- keeps_ledger (stop _) => apply keeps_stop
  | |- keeps_ledger (emit _) => apply keeps_emit
  | |- keeps_ledger (modify _) => apply keeps_modify; intros ?; reflexivity
  | |- keeps_ledger (when _ _) => apply keeps_when
  | |- keeps_ledger (if ?b then _ else _) => destruct b
  | |- keeps_ledger (match ?x with _ => _ end) => destruct x
  | |- keeps_ledger _ => solve [auto with keeps]
  end.

Lemma keeps_mutex_lock : keeps_ledger mutex_lock.
Proof. unfold mutex_lock. repeat keeps_step. Qed.

Lemma keeps_mutex_unlock : keeps_ledger mutex_unlock.
Proof. unfold mutex_unlock. repeat keeps_step. Qed.

Lemma keeps_init_page_bmap_range : keeps_ledger init_page_bmap_range.
Proof. unfold init_page_bmap_range. repeat keeps_step. Qed.

Lemma keeps_update_page_bmap_range page :
  keeps_ledger (update_page_bmap_range page).
Proof. unfold update_page_bmap_range. repeat keeps_step. Qed.

Lemma keeps_read_page_bmap i : keeps_ledger (read_page_bmap i).
Proof. unfold read_page_bmap. repeat keeps_step. Qed.

Lemma keeps_write_page_bmap i slot : keeps_ledger (write_page_bmap i slot).
Proof. unfold write_page_bmap. repeat keeps_step. Qed.

Lemma keeps_kmalloc_bmap : keeps_ledger kmalloc_bmap.
Proof. unfold kmalloc_bmap. repeat keeps_step. Qed.

#[local] Hint Resolve keeps_mutex_lock keeps_mutex_unlock
  keeps_init_page_bmap_range keeps_update_page_bmap_range
  keeps_read_page_bmap keeps_write_page_bmap keeps_kmalloc_bmap : keeps.

Lemma keeps_extend_loop todo i : keeps_ledger (extend_loop todo i).
Proof.
  revert i. induction todo as [|k IH]; intros i; simpl; repeat keeps_step.
Qed.

Lemma keeps_extend_page_bmap_size pfns :
  keeps_ledger (extend_page_bmap_size pfns).
Proof. apply keeps_extend_loop. Qed.

Lemma keeps_free_extended_loop todo i :
  keeps_ledger (free_extended_loop todo i).
Proof.
  revert i. induction todo as [|k IH]; intros i; simpl; repeat keeps_step.
Qed.

Lemma keeps_free_extended_page_bmap : keeps_ledger free_extended_page_bmap.
Proof.
  unfold free_extended_page_bmap. keeps_step; [keeps_step|].
  apply keeps_free_extended_loop.
Qed.

Lemma keeps_clear_loop todo i : keeps_ledger (clear_loop todo i).
Proof.
  revert i. induction todo as [|k IH]; intros i; simpl; repeat keeps_step.
Qed.

Lemma keeps_clear_page_bmap : keeps_ledger clear_page_bmap.
Proof.
  unfold clear_page_bmap. keeps_step; [keeps_step|]. apply keeps_clear_loop.
Qed.

Lemma keeps_set_chunks_of type l vb :
  ledger (set_chunks_of type l vb) = ledger vb.
Proof. now destruct type. Qed.

Lemma keeps_send_page_chunks vq type busy_wait :
  keeps_ledger (send_page_chunks vq type busy_wait).
Proof.
  unfold send_page_chunks. keeps_step; [keeps_step|].
  keeps_step; [|keeps_step]. keeps_step; [keeps_step|].
  apply keeps_modify, keeps_set_chunks_of.
Qed.

Lemma keeps_add_one_chunk vq type base size :
  keeps_ledger (add_one_chunk vq type base size).
Proof.
  unfold add_one_chunk. keeps_step; [keeps_step|].
  keeps_step; [|keeps_step]. keeps_step.
  - apply keeps_modify, keeps_set_chunks_of.
  - apply keeps_when, keeps_send_page_chunks.
Qed.

#[local] Hint Resolve keeps_extend_page_bmap_size
  keeps_free_extended_page_bmap keeps_clear_page_bmap
  keeps_send_page_chunks keeps_add_one_chunk : keeps.

Lemma keeps_chunking_loop fuel vq pfn_start bmap pos end_ :
  keeps_ledger (chunking_loop fuel vq pfn_start bmap pos end_).
Proof.
  revert pos. induction fuel as [|k IH]; intros pos; simpl;
    repeat keeps_step.
Qed.

Lemma keeps_chunking_pages_from_bmap vq pfn_start bmap len :
  keeps_ledger (chunking_pages_from_bmap vq pfn_start bmap len).
Proof. apply keeps_chunking_loop. Qed.

#[local] Hint Resolve keeps_chunking_pages_from_bmap : keeps.

Lemma keeps_tell_host_loop todo vq pfn_start page_bmaps pfns_len i :
  keeps_ledger (tell_host_loop todo vq pfn_start page_bmaps pfns_len i).
Proof.
  revert i. induction todo as [|k IH]; intros i; simpl; repeat keeps_step.
Qed.

Lemma keeps_tell_host vq : keeps_ledger (tell_host vq).
Proof.
  unfold tell_host. keeps_step; [keeps_step|].
  keeps_step; [|repeat keeps_step].
  keeps_step; [apply keeps_tell_host_loop|]. repeat keeps_step.
Qed.

Lemma keeps_write_pfn i v : keeps_ledger (write_pfn i v).
Proof. unfold write_pfn. repeat keeps_step. Qed.

#[local] Hint Resolve keeps_tell_host keeps_write_pfn : keeps.

Lemma keeps_set_page_pfns_loop todo off page i :
  keeps_ledger (set_page_pfns_loop todo off page i).
Proof.
  revert i. induction todo as [|k IH]; intros i; simpl; repeat keeps_step.
Qed.

Lemma keeps_set_page_pfns off page : keeps_ledger (set_page_pfns off page).
Proof. apply keeps_set_page_pfns_loop. Qed.

Lemma keeps_mark_pages l pfn_start pfn_stop found :
  keeps_ledger (mark_pages l pfn_start pfn_stop found).
Proof.
  revert found. induction l as [|page rest IH]; intros found; simpl;
    repeat keeps_step.
Qed.

#[local] Hint Resolve keeps_set_page_pfns keeps_mark_pages : keeps.

Lemma keeps_set_page_bmap_loop fuel l vq pfn_start :
  keeps_ledger (set_page_bmap_loop fuel l vq pfn_start).
Proof.
  revert pfn_start. induction fuel as [|k IH]; intros pfn_start; simpl;
    repeat keeps_step.
Qed.

Lemma keeps_set_page_bmap fuel l vq : keeps_ledger (set_page_bmap fuel l vq).
Proof.
  unfold set_page_bmap. repeat keeps_step.
  apply keeps_set_page_bmap_loop.
Qed.

Lemma keeps_release_pages_balloon l : keeps_ledger (release_pages_balloon l).
Proof. induction l as [|page rest IH]; simpl; repeat keeps_step. Qed.

#[local] Hint Resolve keeps_set_page_bmap keeps_release_pages_balloon : keeps.

(** ** The ledger invariant *)

Definition ledger_inv (vb : virtio_balloon) : Prop :=
  num_pages vb =
  u32 (VIRTIO_BALLOON_PAGES_PER_PAGE * Z.of_nat (length (pages vb))).

(** The states that a freshly probed device reaches by growing and
    shrinking. *)
Inductive reachable : virtio_balloon -> Prop :=
  | reach_probe chunking broken target :
      reachable (probe_state chunking broken target)
  | reach_fill vb fuel num n vb' :
      reachable vb -> fill_balloon fuel num vb = Done n vb' -> reachable vb'
  | reach_leak vb fuel num n vb' :
      reachable vb -> leak_balloon fuel num vb = Done n vb' -> reachable vb'.

Lemma u32_add_l x y : u32 (u32 x + y) = u32 (x + y).
Proof. unfold u32. apply Zplus_mod_idemp_l. Qed.

Lemma u32_sub_l x y : u32 (u32 x - y) = u32 (x - y).
Proof. unfold u32. apply Zminus_mod_idemp_l. Qed.

Lemma u32_small x : 0 <= x < 2 ^ 32 -> u32 x = x.
Proof. apply Z.mod_small. Qed.

Lemma u32_range x : 0 <= u32 x < 2 ^ 32.
Proof. unfold u32. apply Z.mod_pos_bound. reflexivity. Qed.

Lemma keeps_inv {A} (m : M A) vb :
  keeps_ledger m -> ledger_inv vb ->
  wp m (fun _ => ledger_inv) (fun _ => True) vb.
Proof.
  intros Hm H0. eapply wp_mono.
  - apply keeps_wp with
      (P := fun l => l.1.1 = u32 (VIRTIO_BALLOON_PAGES_PER_PAGE
                                   * Z.of_nat (length l.1.2)));
      [exact Hm|exact H0].
  - auto.
  - auto.
Qed.

Lemma fill_loop_inv fuel chunking num vb :
  ledger_inv vb ->
  wp (fill_loop fuel chunking num) (fun _ => ledger_inv) (fun _ => True) vb.
Proof.
  revert vb. induction fuel as [|k IH]; intros vb Hinv; simpl.
  - unfold wp, bind, get. destruct (num_pfns vb <? num); simpl; auto.
  - apply wp_bind. unfold wp at 1, get.
    destruct (num_pfns vb <? num); [|exact Hinv].
    apply wp_bind. unfold wp at 1, balloon_page_enqueue, bind, get, modify.
    simpl. destruct (alloc_page (n_alloc vb)) as [page|]; simpl;
      [|exact Hinv].
    apply wp_bind. eapply wp_mono.
    + apply keeps_wp with (P := fun l => l.1 = (num_pages vb, pages vb ++ [page]));
        [destruct chunking; auto with keeps|reflexivity].
    + simpl. intros _ vb1 Hl. injection Hl as Hn Hp.
      apply IH. unfold ledger_inv in *. simpl. rewrite Hn, Hp, Hinv.
      rewrite length_app. simpl. rewrite u32_add_l. f_equal. lia.
    + auto.
Qed.

Lemma leak_loop_inv fuel chunking num l vb :
  ledger_inv vb ->
  wp (leak_loop fuel chunking num l) (fun _ => ledger_inv) (fun _ => True) vb.
Proof.
  revert vb l. induction fuel as [|k IH]; intros vb l Hinv; simpl.
  - unfold wp, bind, get. destruct (num_pfns vb <? num); simpl; auto.
  - apply wp_bind. unfold wp at 1, get.
    destruct (num_pfns vb <? num); [|exact Hinv].
    apply wp_bind. unfold wp at 1, balloon_page_dequeue, bind, get, modify.
    destruct (pages vb) as [|page rest] eqn:Hpages; simpl; [exact Hinv|].
    apply wp_bind. eapply wp_mono.
    + apply keeps_wp with (P := fun l => l.1 = (num_pages vb, rest));
        [auto with keeps|reflexivity].
    + simpl. intros _ vb1 Hl1. apply wp_bind. eapply wp_mono.
      * apply keeps_wp with (P := fun l => l.1 = (num_pages vb, rest));
          [destruct chunking; auto with keeps|exact Hl1].
      * simpl. intros _ vb2 Hl. injection Hl as Hn Hp.
        apply IH. unfold ledger_inv in *. simpl. rewrite Hn, Hp, Hinv, Hpages.
        simpl length. rewrite u32_sub_l. f_equal. lia.
      * auto.
    + auto.
Qed.

Lemma fill_balloon_inv fuel num vb :
  ledger_inv vb ->
  wp (fill_balloon fuel num) (fun _ => ledger_inv) (fun _ => True) vb.
Proof.
  intros Hinv. unfold fill_balloon.
  apply wp_bind. unfold wp at 1, get.
  apply wp_bind. eapply wp_mono; [apply keeps_inv;
    [destruct (feat_chunks vb); auto with keeps|exact Hinv]| |auto].
  simpl. intros _ vb1 H1.
  apply wp_bind. eapply wp_mono;
    [apply keeps_inv; [auto with keeps|exact H1]| |auto].
  simpl. intros _ vb2 H2.
  apply wp_bind. unfold wp at 1, modify.
  apply wp_bind. eapply wp_mono; [apply fill_loop_inv; exact H2| |auto].
  simpl. intros _ vb3 H3.
  apply wp_bind. unfold wp at 1, get.
  apply wp_bind. eapply wp_mono; [apply keeps_inv; [|exact H3]| |auto].
  { apply keeps_when. destruct (feat_chunks vb); auto with keeps. }
  simpl. intros _ vb4 H4.
  apply wp_bind. eapply wp_mono;
    [apply keeps_inv; [auto with keeps|exact H4]| |auto].
  simpl. intros _ vb5 H5. exact H5.
Qed.

Lemma leak_balloon_inv fuel num vb :
  ledger_inv vb ->
  wp (leak_balloon fuel num) (fun _ => ledger_inv) (fun _ => True) vb.
Proof.
  intros Hinv. unfold leak_balloon.
  apply wp_bind. unfold wp at 1, get.
  apply wp_bind. eapply wp_mono; [apply keeps_inv;
    [destruct (feat_chunks vb); auto with keeps|exact Hinv]| |auto].
  simpl. intros _ vb1 H1.
  apply wp_bind. eapply wp_mono;
    [apply keeps_inv; [auto with keeps|exact H1]| |auto].
  simpl. intros _ vb2 H2.
  apply wp_bind. unfold wp at 1, get.
  apply wp_bind. unfold wp at 1, modify.
  apply wp_bind. eapply wp_mono; [apply leak_loop_inv; exact H2| |auto].
  simpl. intros l vb3 H3.
  apply wp_bind. unfold wp at 1, get.
  apply wp_bind. eapply wp_mono; [apply keeps_inv; [|exact H3]| |auto].
  { apply keeps_when. destruct (feat_chunks vb); auto with keeps. }
  simpl. intros _ vb4 H4.
  apply wp_bind. eapply wp_mono;
    [apply keeps_inv; [auto with keeps|exact H4]| |auto].
  simpl. intros _ vb5 H5.
  apply wp_bind. eapply wp_mono;
    [apply keeps_inv; [auto with keeps|exact H5]| |auto].
  simpl. intros _ vb6 H6. exact H6.
Qed.

(** In every reachable state the counter is the 32-bit value of K times the
    number of pages held. *)
Lemma reachable_ledger_inv vb : reachable vb -> ledger_inv vb.
Proof.
  induction 1 as [chunking broken target|vb fuel num n vb' _ IH Hrun
                 |vb fuel num n vb' _ IH Hrun].
  - unfold ledger_inv. simpl. now rewrite Z.mul_0_r.
  - exact (wp_Done _ _ _ _ _ _ (fill_balloon_inv fuel num vb IH) Hrun).
  - exact (wp_Done _ _ _ _ _ _ (leak_balloon_inv fuel num vb IH) Hrun).
Qed.

(** C1, as amended.  In every state reached from a probed device by any
    sequence of [fill_balloon] and [leak_balloon] calls, [num_pages], a
    32-bit counter, equals [VIRTIO_BALLOON_PAGES_PER_PAGE] times the
    number of pages on the ledger's list modulo 2^32; the two are equal
    as long as the product is below 2^32. *)
Theorem ledger_counter_is_K_times_pages_mod_2_32 vb :
  reachable vb ->
  num_pages vb
  = (VIRTIO_BALLOON_PAGES_PER_PAGE * Z.of_nat (length (pages vb)))
    mod 2 ^ 32 /\
  (VIRTIO_BALLOON_PAGES_PER_PAGE * Z.of_nat (length (pages vb)) < 2 ^ 32 ->
   num_pages vb
   = VIRTIO_BALLOON_PAGES_PER_PAGE * Z.of_nat (length (pages vb))).
Proof.
  intros Hreach.
  pose proof (reachable_ledger_inv vb Hreach) as Hinv.
  unfold ledger_inv in Hinv. split; [exact Hinv|].
  intros Hfit. rewrite Hinv.
  apply u32_small. split; [|exact Hfit].
  apply Z.mul_nonneg_nonneg; [apply u32_range|lia].
Qed.


(** ** One array worth at a time *)

Abbreviation K := VIRTIO_BALLOON_PAGES_PER_PAGE.

(** Balloon units that left the ledger between two states. *)
Definition units_removed (vb vb' : virtio_balloon) : Z :=
  K * (Z.of_nat (length (pages vb)) - Z.of_nat (length (pages vb'))).

(** What the removal loop maintains: [num_pfns] counts the units taken off
    the ledger so far, in whole pages, within the array. *)
Definition leak_batch (C : Z) (vb : virtio_balloon) : Prop :=
  (K | num_pfns vb) /\
  0 <= num_pfns vb <= VIRTIO_BALLOON_ARRAY_PFNS_MAX /\
  K * Z.of_nat (length (pages vb)) + num_pfns vb = C.

Lemma next_group_fits n num :
  0 < K -> (K | VIRTIO_BALLOON_ARRAY_PFNS_MAX) -> (K | n) ->
  n < num -> num <= VIRTIO_BALLOON_ARRAY_PFNS_MAX ->
  n + K <= VIRTIO_BALLOON_ARRAY_PFNS_MAX.
Proof.
  unfold VIRTIO_BALLOON_ARRAY_PFNS_MAX.
  intros HK [a Ha] [b Hb] Hlt Hle.
  assert (b < a) by nia. nia.
Qed.

Lemma leak_loop_bound fuel chunking num l vb C :
  0 < K -> (K | VIRTIO_BALLOON_ARRAY_PFNS_MAX) ->
  num <= VIRTIO_BALLOON_ARRAY_PFNS_MAX ->
  leak_batch C vb ->
  wp (leak_loop fuel chunking num l)
     (fun _ vb' => leak_batch C vb')
     (fun vb' => 0 <= C - K * Z.of_nat (length (pages vb'))
                   <= VIRTIO_BALLOON_ARRAY_PFNS_MAX) vb.
Proof.
  intros HK Hdiv Hnum. revert vb l.
  induction fuel as [|k IH]; intros vb l (Hd & Hr & HC); simpl.
  - unfold wp, bind, get. destruct (num_pfns vb <? num); simpl.
    + lia.
    + now split.
  - apply wp_bind. unfold wp at 1, get.
    destruct (Z.ltb_spec (num_pfns vb) num) as [Hlt|Hge]; [|now split].
    pose proof (next_group_fits _ _ HK Hdiv Hd Hlt Hnum) as Hfit.
    apply wp_bind. unfold wp at 1, balloon_page_dequeue, bind, get, modify.
    destruct (pages vb) as [|page rest] eqn:Hpages; simpl.
    { split; [exact Hd|]. rewrite Hpages. now split. }
    simpl length in HC.
    apply wp_bind. eapply wp_mono.
    + apply keeps_wp with
        (P := fun x => x = (num_pages vb, rest, num_pfns vb));
        [auto with keeps|reflexivity].
    + simpl. intros _ vb1 Hl1. apply wp_bind. eapply wp_mono.
      * apply keeps_wp with
          (P := fun x => x = (num_pages vb, rest, num_pfns vb));
          [destruct chunking; auto with keeps|exact Hl1].
      * simpl. intros _ vb2 Hl. injection Hl as Hn Hp Hf.
        apply IH. unfold leak_batch. simpl. rewrite Hp, Hf.
        rewrite u32_small by (unfold VIRTIO_BALLOON_ARRAY_PFNS_MAX in *; lia).
        split; [|split].
        -- apply Z.divide_add_r; [exact Hd|apply Z.divide_refl].
        -- lia.
        -- lia.
      * simpl. intros vb2 Hl. injection Hl as Hn Hp Hf. rewrite Hp. lia.
    + simpl. intros vb1 Hl. injection Hl as Hn Hp Hf. rewrite Hp. lia.
Qed.

(** C10.  Whatever amount is asked for, and in both encoding modes, one
    call of [leak_balloon] takes at most VIRTIO_BALLOON_ARRAY_PFNS_MAX
    balloon units off the ledger, and that number is what it returns.  The
    bound also holds for the state of a call that does not return. *)
Theorem leak_balloon_at_most_one_array fuel num vb :
  0 < K -> (K | VIRTIO_BALLOON_ARRAY_PFNS_MAX) ->
  match leak_balloon fuel num vb with
  | Done n vb' =>
      n = units_removed vb vb' /\ 0 <= n <= VIRTIO_BALLOON_ARRAY_PFNS_MAX
  | Stuck _ vb' =>
      0 <= units_removed vb vb' <= VIRTIO_BALLOON_ARRAY_PFNS_MAX
  end.
Proof.
  intros HK Hdiv.
  change (wp (leak_balloon fuel num)
            (fun n vb' => n = units_removed vb vb'
                          /\ 0 <= n <= VIRTIO_BALLOON_ARRAY_PFNS_MAX)
            (fun vb' => 0 <= units_removed vb vb'
                        <= VIRTIO_BALLOON_ARRAY_PFNS_MAX) vb).
  assert (H256 : 0 <= VIRTIO_BALLOON_ARRAY_PFNS_MAX) by (compute; discriminate).
  assert (Hsame : forall vb', pages vb' = pages vb -> units_removed vb vb' = 0).
  { intros vb' Hp. unfold units_removed. rewrite Hp. lia. }
  unfold leak_balloon.
  apply wp_bind. unfold wp at 1, get.
  apply wp_bind. eapply wp_mono.
  { apply keeps_wp with (P := fun x => x.1.2 = pages vb);
      [destruct (feat_chunks vb); auto with keeps|reflexivity]. }
  2:{ simpl. intros vb' Hp. rewrite (Hsame _ Hp). lia. }
  simpl. intros _ vb1 H1.
  apply wp_bind. eapply wp_mono.
  { apply keeps_wp with (P := fun x => x.1.2 = pages vb);
      [auto with keeps|exact H1]. }
  2:{ simpl. intros vb' Hp. rewrite (Hsame _ Hp). lia. }
  simpl. intros _ vb2 H2.
  apply wp_bind. unfold wp at 1, get.
  apply wp_bind. unfold wp at 1, modify.
  set (C := K * Z.of_nat (length (pages vb))).
  apply wp_bind. eapply wp_mono.
  { apply leak_loop_bound with (C := C); [exact HK|exact Hdiv|lia|].
    unfold leak_batch. simpl. rewrite H2. unfold C.
    split; [apply Z.divide_0_r|lia]. }
  2:{ simpl. intros vb'. unfold units_removed, C. lia. }
  simpl. intros l vb3 (Hd & Hr & HC).
  assert (Hn3 : num_pfns vb3 = units_removed vb vb3)
    by (unfold units_removed; fold C; lia).
  apply wp_bind. unfold wp at 1, get.
  apply wp_bind. eapply wp_mono.
  { apply keeps_wp with (P := fun x => x.1.2 = pages vb3); [|reflexivity].
    apply keeps_when. destruct (feat_chunks vb); auto with keeps. }
  2:{ simpl. intros vb' Hp. unfold units_removed in *. rewrite Hp. lia. }
  simpl. intros _ vb4 H4.
  apply wp_bind. eapply wp_mono.
  { apply keeps_wp with (P := fun x => x.1.2 = pages vb3);
      [auto with keeps|exact H4]. }
  2:{ simpl. intros vb' Hp. unfold units_removed in *. rewrite Hp. lia. }
  simpl. intros _ vb5 H5.
  apply wp_bind. eapply wp_mono.
  { apply keeps_wp with (P := fun x => x.1.2 = pages vb3);
      [auto with keeps|exact H5]. }
  2:{ simpl. intros vb' Hp. unfold units_removed in *. rewrite Hp. lia. }
  simpl. intros _ vb6 H6.
  unfold wp, ret. unfold units_removed in *. rewrite H6. lia.
Qed.


(** ** The flat array of page-frame numbers *)

(** The K balloon page-frame numbers of one page, as [set_page_pfns] writes
    them; [pfn_group page s n] are those numbered [s], ..., [s + n - 1]. *)
Definition pfn_group (page : Z) (s n : nat) : list Z :=
  map (fun i => u32 (page_to_balloon_pfn page + Z.of_nat i)) (seq s n).

Definition page_pfns (page : Z) : list Z := pfn_group page 0 (Z.to_nat K).

(** [splice off g l]: the list [l] with [g] written over it from index
    [off] on. *)
Definition splice (off : nat) (g l : list Z) : list Z :=
  take off l ++ g ++ drop (off + length g) l.

Lemma with_pfns_same vb : with_pfns (pfns vb) vb = vb.
Proof. now destruct vb. Qed.

Lemma with_pfns_twice a b vb : with_pfns a (with_pfns b vb) = with_pfns a vb.
Proof. reflexivity. Qed.

Lemma length_pfn_group page s n : length (pfn_group page s n) = n.
Proof. unfold pfn_group. now rewrite length_map, length_seq. Qed.

Lemma length_page_pfns page : length (page_pfns page) = Z.to_nat K.
Proof. apply length_pfn_group. Qed.

Lemma length_splice off g l :
  (off + length g <= length l)%nat -> length (splice off g l) = length l.
Proof.
  intros H. unfold splice.
  rewrite !length_app, length_take, length_drop. lia.
Qed.

Lemma splice_insert (off : nat) v g l :
  (off < length l)%nat ->
  splice (S off) g (<[off := v]> l) = splice off (v :: g) l.
Proof.
  intros H. unfold splice.
  rewrite (take_S_r _ _ v) by now apply list_lookup_insert_eq.
  rewrite take_insert_ge by lia.
  rewrite drop_insert_lt by lia.
  rewrite <- app_assoc. simpl.
  now replace (off + S (length g))%nat with (S (off + length g)) by lia.
Qed.

Lemma splice_twice off g l :
  (off + length g <= length l)%nat ->
  splice off g (splice off g l) = splice off g l.
Proof.
  intros H. unfold splice at 1 3.
  assert (Ht : length (take off l) = off) by (rewrite length_take; lia).
  f_equal; [|f_equal].
  - unfold splice. now rewrite take_app_length'.
  - unfold splice. rewrite app_assoc.
    rewrite drop_app_length'; [reflexivity|].
    rewrite length_app. lia.
Qed.

Lemma take_splice off g l :
  (off + length g <= length l)%nat ->
  take (off + length g) (splice off g l) = take off l ++ g.
Proof.
  intros H. unfold splice. rewrite app_assoc.
  apply take_app_length'. rewrite length_app, length_take. lia.
Qed.

Lemma set_page_pfns_loop_spec todo off page s vb :
  0 <= off ->
  off + Z.of_nat s + Z.of_nat todo <= Z.of_nat (length (pfns vb)) ->
  off + Z.of_nat s + Z.of_nat todo <= VIRTIO_BALLOON_ARRAY_PFNS_MAX ->
  set_page_pfns_loop todo off page (Z.of_nat s) vb
  = Done tt (with_pfns (splice (Z.to_nat off + s) (pfn_group page s todo)
                          (pfns vb)) vb).
Proof.
  intros Hoff. revert s vb.
  induction todo as [|k IH]; intros s vb Hfit Hlen; simpl.
  - unfold splice, ret. simpl. rewrite Nat.add_0_r, take_drop.
    now rewrite with_pfns_same.
  - unfold bind at 1, write_pfn at 1, bind, get.
    replace ((0 <=? off + Z.of_nat s)
             && (off + Z.of_nat s <? Z.of_nat (length (pfns vb)))
             && (off + Z.of_nat s <? VIRTIO_BALLOON_ARRAY_PFNS_MAX))
      with true by (symmetry; rewrite !andb_true_iff; lia).
    unfold modify.
    replace (Z.of_nat s + 1) with (Z.of_nat (S s)) by lia.
    rewrite IH by (simpl; rewrite ?length_insert; lia).
    rewrite with_pfns_twice. simpl pfns. do 2 f_equal.
    replace (Z.to_nat (off + Z.of_nat s)) with (Z.to_nat off + s)%nat by lia.
    replace (Z.to_nat off + S s)%nat with (S (Z.to_nat off + s)) by lia.
    apply splice_insert. lia.
Qed.

Lemma set_page_pfns_spec off page vb :
  0 <= off ->
  off + K <= Z.of_nat (length (pfns vb)) ->
  off + K <= VIRTIO_BALLOON_ARRAY_PFNS_MAX ->
  0 <= K ->
  set_page_pfns off page vb
  = Done tt (with_pfns (splice (Z.to_nat off) (page_pfns page) (pfns vb)) vb).
Proof.
  intros Hoff Hfit Hlen HK. unfold set_page_pfns.
  rewrite (set_page_pfns_loop_spec _ off page 0%nat vb) by lia.
  now rewrite Nat.add_0_r.
Qed.

(** In the model, a call returns only when it wrote inside the array. *)
Lemma set_page_pfns_loop_Done todo off page s vb vb' :
  set_page_pfns_loop (S todo) off page (Z.of_nat s) vb = Done tt vb' ->
  0 <= off + Z.of_nat s /\
  off + Z.of_nat s + Z.of_nat (S todo) <= Z.of_nat (length (pfns vb)) /\
  off + Z.of_nat s + Z.of_nat (S todo) <= VIRTIO_BALLOON_ARRAY_PFNS_MAX.
Proof.
  revert s vb. induction todo as [|k IH]; intros s vb.
  - simpl. unfold bind at 1, write_pfn at 1, bind, get.
    destruct (Z.leb_spec 0 (off + Z.of_nat s));
      destruct (Z.ltb_spec (off + Z.of_nat s) (Z.of_nat (length (pfns vb))));
      destruct (Z.ltb_spec (off + Z.of_nat s) VIRTIO_BALLOON_ARRAY_PFNS_MAX);
      simpl; try discriminate.
    intros _. lia.
  - change (set_page_pfns_loop (S (S k)) off page (Z.of_nat s) vb)
      with (bind (write_pfn (off + Z.of_nat s)
                    (u32 (page_to_balloon_pfn page + Z.of_nat s)))
              (fun _ => set_page_pfns_loop (S k) off page (Z.of_nat s + 1))
              vb).
    unfold bind at 1, write_pfn at 1, bind, get.
    destruct (Z.leb_spec 0 (off + Z.of_nat s));
      destruct (Z.ltb_spec (off + Z.of_nat s) (Z.of_nat (length (pfns vb))));
      destruct (Z.ltb_spec (off + Z.of_nat s) VIRTIO_BALLOON_ARRAY_PFNS_MAX);
      simpl andb; cbv iota; try discriminate.
    unfold modify. replace (Z.of_nat s + 1) with (Z.of_nat (S s)) by lia.
    intros Hrun. apply IH in Hrun. simpl pfns in Hrun.
    rewrite length_insert in Hrun. lia.
Qed.

(** Filling the same page at the same place a second time changes
    nothing. *)
Lemma set_page_pfns_twice off page vb vb' :
  set_page_pfns off page vb = Done tt vb' ->
  set_page_pfns off page vb' = Done tt vb'.
Proof.
  unfold set_page_pfns. destruct (Z.to_nat K) as [|k] eqn:HK.
  - simpl. unfold ret. now intros [= ->].
  - intros Hrun.
    destruct (set_page_pfns_loop_Done _ _ _ 0%nat _ _ Hrun) as (H0 & H1 & H2).
    rewrite (set_page_pfns_loop_spec _ off page 0%nat vb) in Hrun by lia.
    injection Hrun as <-.
    assert (Hg : length (pfn_group page 0 (S k)) = S k)
      by apply length_pfn_group.
    rewrite (set_page_pfns_loop_spec _ off page 0%nat)
      by (simpl pfns; rewrite ?length_splice; rewrite ?Hg; lia).
    simpl pfns. rewrite with_pfns_twice, splice_twice by (rewrite Hg; lia).
    reflexivity.
Qed.

Lemma splice_nil off l : splice off [] l = l.
Proof. unfold splice. simpl. rewrite Nat.add_0_r. apply take_drop. Qed.

Lemma splice_app off g h l :
  (off + length g + length h <= length l)%nat ->
  splice (off + length g) h (splice off g l) = splice off (g ++ h) l.
Proof.
  intros H. unfold splice at 1.
  rewrite take_splice by lia.
  unfold splice. rewrite (app_assoc (take off l) g (drop _ l)).
  rewrite (drop_app_add' (take off l ++ g))
    by (rewrite length_app, length_take; lia).
  rewrite drop_drop, length_app, <- !app_assoc.
  now replace (off + length g + length h)%nat
    with (off + (length g + length h))%nat by lia.
Qed.

Lemma bind_Done {A B} (m : M A) (k : A -> M B) vb a vb1 :
  m vb = Done a vb1 -> bind m k vb = k a vb1.
Proof. unfold bind. now intros ->. Qed.

(** What the legacy path relies on and never changes. *)
Definition same_device (vb vb' : virtio_balloon) : Prop :=
  feat_chunks vb' = feat_chunks vb /\
  vq_broken vb' = vq_broken vb /\
  balloon_lock vb' = balloon_lock vb /\
  trace vb' = trace vb.

(** The removal loop on the legacy path: it takes a prefix [deq] of the
    ledger, in order, and writes the page-frame numbers of these pages one
    group after the other. *)
Lemma leak_loop_legacy fuel num l vb :
  0 < K -> (K | VIRTIO_BALLOON_ARRAY_PFNS_MAX) ->
  num <= VIRTIO_BALLOON_ARRAY_PFNS_MAX ->
  (K | num_pfns vb) -> 0 <= num_pfns vb ->
  Z.of_nat (length (pfns vb)) = VIRTIO_BALLOON_ARRAY_PFNS_MAX ->
  VIRTIO_BALLOON_ARRAY_PFNS_MAX - num_pfns vb <= Z.of_nat fuel ->
  exists deq vb',
    leak_loop fuel false num l vb = Done (rev deq ++ l) vb' /\
    pages vb = deq ++ pages vb' /\
    num_pfns vb' = num_pfns vb + K * Z.of_nat (length deq) /\
    (num_pfns vb <= VIRTIO_BALLOON_ARRAY_PFNS_MAX ->
     num_pfns vb' <= VIRTIO_BALLOON_ARRAY_PFNS_MAX) /\
    pfns vb' = splice (Z.to_nat (num_pfns vb)) (flat_map page_pfns deq)
                 (pfns vb) /\
    same_device vb vb'.
Proof.
  intros HK Hdiv Hnum. revert l vb.
  induction fuel as [|k IH]; intros l vb Hd H0 Hlen Hfuel.
  - exists [], vb. simpl. unfold bind, get.
    destruct (Z.ltb_spec (num_pfns vb) num) as [Hlt|Hge]; [lia|].
    rewrite splice_nil. unfold same_device. repeat split; simpl; try reflexivity; try lia.
  - simpl. unfold bind at 1, get at 1.
    destruct (Z.ltb_spec (num_pfns vb) num) as [Hlt|Hge].
    2:{ exists [], vb. rewrite splice_nil. unfold same_device.
        repeat split; simpl; try reflexivity; try lia. }
    pose proof (next_group_fits _ _ HK Hdiv Hd Hlt Hnum) as Hfit.
    unfold bind at 1, balloon_page_dequeue at 1, bind at 1, get at 1.
    destruct (pages vb) as [|page rest] eqn:Hpages.
    { exists [], vb. rewrite splice_nil, Hpages. unfold same_device.
      repeat split; simpl; try reflexivity; try lia. }
    unfold bind at 1, modify at 1, ret at 1.
    set (vb1 := with_pages rest vb).
    set (P1 := splice (Z.to_nat (num_pfns vb)) (page_pfns page) (pfns vb)).
    assert (HP1 : length P1 = length (pfns vb)).
    { apply length_splice. rewrite length_page_pfns. lia. }
    assert (E1 : set_page_pfns (num_pfns vb) page vb1
                 = Done tt (with_pfns P1 vb1)).
    { apply set_page_pfns_spec; simpl; lia. }
    assert (E2 : set_page_pfns (num_pfns vb) page (with_pfns P1 vb1)
                 = Done tt (with_pfns P1 vb1)).
    { rewrite set_page_pfns_spec by (simpl; lia).
      simpl pfns. rewrite with_pfns_twice. unfold P1.
      rewrite splice_twice by (rewrite length_page_pfns; lia).
      reflexivity. }
    rewrite (bind_Done _ _ _ _ _ E1), (bind_Done _ _ _ _ _ E2).
    unfold bind at 1, modify at 1. unfold bind at 1, modify at 1.
    match goal with |- context [leak_loop k false num (page :: l) ?s] =>
      destruct (IH (page :: l) s) as (deq & vb' & Hrun & Hp & Hn & Hle & Hf & Hs)
    end.
    + simpl. rewrite u32_small
        by (unfold VIRTIO_BALLOON_ARRAY_PFNS_MAX in *; lia).
      apply Z.divide_add_r; [exact Hd|apply Z.divide_refl].
    + simpl. apply u32_range.
    + simpl. lia.
    + simpl. rewrite u32_small
        by (unfold VIRTIO_BALLOON_ARRAY_PFNS_MAX in *; lia). lia.
    + simpl in Hp, Hn, Hle, Hf.
      rewrite u32_small in Hn, Hle, Hf
        by (unfold VIRTIO_BALLOON_ARRAY_PFNS_MAX in *; lia).
      exists (page :: deq), vb'. split; [|split; [|split; [|split; [|split]]]].
      * rewrite Hrun. simpl. now rewrite <- app_assoc.
      * simpl. now rewrite Hp.
      * rewrite Hn. simpl length. lia.
      * intros _. apply Hle. lia.
      * rewrite Hf. unfold P1. simpl flat_map.
        replace (Z.to_nat (num_pfns vb + K))
          with (Z.to_nat (num_pfns vb) + length (page_pfns page))%nat
          by (rewrite length_page_pfns; lia).
        apply splice_app.
        assert (Hfl : Z.of_nat (length (flat_map page_pfns deq))
                      = K * Z.of_nat (length deq)).
        { clear -HK. induction deq as [|p d IHd]; simpl; [lia|].
          rewrite length_app, length_page_pfns. lia. }
        rewrite length_page_pfns.
        assert (num_pfns vb' <= VIRTIO_BALLOON_ARRAY_PFNS_MAX)
          by (apply Hle; lia).
        lia.
      * destruct Hs as (? & ? & ? & ?). unfold same_device. simpl in *.
        auto.
Qed.

(** [leak_balloon] as the design asks for it: the page-frame numbers of a
    dequeued page are filled in once.  It differs from [leak_loop] and
    [leak_balloon] in nothing else. *)
Fixpoint leak_loop_fill_once (fuel : nat) (chunking : bool) (num : Z)
    (l : list Z) : M (list Z) :=
  vb <- get ;;
  if num_pfns vb <? num then
    match fuel with
    | O => stop OutOfFuel
    | S k =>
        page <- balloon_page_dequeue ;;
        match page with
        | None => ret l
        | Some page =>
            set_page_pfns (num_pfns vb) page ;;
            (if chunking then update_page_bmap_range page else ret tt) ;;
            modify (fun vb => with_num_pages
              (u32 (num_pages vb - VIRTIO_BALLOON_PAGES_PER_PAGE)) vb) ;;
            modify (fun vb => with_num_pfns
              (u32 (num_pfns vb + VIRTIO_BALLOON_PAGES_PER_PAGE)) vb) ;;
            leak_loop_fill_once k chunking num (page :: l)
        end
    end
  else ret l.

Definition leak_balloon_fill_once (fuel : nat) (num : Z) : M Z :=
  vb <- get ;;
  let chunking := feat_chunks vb in
  (if chunking then init_page_bmap_range else ret tt) ;;
  let num :=
    if chunking then num else Z.min num VIRTIO_BALLOON_ARRAY_PFNS_MAX in
  let num := Z.min num VIRTIO_BALLOON_ARRAY_PFNS_MAX in
  mutex_lock ;;
  vb <- get ;;
  let num := Z.min num (num_pages vb) in
  modify (with_num_pfns 0) ;;
  l <- leak_loop_fill_once fuel chunking num [] ;;
  vb <- get ;;
  let num_freed_pages := num_pfns vb in
  when (negb (num_pfns vb =? 0))
       (if chunking then set_page_bmap fuel l deflate_vq
        else tell_host deflate_vq) ;;
  release_pages_balloon l ;;
  mutex_unlock ;;
  ret num_freed_pages.

Lemma bind_ext {A B} (m : M A) (k k' : A -> M B) vb :
  (forall a vb', k a vb' = k' a vb') -> bind m k vb = bind m k' vb.
Proof. intros H. unfold bind. destruct (m vb); auto. Qed.

Lemma bind_ret {A B} (a : A) (k : A -> M B) vb : bind (ret a) k vb = k a vb.
Proof. reflexivity. Qed.

Lemma leak_loop_fill_once_eq fuel chunking num l vb :
  leak_loop fuel chunking num l vb
  = leak_loop_fill_once fuel chunking num l vb.
Proof.
  revert l vb. induction fuel as [|k IH]; intros l vb; [reflexivity|].
  simpl. apply bind_ext. intros vb0 vb1.
  destruct (num_pfns vb0 <? num); [|reflexivity].
  apply bind_ext. intros [page|] vb2; [|reflexivity].
  destruct chunking.
  - apply bind_ext. intros _ vb3. apply bind_ext. intros _ vb4.
    apply bind_ext. intros _ vb5. apply bind_ext. intros _ vb6. apply IH.
  - unfold bind at 1 5.
    destruct (set_page_pfns (num_pfns vb0) page vb2) as [[] vb3|why vb3] eqn:E;
      [|reflexivity].
    rewrite (bind_Done _ _ _ _ _ (set_page_pfns_twice _ _ _ _ E)).
    rewrite bind_ret.
    apply bind_ext. intros _ vb5. apply bind_ext. intros _ vb6. apply IH.
Qed.

(** The duplicated call changes nothing, in any state and in both
    encoding modes. *)
Lemma leak_balloon_fill_once_eq fuel num vb :
  leak_balloon fuel num vb = leak_balloon_fill_once fuel num vb.
Proof.
  unfold leak_balloon, leak_balloon_fill_once.
  apply bind_ext. intros vb0 vb1. apply bind_ext. intros _ vb2.
  apply bind_ext. intros _ vb3. apply bind_ext. intros vb4 vb5.
  apply bind_ext. intros _ vb6.
  unfold bind at 1 7. now rewrite leak_loop_fill_once_eq.
Qed.

Lemma with_trace_same vb : with_trace (trace vb) vb = vb.
Proof. now destruct vb. Qed.

Lemma release_pages_balloon_spec l vb :
  release_pages_balloon l vb
  = Done tt (with_trace (trace vb ++ map EvPutPage l) vb).
Proof.
  revert vb. induction l as [|page rest IH]; intros vb; simpl.
  - now rewrite app_nil_r, with_trace_same.
  - unfold bind, emit, modify. rewrite IH. simpl.
    now rewrite <- app_assoc.
Qed.

Lemma tell_host_legacy vq vb :
  feat_chunks vb = false -> vq_broken vb = false ->
  tell_host vq vb
  = Done tt (with_trace
               (trace vb ++
                [EvSend vq (PfnArray (take (Z.to_nat (num_pfns vb)) (pfns vb)))
                   Sleeping]) vb).
Proof.
  intros Hfeat Hbroken. unfold tell_host, bind, get. now rewrite Hfeat, Hbroken.
Qed.

Lemma length_flat_page_pfns deq :
  0 <= K ->
  Z.of_nat (length (flat_map page_pfns deq)) = K * Z.of_nat (length deq).
Proof.
  intros HK. induction deq as [|p d IHd]; simpl; [lia|].
  rewrite length_app, length_page_pfns. lia.
Qed.

(** A deflate batch on the legacy path, run to its end. *)
Lemma leak_balloon_legacy fuel num vb :
  0 < K -> (K | VIRTIO_BALLOON_ARRAY_PFNS_MAX) ->
  feat_chunks vb = false -> vq_broken vb = false ->
  balloon_lock vb = false ->
  Z.of_nat (length (pfns vb)) = VIRTIO_BALLOON_ARRAY_PFNS_MAX ->
  VIRTIO_BALLOON_ARRAY_PFNS_MAX <= Z.of_nat fuel ->
  exists deq n vb',
    leak_balloon fuel num vb = Done n vb' /\
    pages vb = deq ++ pages vb' /\
    n = K * Z.of_nat (length deq) /\
    take (Z.to_nat n) (pfns vb') = flat_map page_pfns deq /\
    trace vb'
    = trace vb ++ [EvLock]
      ++ (if n =? 0 then []
          else [EvSend deflate_vq (PfnArray (flat_map page_pfns deq))
                  Sleeping])
      ++ map EvPutPage (rev deq) ++ [EvUnlock].
Proof.
  intros HK Hdiv Hfeat Hbroken Hlock Hlen Hfuel.
  unfold leak_balloon.
  unfold bind at 1, get at 1. rewrite Hfeat.
  unfold bind at 1, ret at 1.
  unfold bind at 1, mutex_lock at 1, bind at 1, get at 1. rewrite Hlock.
  unfold bind at 1, modify at 1. unfold emit at 1, modify at 1.
  unfold bind at 1, get at 1. unfold bind at 1, modify at 1.
  match goal with |- context [bind (leak_loop fuel false ?n []) _ ?s] =>
    destruct (leak_loop_legacy fuel n [] s HK Hdiv)
      as (deq & vb1 & Hrun & Hp & Hn & Hle & Hf & Hs1 & Hs2 & Hs3 & Hs4)
  end.
  { lia. }
  { simpl. apply Z.divide_0_r. }
  { simpl. lia. }
  { simpl. exact Hlen. }
  { simpl. lia. }
  simpl in Hp, Hn, Hle, Hf, Hs1, Hs2, Hs3, Hs4.
  rewrite (bind_Done _ _ _ _ _ Hrun). rewrite app_nil_r.
  unfold bind at 1, get at 1.
  assert (Hfl := length_flat_page_pfns deq ltac:(lia)).
  assert (Hn256 : num_pfns vb1 <= VIRTIO_BALLOON_ARRAY_PFNS_MAX)
    by (apply Hle; unfold VIRTIO_BALLOON_ARRAY_PFNS_MAX; lia).
  assert (Htake : take (Z.to_nat (num_pfns vb1)) (pfns vb1)
                  = flat_map page_pfns deq).
  { rewrite Hf.
    replace (Z.to_nat (num_pfns vb1))
      with (0 + length (flat_map page_pfns deq))%nat by lia.
    rewrite take_splice by lia. reflexivity. }
  exists deq, (num_pfns vb1).
  destruct (Z.eqb_spec (num_pfns vb1) 0) as [Hz|Hnz]; simpl negb; cbv iota.
  - eexists. split.
    { unfold when. unfold bind at 1, ret at 1.
      unfold bind at 1. rewrite release_pages_balloon_spec.
      unfold bind at 1, mutex_unlock at 1, bind at 1, modify at 1.
      unfold emit at 1, modify at 1. unfold ret. reflexivity. }
    simpl. rewrite Hs4, <- !app_assoc. simpl. repeat split; auto; try lia.
  - eexists. split.
    { unfold when. unfold bind at 1.
      rewrite tell_host_legacy by congruence.
      unfold bind at 1. rewrite release_pages_balloon_spec.
      unfold bind at 1, mutex_unlock at 1, bind at 1, modify at 1.
      unfold emit at 1, modify at 1. unfold ret. reflexivity. }
    simpl. rewrite Hs4, Htake, <- !app_assoc. simpl.
    repeat split; auto; try lia.
Qed.

(** C9.  On the legacy path, with a transport that takes the buffer, a
    deflate batch returns; the first [num_pfns] entries of [pfns] are then
    the balloon page-frame numbers of the pages that were dequeued, in
    dequeue order and K for each page; this is the buffer handed to the
    host; and the driver that fills each page once ends in the same state
    with the same result. *)
Theorem leak_balloon_pfns_are_dequeued_pages fuel num vb :
  0 < K -> (K | VIRTIO_BALLOON_ARRAY_PFNS_MAX) ->
  feat_chunks vb = false -> vq_broken vb = false ->
  balloon_lock vb = false ->
  Z.of_nat (length (pfns vb)) = VIRTIO_BALLOON_ARRAY_PFNS_MAX ->
  VIRTIO_BALLOON_ARRAY_PFNS_MAX <= Z.of_nat fuel ->
  exists deq n vb',
    leak_balloon fuel num vb = Done n vb' /\
    pages vb = deq ++ pages vb' /\
    n = K * Z.of_nat (length deq) /\
    take (Z.to_nat n) (pfns vb') = flat_map page_pfns deq /\
    trace vb'
    = trace vb ++ [EvLock]
      ++ (if n =? 0 then []
          else [EvSend deflate_vq (PfnArray (flat_map page_pfns deq))
                  Sleeping])
      ++ map EvPutPage (rev deq) ++ [EvUnlock] /\
    leak_balloon_fill_once fuel num vb = Done n vb'.
Proof.
  intros HK Hdiv Hfeat Hbroken Hlock Hlen Hfuel.
  destruct (leak_balloon_legacy fuel num vb HK Hdiv Hfeat Hbroken Hlock Hlen
              Hfuel) as (deq & n & vb' & Hrun & Hp & Hn & Htake & Htrace).
  exists deq, n, vb'. rewrite <- leak_balloon_fill_once_eq. auto 10.
Qed.


(** ** One inflate batch on the legacy path *)

(** The allocation loop on the legacy path: it allocates until [num] is
    reached or the allocator has no page ([exhausted]), and writes the
    page-frame numbers of the new pages one group after the other. *)
Lemma fill_loop_legacy fuel num vb :
  0 < K -> (K | VIRTIO_BALLOON_ARRAY_PFNS_MAX) ->
  num <= VIRTIO_BALLOON_ARRAY_PFNS_MAX ->
  (K | num_pfns vb) -> 0 <= num_pfns vb ->
  Z.of_nat (length (pfns vb)) = VIRTIO_BALLOON_ARRAY_PFNS_MAX ->
  VIRTIO_BALLOON_ARRAY_PFNS_MAX - num_pfns vb <= Z.of_nat fuel ->
  exists got (exhausted : bool) vb',
    fill_loop fuel false num vb = Done tt vb' /\
    pages vb' = pages vb ++ got /\
    num_pfns vb' = num_pfns vb + K * Z.of_nat (length got) /\
    (num_pfns vb <= VIRTIO_BALLOON_ARRAY_PFNS_MAX ->
     num_pfns vb' <= VIRTIO_BALLOON_ARRAY_PFNS_MAX) /\
    (if exhausted then alloc_page (n_alloc vb + length got)%nat = None
     else num <= num_pfns vb') /\
    pfns vb' = splice (Z.to_nat (num_pfns vb)) (flat_map page_pfns got)
                 (pfns vb) /\
    (got = [] /\ num_pages vb' = num_pages vb \/
     num_pages vb' = u32 (num_pages vb + K * Z.of_nat (length got))) /\
    trace vb' = trace vb ++ (if exhausted then [EvMsleep 200] else []) /\
    feat_chunks vb' = feat_chunks vb /\
    vq_broken vb' = vq_broken vb /\
    balloon_lock vb' = balloon_lock vb.
Proof.
  intros HK Hdiv Hnum. revert vb.
  induction fuel as [|k IH]; intros vb Hd H0 Hlen Hfuel.
  - exists [], false, vb. simpl. unfold bind, get.
    destruct (Z.ltb_spec (num_pfns vb) num) as [Hlt|Hge]; [lia|].
    rewrite splice_nil, !app_nil_r.
    repeat split; simpl; try reflexivity; try lia. now left.
  - simpl. unfold bind at 1, get at 1.
    destruct (Z.ltb_spec (num_pfns vb) num) as [Hlt|Hge].
    2:{ exists [], false, vb. rewrite splice_nil, !app_nil_r.
        repeat split; simpl; try reflexivity; try lia. now left. }
    pose proof (next_group_fits _ _ HK Hdiv Hd Hlt Hnum) as Hfit.
    unfold bind at 1, balloon_page_enqueue at 1, bind at 1, get at 1.
    unfold bind at 1, modify at 1.
    destruct (alloc_page (n_alloc vb)) as [page|] eqn:Hpage.
    2:{ exists [], true. eexists. split; [reflexivity|]. simpl.
        rewrite splice_nil, app_nil_r, Nat.add_0_r.
        repeat split; simpl; try reflexivity; try lia; auto. }
    unfold bind at 1, balloon_page_insert at 1, modify at 1, ret at 1.
    set (vb1 := with_pages _ _).
    set (P1 := splice (Z.to_nat (num_pfns vb)) (page_pfns page) (pfns vb)).
    assert (HP1 : length P1 = length (pfns vb)).
    { apply length_splice. rewrite length_page_pfns. lia. }
    assert (E1 : set_page_pfns (num_pfns vb) page vb1
                 = Done tt (with_pfns P1 vb1)).
    { apply set_page_pfns_spec; simpl; lia. }
    rewrite (bind_Done _ _ _ _ _ E1).
    unfold bind at 1, modify at 1. unfold bind at 1, modify at 1.
    match goal with |- context [fill_loop k false num ?s] =>
      destruct (IH s)
        as (got & exhausted & vb' & Hrun & Hp & Hn & Hle & Hnum' & Hf & Hnp
            & Ht & Hs1 & Hs2 & Hs3)
    end.
    + simpl. rewrite u32_small
        by (unfold VIRTIO_BALLOON_ARRAY_PFNS_MAX in *; lia).
      apply Z.divide_add_r; [exact Hd|apply Z.divide_refl].
    + simpl. apply u32_range.
    + simpl. lia.
    + simpl. rewrite u32_small
        by (unfold VIRTIO_BALLOON_ARRAY_PFNS_MAX in *; lia). lia.
    + simpl in Hp, Hn, Hle, Hnum', Hf, Hnp, Ht, Hs1, Hs2, Hs3.
      rewrite u32_small in Hn, Hle, Hf
        by (unfold VIRTIO_BALLOON_ARRAY_PFNS_MAX in *; lia).
      exists (page :: got), exhausted, vb'.
      split; [exact Hrun|].
      split; [rewrite Hp; now rewrite <- app_assoc|].
      split; [rewrite Hn; simpl length; lia|].
      split; [intros _; apply Hle; lia|].
      split.
      { destruct exhausted; [|exact Hnum']. simpl length.
        now replace (n_alloc vb + S (length got))%nat
          with (S (n_alloc vb) + length got)%nat by lia. }
      split; [|split; [|auto]].
      * rewrite Hf. unfold P1. simpl flat_map.
        replace (Z.to_nat (num_pfns vb + K))
          with (Z.to_nat (num_pfns vb) + length (page_pfns page))%nat
          by (rewrite length_page_pfns; lia).
        apply splice_app.
        pose proof (length_flat_page_pfns got ltac:(lia)) as Hfl.
        rewrite length_page_pfns.
        assert (num_pfns vb' <= VIRTIO_BALLOON_ARRAY_PFNS_MAX)
          by (apply Hle; lia).
        lia.
      * right. destruct Hnp as [[-> Hnp]|Hnp]; rewrite Hnp.
        -- simpl. f_equal. lia.
        -- rewrite u32_add_l. simpl length. f_equal. lia.
Qed.

(** An inflate batch on the legacy path, run to its end. *)
Lemma fill_balloon_legacy fuel num vb :
  0 < K -> (K | VIRTIO_BALLOON_ARRAY_PFNS_MAX) ->
  feat_chunks vb = false -> vq_broken vb = false ->
  balloon_lock vb = false ->
  Z.of_nat (length (pfns vb)) = VIRTIO_BALLOON_ARRAY_PFNS_MAX ->
  VIRTIO_BALLOON_ARRAY_PFNS_MAX <= Z.of_nat fuel ->
  exists got (exhausted : bool) n vb',
    fill_balloon fuel num vb = Done n vb' /\
    pages vb' = pages vb ++ got /\
    n = K * Z.of_nat (length got) /\
    n <= VIRTIO_BALLOON_ARRAY_PFNS_MAX /\
    (if exhausted then alloc_page (n_alloc vb + length got)%nat = None
     else Z.min num VIRTIO_BALLOON_ARRAY_PFNS_MAX <= n) /\
    (got = [] /\ num_pages vb' = num_pages vb \/
     num_pages vb' = u32 (num_pages vb + n)) /\
    trace vb'
    = trace vb ++ [EvLock]
      ++ (if exhausted then [EvMsleep 200] else [])
      ++ (if n =? 0 then []
          else [EvSend inflate_vq (PfnArray (flat_map page_pfns got))
                  Sleeping])
      ++ [EvUnlock].
Proof.
  intros HK Hdiv Hfeat Hbroken Hlock Hlen Hfuel.
  unfold fill_balloon.
  unfold bind at 1, get at 1. rewrite Hfeat.
  unfold bind at 1, ret at 1.
  unfold bind at 1, mutex_lock at 1, bind at 1, get at 1. rewrite Hlock.
  unfold bind at 1, modify at 1. unfold emit at 1, modify at 1.
  unfold bind at 1, modify at 1.
  match goal with |- context [bind (fill_loop fuel false ?n) _ ?s] =>
    destruct (fill_loop_legacy fuel n s HK Hdiv)
      as (got & exhausted & vb1 & Hrun & Hp & Hn & Hle & Hnum' & Hf & Hnp
          & Ht & Hs1 & Hs2 & Hs3)
  end.
  { lia. }
  { simpl. apply Z.divide_0_r. }
  { simpl. lia. }
  { simpl. exact Hlen. }
  { simpl. lia. }
  simpl in Hp, Hn, Hle, Hnum', Hf, Hnp, Ht, Hs1, Hs2, Hs3.
  assert (Hn256 : num_pfns vb1 <= VIRTIO_BALLOON_ARRAY_PFNS_MAX)
    by (apply Hle; unfold VIRTIO_BALLOON_ARRAY_PFNS_MAX; lia).
  assert (Hfl := length_flat_page_pfns got ltac:(lia)).
  assert (Htake : take (Z.to_nat (num_pfns vb1)) (pfns vb1)
                  = flat_map page_pfns got).
  { rewrite Hf.
    replace (Z.to_nat (num_pfns vb1))
      with (0 + length (flat_map page_pfns got))%nat by lia.
    rewrite take_splice by lia. reflexivity. }
  exists got, exhausted, (num_pfns vb1).
  rewrite (bind_Done _ _ _ _ _ Hrun). unfold bind at 1, get at 1.
  destruct (Z.eqb_spec (num_pfns vb1) 0) as [Hz|Hnz]; simpl negb; cbv iota.
  - eexists. split.
    { unfold when. unfold bind at 1, ret at 1.
      unfold bind at 1, mutex_unlock at 1, bind at 1, modify at 1.
      unfold emit at 1, modify at 1. unfold ret. reflexivity. }
    simpl. rewrite Ht, <- !app_assoc. simpl.
    repeat split; auto; try lia.
    destruct Hnp as [Hnp|Hnp]; [now left|right]. rewrite Hnp. f_equal. lia.
  - eexists. split.
    { unfold when. unfold bind at 1.
      rewrite tell_host_legacy by congruence.
      unfold bind at 1, mutex_unlock at 1, bind at 1, modify at 1.
      unfold emit at 1, modify at 1. unfold ret. reflexivity. }
    simpl. rewrite Ht, Htake, <- !app_assoc. simpl.
    repeat split; auto; try lia.
    destruct Hnp as [Hnp|Hnp]; [now left|right]. rewrite Hnp. f_equal. lia.
Qed.

(** C6, as the code has it.  On the legacy path [fill_balloon] clamps the
    request to the 256 entries of [pfns]: asked for 1024 units, with an
    allocator that has a page whenever it is asked, one call adds 256 units
    (256 / K pages, 16 of them for K = 16) and hands exactly one buffer to
    the host. *)
Theorem fill_balloon_1024_adds_one_array fuel vb :
  0 < K -> (K | VIRTIO_BALLOON_ARRAY_PFNS_MAX) ->
  feat_chunks vb = false -> vq_broken vb = false ->
  balloon_lock vb = false ->
  Z.of_nat (length (pfns vb)) = VIRTIO_BALLOON_ARRAY_PFNS_MAX ->
  VIRTIO_BALLOON_ARRAY_PFNS_MAX <= Z.of_nat fuel ->
  (forall i, (n_alloc vb <= i)%nat -> is_Some (alloc_page i)) ->
  exists got vb',
    fill_balloon fuel 1024 vb = Done VIRTIO_BALLOON_ARRAY_PFNS_MAX vb' /\
    pages vb' = pages vb ++ got /\
    K * Z.of_nat (length got) = VIRTIO_BALLOON_ARRAY_PFNS_MAX /\
    num_pages vb' = u32 (num_pages vb + VIRTIO_BALLOON_ARRAY_PFNS_MAX) /\
    trace vb'
    = trace vb
      ++ [EvLock;
          EvSend inflate_vq (PfnArray (flat_map page_pfns got)) Sleeping;
          EvUnlock].
Proof.
  intros HK Hdiv Hfeat Hbroken Hlock Hlen Hfuel Halloc.
  destruct (fill_balloon_legacy fuel 1024 vb HK Hdiv Hfeat Hbroken Hlock Hlen
              Hfuel)
    as (got & exhausted & n & vb' & Hrun & Hp & Hn & Hle & Hex & Hnp & Ht).
  destruct exhausted.
  { destruct (Halloc (n_alloc vb + length got)%nat ltac:(lia)) as [p Hp'].
    congruence. }
  change (1024 `min` VIRTIO_BALLOON_ARRAY_PFNS_MAX)
    with VIRTIO_BALLOON_ARRAY_PFNS_MAX in Hex.
  assert (n = VIRTIO_BALLOON_ARRAY_PFNS_MAX) as -> by lia.
  exists got, vb'. split; [exact Hrun|]. split; [exact Hp|].
  split; [lia|]. split.
  - destruct Hnp as [[-> _]|Hnp]; [|exact Hnp].
    simpl in Hn. unfold VIRTIO_BALLOON_ARRAY_PFNS_MAX in Hn. lia.
  - rewrite Ht. reflexivity.
Qed.


(** ** The size-negotiation step *)

Lemma u32_add_r x y : u32 (x + u32 y) = u32 (x + y).
Proof. unfold u32. apply Zplus_mod_idemp_r. Qed.

Lemma u32_sub_r x y : u32 (x - u32 y) = u32 (x - y).
Proof. unfold u32. apply Zminus_mod_idemp_r. Qed.

(** What both loops maintain, in either encoding mode: [num_pfns] is the
    32-bit count of the units moved so far, and [num_pages] has moved by as
    much ([sign] is 1 when growing and -1 when shrinking). *)
Definition counted (sign np0 : Z) (vb : virtio_balloon) : Prop :=
  0 <= num_pfns vb < 2 ^ 32 /\
  num_pages vb = u32 (np0 + sign * num_pfns vb).

Lemma fill_loop_counted fuel chunking num np0 vb :
  counted 1 np0 vb ->
  wp (fill_loop fuel chunking num) (fun _ => counted 1 np0) (fun _ => True) vb.
Proof.
  revert vb. induction fuel as [|k IH]; intros vb Hc; simpl.
  - unfold wp, bind, get. destruct (num_pfns vb <? num); simpl; auto.
  - apply wp_bind. unfold wp at 1, get.
    destruct (num_pfns vb <? num); [|exact Hc].
    apply wp_bind. unfold wp at 1, balloon_page_enqueue, bind, get, modify.
    simpl. destruct (alloc_page (n_alloc vb)) as [page|]; simpl;
      [|exact Hc].
    apply wp_bind. eapply wp_mono.
    + apply keeps_wp with
        (P := fun l => l.1.1 = num_pages vb /\ l.2 = num_pfns vb);
        [destruct chunking; auto with keeps|now split].
    + simpl. intros _ vb1 [Hn Hf].
      apply IH. destruct Hc as [Hr Hnp]. unfold counted. simpl.
      rewrite Hn, Hf, Hnp. split; [apply u32_range|].
      rewrite u32_add_l, !Z.mul_1_l, u32_add_r. f_equal. lia.
    + auto.
Qed.

Lemma leak_loop_counted fuel chunking num l np0 vb :
  counted (-1) np0 vb ->
  wp (leak_loop fuel chunking num l) (fun _ => counted (-1) np0)
     (fun _ => True) vb.
Proof.
  revert vb l. induction fuel as [|k IH]; intros vb l Hc; simpl.
  - unfold wp, bind, get. destruct (num_pfns vb <? num); simpl; auto.
  - apply wp_bind. unfold wp at 1, get.
    destruct (num_pfns vb <? num); [|exact Hc].
    apply wp_bind. unfold wp at 1, balloon_page_dequeue, bind, get, modify.
    destruct (pages vb) as [|page rest] eqn:Hpages; simpl; [exact Hc|].
    apply wp_bind. eapply wp_mono.
    + apply keeps_wp with
        (P := fun l => l.1.1 = num_pages vb /\ l.2 = num_pfns vb);
        [auto with keeps|now split].
    + simpl. intros _ vb1 H1. apply wp_bind. eapply wp_mono.
      * apply keeps_wp with
          (P := fun l => l.1.1 = num_pages vb /\ l.2 = num_pfns vb);
          [destruct chunking; auto with keeps|exact H1].
      * simpl. intros _ vb2 [Hn Hf].
        apply IH. destruct Hc as [Hr Hnp]. unfold counted. simpl.
        rewrite Hn, Hf, Hnp. split; [apply u32_range|].
        rewrite u32_sub_l.
        replace (np0 + -1 * u32 (num_pfns vb + K))
          with (np0 - u32 (num_pfns vb + K)) by lia.
        rewrite u32_sub_r. f_equal. lia.
      * auto.
    + auto.
Qed.

(** What [fill_balloon] returns is what it added to [num_pages], in both
    encoding modes. *)
Lemma fill_balloon_counts fuel num vb :
  0 <= num_pages vb < 2 ^ 32 ->
  wp (fill_balloon fuel num)
     (fun n vb' => 0 <= n < 2 ^ 32 /\ num_pages vb' = u32 (num_pages vb + n))
     (fun _ => True) vb.
Proof.
  intros Hnp. unfold fill_balloon.
  apply wp_bind. unfold wp at 1, get.
  apply wp_bind. eapply wp_mono.
  { apply keeps_wp with (P := fun l => l.1.1 = num_pages vb);
      [destruct (feat_chunks vb); auto with keeps|reflexivity]. }
  2:{ auto. }
  simpl. intros _ vb1 H1.
  apply wp_bind. eapply wp_mono.
  { apply keeps_wp with (P := fun l => l.1.1 = num_pages vb);
      [auto with keeps|exact H1]. }
  2:{ auto. }
  simpl. intros _ vb2 H2.
  apply wp_bind. unfold wp at 1, modify.
  apply wp_bind. eapply wp_mono.
  { apply fill_loop_counted with (np0 := num_pages vb).
    unfold counted. simpl. rewrite H2, Z.add_0_r, u32_small by lia.
    split; [lia|reflexivity]. }
  2:{ auto. }
  simpl. intros _ vb3 [Hr3 Hn3].
  apply wp_bind. unfold wp at 1, get.
  apply wp_bind. eapply wp_mono.
  { apply keeps_wp with (P := fun l => l.1.1 = num_pages vb3); [|reflexivity].
    apply keeps_when. destruct (feat_chunks vb); auto with keeps. }
  2:{ auto. }
  simpl. intros _ vb4 H4.
  apply wp_bind. eapply wp_mono.
  { apply keeps_wp with (P := fun l => l.1.1 = num_pages vb3);
      [auto with keeps|exact H4]. }
  2:{ auto. }
  simpl. intros _ vb5 H5.
  unfold wp, ret. split; [exact Hr3|].
  rewrite H5, Hn3. f_equal. lia.
Qed.

(** What [leak_balloon] returns is what it took off [num_pages]. *)
Lemma leak_balloon_counts fuel num vb :
  0 <= num_pages vb < 2 ^ 32 ->
  wp (leak_balloon fuel num)
     (fun n vb' => 0 <= n < 2 ^ 32 /\ num_pages vb' = u32 (num_pages vb - n))
     (fun _ => True) vb.
Proof.
  intros Hnp. unfold leak_balloon.
  apply wp_bind. unfold wp at 1, get.
  apply wp_bind. eapply wp_mono.
  { apply keeps_wp with (P := fun l => l.1.1 = num_pages vb);
      [destruct (feat_chunks vb); auto with keeps|reflexivity]. }
  2:{ auto. }
  simpl. intros _ vb1 H1.
  apply wp_bind. eapply wp_mono.
  { apply keeps_wp with (P := fun l => l.1.1 = num_pages vb);
      [auto with keeps|exact H1]. }
  2:{ auto. }
  simpl. intros _ vb2 H2.
  apply wp_bind. unfold wp at 1, get.
  apply wp_bind. unfold wp at 1, modify.
  apply wp_bind. eapply wp_mono.
  { apply leak_loop_counted with (np0 := num_pages vb).
    unfold counted. simpl. rewrite H2, Z.add_0_r, u32_small by lia.
    split; [lia|reflexivity]. }
  2:{ auto. }
  simpl. intros l vb3 [Hr3 Hn3].
  apply wp_bind. unfold wp at 1, get.
  apply wp_bind. eapply wp_mono.
  { apply keeps_wp with (P := fun l => l.1.1 = num_pages vb3); [|reflexivity].
    apply keeps_when. destruct (feat_chunks vb); auto with keeps. }
  2:{ auto. }
  simpl. intros _ vb4 H4.
  apply wp_bind. eapply wp_mono.
  { apply keeps_wp with (P := fun l => l.1.1 = num_pages vb3);
      [auto with keeps|exact H4]. }
  2:{ auto. }
  simpl. intros _ vb5 H5.
  apply wp_bind. eapply wp_mono.
  { apply keeps_wp with (P := fun l => l.1.1 = num_pages vb3);
      [auto with keeps|exact H5]. }
  2:{ auto. }
  simpl. intros _ vb6 H6.
  unfold wp, ret. split; [exact Hr3|].
  rewrite H6, Hn3. f_equal; lia.
Qed.

(** The end of a step: the new size is written to the configuration
    space, and the work is queued again when the target is not met. *)
Definition step_end (target : Z) (vb' : virtio_balloon) : list event :=
  EvConfigActual (num_pages vb')
  :: (if target =? num_pages vb' then [] else [EvQueueWork]).

Lemma update_balloon_size_func_end fuel vb :
  0 <= num_pages vb < 2 ^ 32 ->
  wp (update_balloon_size_func fuel)
     (fun _ vb' =>
        config_actual vb' = num_pages vb' /\
        exists pre,
          trace vb' = pre ++ step_end (u32 (config_num_pages vb)) vb')
     (fun _ => True) vb.
Proof.
  intros Hnp. unfold update_balloon_size_func.
  apply wp_bind. unfold wp at 1, towards_target, bind, get, ret.
  set (target := u32 (config_num_pages vb)).
  assert (Ht : 0 <= target < 2 ^ 32) by apply u32_range.
  assert (Hend : forall diff vb1,
    0 <= num_pages vb1 < 2 ^ 32 ->
    (diff = 0 <-> target = num_pages vb1) ->
    wp (update_balloon_size ;; when (negb (diff =? 0)) (emit EvQueueWork))
       (fun _ vb' =>
          config_actual vb' = num_pages vb' /\
          exists pre, trace vb' = pre ++ step_end target vb')
       (fun _ => True) vb1).
  { intros diff vb1 Hr Hiff.
    unfold wp, bind, update_balloon_size, bind, get, modify, emit, modify.
    rewrite u32_small by exact Hr. unfold step_end.
    destruct (Z.eqb_spec diff 0) as [Hd|Hd]; simpl.
    - split; [reflexivity|]. exists (trace vb1).
      destruct (Z.eqb_spec target (num_pages vb1)) as [_|Hne];
        [reflexivity|].
      exfalso. apply Hne, Hiff, Hd.
    - split; [reflexivity|]. exists (trace vb1).
      destruct (Z.eqb_spec target (num_pages vb1)) as [He|_];
        [exfalso; apply Hd, Hiff, He|].
      now rewrite <- app_assoc. }
  apply wp_bind.
  destruct (Z.ltb_spec 0 (target - num_pages vb)) as [Hpos|Hle].
  - apply wp_bind. eapply wp_mono;
      [apply fill_balloon_counts; exact Hnp| |auto].
    simpl. intros n vb1 [Hn Hn1]. unfold wp at 1, ret.
    apply Hend; [rewrite Hn1; apply u32_range|].
    rewrite Hn1. split.
    + intros Hd. rewrite u32_small by lia. lia.
    + intros He.
      assert (Hm : (num_pages vb + n) mod 2 ^ 32 = target) by (symmetry; exact He).
      rewrite (Z.div_mod (num_pages vb + n) (2 ^ 32)) in Hm by lia.
      assert (0 <= (num_pages vb + n) / 2 ^ 32 < 2).
      { split; [apply Z.div_pos; lia|apply Z.div_lt_upper_bound; lia]. }
      pose proof (Z.mod_pos_bound (num_pages vb + n) (2 ^ 32)).
      rewrite Z.add_comm, Z.mul_comm, Z.mod_add in Hm by lia.
      rewrite Z.mod_mod in Hm by lia.
      assert (Hq : (num_pages vb + n) / 2 ^ 32 = 0
                   \/ (num_pages vb + n) / 2 ^ 32 = 1) by lia.
      pose proof (Z.div_mod (num_pages vb + n) (2 ^ 32) ltac:(lia)) as Hdm.
      destruct Hq as [Hq|Hq]; rewrite Hq in Hdm; lia.
  - destruct (Z.ltb_spec (target - num_pages vb) 0) as [Hneg|Hge].
    + apply wp_bind. eapply wp_mono;
        [apply leak_balloon_counts; exact Hnp| |auto].
      simpl. intros n vb1 [Hn Hn1]. unfold wp at 1, ret.
      apply Hend; [rewrite Hn1; apply u32_range|].
      rewrite Hn1. split.
      * intros Hd. rewrite u32_small by lia. lia.
      * intros He.
        assert (Hm : (num_pages vb - n) mod 2 ^ 32 = target)
          by (symmetry; exact He).
        assert (-1 <= (num_pages vb - n) / 2 ^ 32 < 1).
        { split; [apply Z.div_le_lower_bound; lia
                 |apply Z.div_lt_upper_bound; lia]. }
        pose proof (Z.div_mod (num_pages vb - n) (2 ^ 32) ltac:(lia)) as Hdm.
        assert (Hq : (num_pages vb - n) / 2 ^ 32 = 0
                     \/ (num_pages vb - n) / 2 ^ 32 = -1) by lia.
        destruct Hq as [Hq|Hq]; rewrite Hq in Hdm; lia.
    + unfold wp at 1, ret. apply Hend; [exact Hnp|]. lia.
Qed.

(** X22.  On the legacy path, with a transport that takes buffers and the
    lock free, every step of the negotiation returns; the last things it
    did are to write the new [num_pages] to the configuration space and
    to queue the same work again exactly when [num_pages] still differs
    from the target it read. *)
Theorem update_balloon_size_func_legacy_step fuel vb :
  0 <= num_pages vb < 2 ^ 32 ->
  0 < K -> (K | VIRTIO_BALLOON_ARRAY_PFNS_MAX) ->
  feat_chunks vb = false -> vq_broken vb = false ->
  balloon_lock vb = false ->
  Z.of_nat (length (pfns vb)) = VIRTIO_BALLOON_ARRAY_PFNS_MAX ->
  VIRTIO_BALLOON_ARRAY_PFNS_MAX <= Z.of_nat fuel ->
  exists vb',
    update_balloon_size_func fuel vb = Done tt vb' /\
    config_actual vb' = num_pages vb' /\
    exists pre,
      trace vb' = pre ++ step_end (u32 (config_num_pages vb)) vb'.
Proof.
  intros Hnp HK Hdiv Hfeat Hbroken Hlock Hlen Hfuel.
  assert (Hret : exists vb', update_balloon_size_func fuel vb = Done tt vb').
  { unfold update_balloon_size_func.
    unfold bind at 1, towards_target at 1, bind at 1, get at 1, ret at 1.
    assert (Hend : forall diff vb1,
      exists vb',
        (update_balloon_size ;; when (negb (diff =? 0)) (emit EvQueueWork)) vb1
        = Done tt vb').
    { intros diff vb1.
      unfold bind, update_balloon_size, bind, get, modify, emit, modify.
      destruct (negb (diff =? 0)); simpl; eauto. }
    unfold bind at 1.
    destruct (0 <? u32 (config_num_pages vb) - num_pages vb).
    + destruct (fill_balloon_legacy fuel
                  (u32 (config_num_pages vb) - num_pages vb) vb HK Hdiv Hfeat
                  Hbroken Hlock Hlen Hfuel)
        as (got & exhausted & n & vb1 & Hrun & _).
      rewrite (bind_Done _ _ _ _ _ Hrun). unfold ret at 1. apply Hend.
    + destruct (u32 (config_num_pages vb) - num_pages vb <? 0).
      * destruct (leak_balloon_legacy fuel
                    (- (u32 (config_num_pages vb) - num_pages vb)) vb HK Hdiv
                    Hfeat Hbroken Hlock Hlen Hfuel)
          as (deq & n & vb1 & Hrun & _).
        rewrite (bind_Done _ _ _ _ _ Hrun). unfold ret at 1. apply Hend.
      * unfold ret at 1. apply Hend. }
  destruct Hret as [vb' Hrun]. exists vb'. split; [exact Hrun|].
  exact (wp_Done _ _ _ _ _ _ (update_balloon_size_func_end fuel vb Hnp) Hrun).
Qed.


(** ** The chunk buffer and its cap *)

(** The entry that [add_one_chunk] writes. *)
Definition wire_chunk (base size : Z) : page_chunk :=
  {| chunk_base := u64 (Z.shiftl base VIRTIO_BALLOON_CHUNK_BASE_SHIFT);
     chunk_size := u64 (Z.shiftl size VIRTIO_BALLOON_CHUNK_SIZE_SHIFT) |}.

Lemma chunks_of_set_chunks_of type l vb :
  chunks_of type (set_chunks_of type l vb) = l.
Proof. now destruct type. Qed.

(** With a transport that takes the buffer, a chunk added below the cap
    leaves the count below the cap: the buffer is handed over, by a
    sleeping wait, exactly when the count reaches MAX_PAGE_CHUNKS, and the
    count is zero afterwards. *)
Lemma add_one_chunk_flushes_at_cap vq type base size vb :
  vq_broken vb = false ->
  Z.of_nat (length (chunks_of type vb)) < MAX_PAGE_CHUNKS ->
  let full := chunks_of type vb ++ [wire_chunk base size] in
  let vb1 := set_chunks_of type full vb in
  add_one_chunk vq type base size vb
  = Done tt
      (if Z.of_nat (length full) =? MAX_PAGE_CHUNKS
       then set_chunks_of type []
              (with_trace (trace vb1 ++ [EvSend vq (chunk_buf type vb1) Sleeping])
                 vb1)
       else vb1).
Proof.
  intros Hbroken Hlen. simpl.
  unfold add_one_chunk, bind at 1, get at 1.
  destruct (Z.ltb_spec (Z.of_nat (length (chunks_of type vb))) MAX_PAGE_CHUNKS)
    as [_|Hge]; [|lia].
  unfold bind at 1, modify at 1. fold (wire_chunk base size).
  destruct (Z.of_nat (length (chunks_of type vb ++ [wire_chunk base size]))
            =? MAX_PAGE_CHUNKS); [|reflexivity].
  unfold when, send_page_chunks, bind at 1, get at 1.
  replace (vq_broken (set_chunks_of type _ vb)) with false
    by (now destruct type).
  reflexivity.
Qed.

(** C4, where it fails.  When the transport refuses the buffer (the queue
    is broken), the chunk that brings the count to MAX_PAGE_CHUNKS calls
    [send_page_chunks] in vain: nothing is handed over and the count stays
    at the cap; the next chunk is then written behind the last entry of
    the buffer. *)
Theorem add_one_chunk_broken_queue_overruns vq type base size base' size' vb :
  vq_broken vb = true ->
  Z.of_nat (length (chunks_of type vb)) = MAX_PAGE_CHUNKS - 1 ->
  exists vb',
    add_one_chunk vq type base size vb = Done tt vb' /\
    Z.of_nat (length (chunks_of type vb')) = MAX_PAGE_CHUNKS /\
    trace vb' = trace vb /\
    add_one_chunk vq type base' size' vb' = Stuck Fault vb'.
Proof.
  intros Hbroken Hlen.
  exists (set_chunks_of type (chunks_of type vb ++ [wire_chunk base size]) vb).
  assert (Hfull : Z.of_nat (length (chunks_of type vb ++ [wire_chunk base size]))
                  = MAX_PAGE_CHUNKS).
  { rewrite length_app. simpl. lia. }
  split; [|split; [|split]].
  - unfold add_one_chunk, bind at 1, get at 1.
    destruct (Z.ltb_spec (Z.of_nat (length (chunks_of type vb)))
                MAX_PAGE_CHUNKS) as [_|Hge]; [|lia].
    unfold bind at 1, modify at 1. fold (wire_chunk base size).
    rewrite Hfull, Z.eqb_refl.
    unfold when, send_page_chunks, bind at 1, get at 1.
    replace (vq_broken (set_chunks_of type _ vb)) with true
      by (now destruct type).
    reflexivity.
  - now rewrite chunks_of_set_chunks_of.
  - now destruct type.
  - unfold add_one_chunk, bind at 1, get at 1.
    rewrite chunks_of_set_chunks_of, Hfull, Z.ltb_irrefl. reflexivity.
Qed.


(** ** The unused-page inquiry *)

(** The chunk of a free block: its page-frame number and 2^order pages. *)
Definition block_chunk (order : nat) (pfn : Z) : page_chunk :=
  wire_chunk (u64 pfn) (2 ^ Z.of_nat order).

(** The free blocks of the given orders, zone by zone, order by order and
    migratetype by migratetype, as chunks. *)
Definition blocks_of_type (zone order migratetype : nat) : list page_chunk :=
  map (block_chunk order) (free_list zone order migratetype).

Definition blocks_of_order (zone order : nat) : list page_chunk :=
  flat_map (blocks_of_type zone order) (seq 0 MIGRATE_TYPES).

Definition blocks_of_zones (orders : list nat) : list page_chunk :=
  flat_map (fun zone => flat_map (blocks_of_order zone) orders)
    populated_zones.

(** What the responder reports: the orders from MAX_ORDER - 1 down to 1. *)
Definition reported_chunks : list page_chunk :=
  blocks_of_zones (rev (seq 1 (MAX_ORDER - 1))).

(** What the claim has it report: every order, from MAX_ORDER - 1 down to
    0. *)
Definition all_free_chunks : list page_chunk :=
  blocks_of_zones (rev (seq 0 MAX_ORDER)).

(** The buffers of one answer: full ones on the way, by a sleeping wait and
    without the flag, and the last one by busy-wait with the "complete"
    flag. *)
Definition mid_flush (chunks : list page_chunk) : event :=
  EvSend miscq
    (UnusedChunks VIRTIO_BALLOON_MISCQ_INQUIRE_UNUSED_PAGES 0 chunks)
    Sleeping.

Definition final_flush (chunks : list page_chunk) : event :=
  EvSend miscq
    (UnusedChunks VIRTIO_BALLOON_MISCQ_INQUIRE_UNUSED_PAGES
       (Z.lor 0 VIRTIO_BALLOON_MISCQ_F_COMPLETE) chunks)
    BusyWait.

(** The chunks that unused-chunk buffers of a trace carried to the host. *)
Definition unused_chunks_sent (tr : list event) : list page_chunk :=
  flat_map (fun e => match e with
                     | EvSend _ (UnusedChunks _ _ chunks) _ => chunks
                     | _ => []
                     end) tr.

(** The state in the middle of an answer that started with the trace [tr0]
    and has produced the chunks [acc] so far. *)
Definition answering (tr0 : list event) (acc : list page_chunk)
    (vb : virtio_balloon) : Prop :=
  vq_broken vb = false /\
  miscq_cmd vb = VIRTIO_BALLOON_MISCQ_INQUIRE_UNUSED_PAGES /\
  miscq_flags vb = 0 /\
  Z.of_nat (length (unused_chunks vb)) < MAX_PAGE_CHUNKS /\
  exists batches,
    Forall (fun b => Z.of_nat (length b) = MAX_PAGE_CHUNKS) batches /\
    trace vb = tr0 ++ map mid_flush batches /\
    concat batches ++ unused_chunks vb = acc.

Lemma add_unused_chunk_answering tr0 acc base size vb :
  answering tr0 acc vb ->
  wp (add_one_chunk miscq PAGE_CHUNK_TYPE_UNUSED base size)
     (fun _ => answering tr0 (acc ++ [wire_chunk base size]))
     (fun _ => False) vb.
Proof.
  intros (Hb & Hc & Hf & Hlen & batches & Hfull & Ht & Hacc).
  unfold wp.
  rewrite (add_one_chunk_flushes_at_cap miscq PAGE_CHUNK_TYPE_UNUSED base
             size vb Hb Hlen).
  simpl chunks_of.
  destruct (Z.eqb_spec
              (Z.of_nat (length (unused_chunks vb ++ [wire_chunk base size])))
              MAX_PAGE_CHUNKS) as [He|Hne];
    unfold answering; simpl.
  - split; [exact Hb|]. split; [exact Hc|]. split; [exact Hf|].
    split; [reflexivity|].
    exists (batches ++ [unused_chunks vb ++ [wire_chunk base size]]).
    split; [|split].
    + apply Forall_app. split; [exact Hfull|]. now constructor.
    + rewrite Ht, Hc, Hf, map_app, <- app_assoc. reflexivity.
    + rewrite concat_app. simpl. rewrite !app_nil_r, <- Hacc.
      now rewrite app_assoc.
  - split; [exact Hb|]. split; [exact Hc|]. split; [exact Hf|]. split.
    + rewrite length_app in *. simpl in *. lia.
    + exists batches. split; [exact Hfull|]. split; [exact Ht|].
      now rewrite <- Hacc, app_assoc.
Qed.

Lemma shift_one_order (order : nat) :
  (order <= 30)%nat ->
  u64 (s32 (Z.shiftl 1 (Z.of_nat order))) = 2 ^ Z.of_nat order.
Proof.
  intros Ho. rewrite Z.shiftl_1_l.
  assert (H1 : 0 < 2 ^ Z.of_nat order) by (apply Z.pow_pos_nonneg; lia).
  assert (H2 : 2 ^ Z.of_nat order <= 2 ^ 30)
    by (apply Z.pow_le_mono_r; lia).
  unfold s32, u64.
  rewrite (Z.mod_small (2 ^ Z.of_nat order + 2 ^ 31)) by lia.
  rewrite Z.mod_small; lia.
Qed.

Lemma inquire_loop_answering tr0 acc blocks order vb :
  (order <= 30)%nat ->
  answering tr0 acc vb ->
  wp (inquire_loop blocks miscq order)
     (fun _ => answering tr0 (acc ++ map (block_chunk order) blocks))
     (fun _ => False) vb.
Proof.
  intros Ho. revert acc vb.
  induction blocks as [|pfn rest IH]; intros acc vb Hinv; simpl.
  - unfold wp, ret. now rewrite app_nil_r.
  - apply wp_bind. eapply wp_mono.
    + apply add_unused_chunk_answering. exact Hinv.
    + simpl. intros _ vb1 H1. rewrite shift_one_order in H1 by exact Ho.
      eapply wp_mono; [apply IH; exact H1| |auto].
      simpl. intros _ vb2 H2. now rewrite <- app_assoc in H2.
    + auto.
Qed.

Lemma migratetype_loop_answering tr0 acc todo zone order migratetype vb :
  (order <= 30)%nat ->
  answering tr0 acc vb ->
  wp (migratetype_loop todo miscq zone order migratetype)
     (fun _ => answering tr0
                 (acc ++ flat_map (blocks_of_type zone order)
                           (seq migratetype todo)))
     (fun _ => False) vb.
Proof.
  intros Ho. revert acc migratetype vb.
  induction todo as [|k IH]; intros acc migratetype vb Hinv; simpl.
  - unfold wp, ret. now rewrite app_nil_r.
  - apply wp_bind. eapply wp_mono.
    + apply inquire_loop_answering; [exact Ho|exact Hinv].
    + simpl. intros _ vb1 H1.
      eapply wp_mono; [apply IH; exact H1| |auto].
      simpl. intros _ vb2 H2. now rewrite <- app_assoc in H2.
    + auto.
Qed.

Lemma order_loop_answering tr0 acc order zone vb :
  (order <= 30)%nat ->
  answering tr0 acc vb ->
  wp (order_loop order miscq zone)
     (fun _ => answering tr0
                 (acc ++ flat_map (blocks_of_order zone) (rev (seq 1 order))))
     (fun _ => False) vb.
Proof.
  revert acc vb.
  induction order as [|k IH]; intros acc vb Ho Hinv.
  - simpl. unfold wp, ret. now rewrite app_nil_r.
  - change (order_loop (S k) miscq zone)
      with (migratetype_loop MIGRATE_TYPES miscq zone (S k) 0 ;;
            order_loop k miscq zone).
    apply wp_bind. eapply wp_mono.
    + apply migratetype_loop_answering; [exact Ho|exact Hinv].
    + cbv beta. intros _ vb1 H1.
      eapply wp_mono; [apply IH; [lia|exact H1]| |auto].
      cbv beta. intros _ vb2 H2.
      rewrite seq_S, rev_app_distr. simpl.
      now rewrite <- app_assoc in H2.
    + auto.
Qed.

Lemma zone_loop_answering tr0 acc zones vb :
  (MAX_ORDER <= 31)%nat ->
  answering tr0 acc vb ->
  wp (zone_loop zones miscq)
     (fun _ => answering tr0
                 (acc ++ flat_map
                           (fun zone => flat_map (blocks_of_order zone)
                                          (rev (seq 1 (MAX_ORDER - 1))))
                           zones))
     (fun _ => False) vb.
Proof.
  intros Hmax. revert acc vb.
  induction zones as [|zone rest IH]; intros acc vb Hinv; simpl.
  - unfold wp, ret. now rewrite app_nil_r.
  - apply wp_bind. eapply wp_mono.
    + apply order_loop_answering; [lia|exact Hinv].
    + simpl. intros _ vb1 H1.
      eapply wp_mono; [apply IH; exact H1| |auto].
      simpl. intros _ vb2 H2. now rewrite <- app_assoc in H2.
    + auto.
Qed.

(** C8, as the code has it.  With a transport that takes the buffers and
    an empty chunk buffer to start with, the answer to an inquiry returns
    and carries one chunk (page-frame number, 2^order) for every free
    block of every populated zone, of the orders MAX_ORDER - 1 down to 1
    and of every migratetype, in that order; order 0 is not asked for.
    Full buffers go out on the way; the last buffer has the "complete"
    flag and is waited for busily. *)
Theorem miscq_send_unused_pages_reports_orders_above_0 vb :
  (MAX_ORDER <= 31)%nat ->
  vq_broken vb = false ->
  unused_chunks vb = [] ->
  exists batches rest vb',
    miscq_send_unused_pages vb = Done tt vb' /\
    concat batches ++ rest = reported_chunks /\
    Forall (fun b => Z.of_nat (length b) = MAX_PAGE_CHUNKS) batches /\
    Z.of_nat (length rest) < MAX_PAGE_CHUNKS /\
    trace vb' = trace vb ++ map mid_flush batches ++ [final_flush rest] /\
    unused_chunks vb' = [].
Proof.
  intros Hmax Hbroken Hempty.
  unfold miscq_send_unused_pages.
  unfold bind at 1, modify at 1. unfold bind at 1, modify at 1.
  set (vb0 := with_miscq_flags 0 _).
  assert (H0 : answering (trace vb) [] vb0).
  { unfold answering, vb0. simpl. rewrite Hempty. simpl.
    split; [exact Hbroken|]. split; [reflexivity|]. split; [reflexivity|].
    split; [reflexivity|].
    exists []. simpl. now rewrite app_nil_r. }
  pose proof (zone_loop_answering (trace vb) [] populated_zones vb0 Hmax H0)
    as Hrun.
  unfold wp in Hrun. unfold bind at 1.
  destruct (zone_loop populated_zones miscq vb0) as [[] vb1|]; [|contradiction].
  destruct Hrun as (Hb & Hc & Hf & Hlen & batches & Hfull & Ht & Hacc).
  exists batches, (unused_chunks vb1). eexists. split.
  { unfold bind at 1, modify at 1.
    unfold send_page_chunks, bind at 1, get at 1.
    replace (vq_broken (with_miscq_flags _ vb1)) with false by (symmetry; exact Hb).
    simpl negb. cbv iota. unfold bind, emit, modify. reflexivity. }
  simpl. rewrite Ht, Hc, Hf, <- app_assoc.
  repeat split; auto.
Qed.


(** ** Page migration *)

Lemma mutex_trylock_free vb :
  balloon_lock vb = false ->
  mutex_trylock vb
  = Done true (with_trace (trace vb ++ [EvLock]) (with_balloon_lock true vb)).
Proof. intros H. unfold mutex_trylock, bind, get. now rewrite H. Qed.

(** The primitive steps of a run, as equations to rewrite with. *)
Lemma bind_get {B} (k : virtio_balloon -> M B) vb : bind get k vb = k vb vb.
Proof. reflexivity. Qed.

Lemma bind_modify {B} f (k : unit -> M B) vb :
  bind (modify f) k vb = k tt (f vb).
Proof. reflexivity. Qed.

Lemma bind_emit {B} e (k : unit -> M B) vb :
  bind (emit e) k vb = k tt (with_trace (trace vb ++ [e]) vb).
Proof. reflexivity. Qed.

Lemma bind_assoc {A B C} (m : M A) (f : A -> M B) (g : B -> M C) vb :
  bind (bind m f) g vb = bind m (fun a => bind (f a) g) vb.
Proof. unfold bind. destruct (m vb); reflexivity. Qed.

Ltac run_prim :=
  repeat first
    [ rewrite bind_assoc | rewrite bind_get | rewrite bind_modify
    | rewrite bind_emit | rewrite bind_ret | progress cbv beta ].

Lemma virtballoon_migratepage_legacy newpage page vb :
  0 < K <= VIRTIO_BALLOON_ARRAY_PFNS_MAX ->
  feat_chunks vb = false -> vq_broken vb = false ->
  balloon_lock vb = false ->
  Z.of_nat (length (pfns vb)) = VIRTIO_BALLOON_ARRAY_PFNS_MAX ->
  exists vb',
    virtballoon_migratepage newpage page vb = Done MIGRATEPAGE_SUCCESS vb' /\
    trace vb'
    = trace vb
      ++ [EvLock; EvGetPage newpage;
          EvSend inflate_vq (PfnArray (page_pfns newpage)) Sleeping;
          EvSend deflate_vq (PfnArray (page_pfns page)) Sleeping;
          EvUnlock; EvPutPage page].
Proof.
  intros HK Hfeat Hbroken Hlock Hlen.
  assert (Htake : forall p l,
    Z.of_nat (length l) = VIRTIO_BALLOON_ARRAY_PFNS_MAX ->
    take (Z.to_nat K) (splice (Z.to_nat 0) (page_pfns p) l) = page_pfns p).
  { intros p l Hl.
    replace (Z.to_nat K) with (0 + length (page_pfns p))%nat
      by (rewrite length_page_pfns; lia).
    change (Z.to_nat 0) with 0%nat.
    rewrite take_splice by (rewrite length_page_pfns; lia). reflexivity. }
  eexists. split.
  { unfold virtballoon_migratepage.
    rewrite bind_get. cbv beta zeta. rewrite Hfeat.
    rewrite (bind_Done _ _ _ _ _ (mutex_trylock_free vb Hlock)).
    cbv beta. change (negb true) with false. cbv iota.
    unfold balloon_page_insert at 1. run_prim.
    match goal with |- context [bind (set_page_pfns 0 ?p) ?k ?s] =>
      rewrite (bind_Done (set_page_pfns 0 p) k s tt _
                 (set_page_pfns_spec 0 p s ltac:(lia)
                    ltac:(simpl; rewrite ?length_splice;
                          rewrite ?length_page_pfns; simpl; lia)
                    ltac:(lia) ltac:(lia)))
    end.
    match goal with |- context [bind (tell_host ?q) ?k ?s] =>
      rewrite (bind_Done (tell_host q) k s tt _
                 (tell_host_legacy q s ltac:(simpl; congruence)
                    ltac:(simpl; congruence)))
    end.
    unfold balloon_page_delete at 1. run_prim.
    match goal with |- context [bind (set_page_pfns 0 ?p) ?k ?s] =>
      rewrite (bind_Done (set_page_pfns 0 p) k s tt _
                 (set_page_pfns_spec 0 p s ltac:(lia)
                    ltac:(simpl; rewrite ?length_splice;
                          rewrite ?length_page_pfns; simpl; lia)
                    ltac:(lia) ltac:(lia)))
    end.
    match goal with |- context [bind (tell_host ?q) ?k ?s] =>
      rewrite (bind_Done (tell_host q) k s tt _
                 (tell_host_legacy q s ltac:(simpl; congruence)
                    ltac:(simpl; congruence)))
    end.
    unfold mutex_unlock at 1. run_prim. unfold ret. reflexivity. }
  simpl. rewrite !Htake; [|rewrite length_splice;
                            rewrite ?length_page_pfns; simpl; lia|exact Hlen].
  rewrite <- !app_assoc. reflexivity.
Qed.

(** A chunk that leaves the count below the cap is only stored. *)
Lemma add_one_chunk_below_cap vq type base size vb :
  Z.of_nat (length (chunks_of type vb)) + 1 < MAX_PAGE_CHUNKS ->
  add_one_chunk vq type base size vb
  = Done tt (set_chunks_of type (chunks_of type vb ++ [wire_chunk base size])
               vb).
Proof.
  intros Hlen. unfold add_one_chunk, bind at 1, get at 1.
  destruct (Z.ltb_spec (Z.of_nat (length (chunks_of type vb))) MAX_PAGE_CHUNKS)
    as [_|Hge]; [|lia].
  unfold bind at 1, modify at 1. fold (wire_chunk base size).
  destruct (Z.eqb_spec
              (Z.of_nat (length (chunks_of type vb ++ [wire_chunk base size])))
              MAX_PAGE_CHUNKS) as [He|_]; [|reflexivity].
  rewrite length_app in He. simpl in He. lia.
Qed.

(** C3, where it fails.  With the chunk feature, and room for two more
    chunks in the buffer, a migration tells the host nothing: the chunks of
    the new and of the old page are left in the chunk buffer, no buffer is
    handed to a virtqueue, and the lock is dropped and the old page
    released all the same. *)
Theorem virtballoon_migratepage_chunks_stay_in_buffer newpage page vb :
  feat_chunks vb = true ->
  balloon_lock vb = false ->
  Z.of_nat (length (balloon_chunks vb)) + 2 < MAX_PAGE_CHUNKS ->
  exists vb',
    virtballoon_migratepage newpage page vb = Done MIGRATEPAGE_SUCCESS vb' /\
    trace vb' = trace vb ++ [EvLock; EvGetPage newpage; EvUnlock; EvPutPage page] /\
    balloon_chunks vb'
    = balloon_chunks vb ++ [wire_chunk newpage 1; wire_chunk page 1].
Proof.
  intros Hfeat Hlock Hroom.
  assert (Hadd : forall vq p vb0,
    Z.of_nat (length (balloon_chunks vb0)) + 1 < MAX_PAGE_CHUNKS ->
    add_one_chunk vq PAGE_CHUNK_TYPE_BALLOON p 1 vb0
    = Done tt (with_balloon_chunks (balloon_chunks vb0 ++ [wire_chunk p 1])
                 vb0)).
  { intros vq p vb0 Hlen.
    exact (add_one_chunk_below_cap vq PAGE_CHUNK_TYPE_BALLOON p 1 vb0 Hlen). }
  eexists. split.
  { unfold virtballoon_migratepage.
    rewrite bind_get. cbv beta zeta. rewrite Hfeat.
    rewrite (bind_Done _ _ _ _ _ (mutex_trylock_free vb Hlock)).
    cbv beta. change (negb true) with false. cbv iota.
    unfold balloon_page_insert at 1, tell_host_one_page at 1. run_prim.
    match goal with |- context [bind (add_one_chunk ?q _ ?p 1) ?k ?s] =>
      rewrite (bind_Done (add_one_chunk q PAGE_CHUNK_TYPE_BALLOON p 1) k s tt _
                 (Hadd q p s ltac:(simpl; lia)))
    end.
    unfold balloon_page_delete at 1, tell_host_one_page at 1. run_prim.
    match goal with |- context [bind (add_one_chunk ?q _ ?p 1) ?k ?s] =>
      rewrite (bind_Done (add_one_chunk q PAGE_CHUNK_TYPE_BALLOON p 1) k s tt _
                 (Hadd q p s ltac:(simpl; rewrite length_app; simpl; lia)))
    end.
    unfold mutex_unlock at 1. run_prim. unfold ret. reflexivity. }
  simpl. rewrite <- !app_assoc. split; reflexivity.
Qed.



(** ** A batch of one page on the chunk path *)

Lemma ALIGN_pow2 x n :
  0 <= n -> ALIGN x (2 ^ n) = u64 (x + (2 ^ n - 1)) / 2 ^ n * 2 ^ n.
Proof.
  intros Hn. unfold ALIGN.
  rewrite <- Z.ldiff_land.
  replace (2 ^ n - 1) with (Z.ones n) at 2 by (rewrite Z.ones_equiv; lia).
  rewrite Z.ldiff_ones_r by exact Hn.
  now rewrite Z.shiftr_div_pow2, Z.shiftl_mul_pow2 by exact Hn.
Qed.

Lemma PAGE_BMAP_SIZE_pow2 :
  0 <= PAGE_SHIFT -> PAGE_BMAP_SIZE = 2 ^ (PAGE_SHIFT + 3).
Proof.
  intros H. unfold PAGE_BMAP_SIZE, PAGE_SIZE.
  rewrite Z.shiftl_1_l, Z.pow_add_r by lia. lia.
Qed.

(** One bitmap buffer is all that a range of one word needs. *)
Lemma extend_page_bmap_size_one vb :
  0 <= PAGE_SHIFT <= 59 ->
  extend_page_bmap_size 1 vb = Done tt vb.
Proof.
  intros HPS. unfold extend_page_bmap_size.
  change (ALIGN 1 BITS_PER_LONG / BITS_PER_BYTE) with 8.
  rewrite PAGE_BMAP_SIZE_pow2 by lia.
  rewrite ALIGN_pow2 by lia.
  assert (H8 : 8 <= 2 ^ (PAGE_SHIFT + 3)).
  { change 8 with (2 ^ 3). apply Z.pow_le_mono_r; lia. }
  assert (H62 : 2 ^ (PAGE_SHIFT + 3) <= 2 ^ 62)
    by (apply Z.pow_le_mono_r; lia).
  unfold u64. rewrite (Z.mod_small (8 + (2 ^ (PAGE_SHIFT + 3) - 1))) by lia.
  replace ((8 + (2 ^ (PAGE_SHIFT + 3) - 1)) / 2 ^ (PAGE_SHIFT + 3)) with 1.
  2:{ apply Z.div_unique with (r := 7); lia. }
  rewrite Z.mul_1_l, Z.div_same by lia. reflexivity.
Qed.

Lemma fill_loop_done fuel chunking num vb :
  num <= num_pfns vb -> fill_loop fuel chunking num vb = Done tt vb.
Proof.
  intros H. destruct fuel; simpl; unfold bind, get;
    destruct (Z.ltb_spec (num_pfns vb) num); try lia; reflexivity.
Qed.

Lemma set_page_bmap_loop_done fuel l vq pfn_start vb :
  pfn_max vb <= pfn_start ->
  set_page_bmap_loop fuel l vq pfn_start vb = Done tt vb.
Proof.
  intros H. destruct fuel; simpl; unfold bind, get;
    destruct (Z.ltb_spec pfn_start (pfn_max vb)); try lia; reflexivity.
Qed.

Lemma round_aligned x :
  0 <= x < 2 ^ 32 -> x mod BITS_PER_LONG = 0 ->
  rounddown x BITS_PER_LONG = x /\ roundup x BITS_PER_LONG = x.
Proof.
  unfold BITS_PER_LONG. intros Hx Hm. unfold rounddown, roundup, u64.
  rewrite Hm, Z.sub_0_r.
  rewrite (Z.mod_small x) by lia.
  rewrite (Z.mod_small (x + (64 - 1))) by lia.
  pose proof (Z.div_mod x 64 ltac:(lia)) as Hdm. rewrite Hm in Hdm.
  replace ((x + (64 - 1)) / 64) with (x / 64).
  2:{ apply Z.div_unique with (r := 63); lia. }
  rewrite Z.mod_small by lia. split; lia.
Qed.

Lemma with_pfn_range_same vb :
  with_pfn_max (pfn_max vb) (with_pfn_min (pfn_min vb) vb) = vb.
Proof. now destruct vb. Qed.

(** A range that is one aligned page-frame number is empty once rounded:
    [set_page_bmap] does nothing at all. *)
Lemma set_page_bmap_aligned_single fuel l vq vb :
  0 <= PAGE_SHIFT <= 59 ->
  page_bmaps vb = 1 ->
  pfn_min vb = pfn_max vb ->
  0 <= pfn_min vb < 2 ^ 32 ->
  pfn_min vb mod BITS_PER_LONG = 0 ->
  set_page_bmap fuel l vq vb = Done tt vb.
Proof.
  intros HPS Hbmaps Heq Hr Haligned.
  destruct (round_aligned _ Hr Haligned) as [Hdown Hup].
  unfold set_page_bmap.
  unfold bind at 1, modify at 1. unfold bind at 1, modify at 1.
  rewrite Hdown.
  change (pfn_max (with_pfn_min (pfn_min vb) vb)) with (pfn_max vb).
  rewrite <- Heq, Hup. rewrite Heq at 1. rewrite with_pfn_range_same.
  unfold bind at 1, get at 1.
  rewrite <- Heq, Z.sub_diag. change (u64 (0 + 1)) with 1.
  rewrite (bind_Done _ _ _ _ _ (extend_page_bmap_size_one vb HPS)).
  rewrite (bind_Done _ _ _ _ _
             (set_page_bmap_loop_done fuel l vq (pfn_min vb) vb ltac:(lia))).
  unfold free_extended_page_bmap, bind, get. rewrite Hbmaps. reflexivity.
Qed.

(** C7, where it fails.  A batch of one page whose balloon page-frame
    number is a multiple of BITS_PER_LONG: [fill_balloon] puts the page on
    the ledger and counts it, but the rounded range is empty, so no chunk
    is made and no buffer is handed to the host. *)
Theorem fill_balloon_aligned_page_makes_no_chunk fuel num page vb :
  0 <= PAGE_SHIFT <= 59 -> 0 < K ->
  feat_chunks vb = true -> balloon_lock vb = false -> page_bmaps vb = 1 ->
  alloc_page (n_alloc vb) = Some page ->
  page_to_balloon_pfn page mod BITS_PER_LONG = 0 ->
  0 < num <= K -> (1 <= fuel)%nat ->
  exists vb',
    fill_balloon fuel num vb = Done K vb' /\
    pages vb' = pages vb ++ [page] /\
    num_pages vb' = u32 (num_pages vb + K) /\
    balloon_chunks vb' = balloon_chunks vb /\
    trace vb' = trace vb ++ [EvLock; EvUnlock].
Proof.
  intros HPS HK Hfeat Hlock Hbmaps Halloc Haligned Hnum Hfuel.
  assert (HK32 : 0 <= K < 2 ^ 32) by apply u32_range.
  assert (Hb : 0 <= page_to_balloon_pfn page < 2 ^ 32) by apply u32_range.
  destruct (round_aligned _ Hb Haligned) as [Hdown Hup].
  destruct fuel as [|k]; [lia|].
  eexists. split.
  { unfold fill_balloon.
    rewrite bind_get. cbv beta zeta. rewrite Hfeat.
    unfold init_page_bmap_range at 1, mutex_lock at 1. run_prim.
    change (balloon_lock (with_pfn_max 0 (with_pfn_min ULONG_MAX vb)))
      with (balloon_lock vb). rewrite Hlock.
    run_prim.
    change (fill_loop (S k) true num) with
      (vb <- get ;;
       if num_pfns vb <? num then
         page <- balloon_page_enqueue ;;
         match page with
         | None => emit (EvMsleep 200)
         | Some page =>
             update_page_bmap_range page ;;
             modify (fun vb => with_num_pages (u32 (num_pages vb + K)) vb) ;;
             modify (fun vb => with_num_pfns (u32 (num_pfns vb + K)) vb) ;;
             fill_loop k true num
         end
       else ret tt).
    run_prim.
    change (num_pfns (with_num_pfns 0 _)) with 0.
    destruct (Z.ltb_spec 0 num) as [_|]; [|lia].
    unfold balloon_page_enqueue at 1. run_prim.
    match goal with |- context [alloc_page (n_alloc ?s)] =>
      change (n_alloc s) with (n_alloc vb)
    end.
    rewrite Halloc.
    unfold balloon_page_insert at 1, update_page_bmap_range at 1. run_prim.
    match goal with |- context [bind (fill_loop k true num) _ ?s] =>
      set (s3 := s)
    end.
    assert (Hn3 : num_pfns s3 = K)
      by (subst s3; simpl; rewrite Z.add_0_l; apply u32_small; lia).
    assert (Hmin3 : pfn_min s3 = page_to_balloon_pfn page)
      by (subst s3; simpl; unfold ULONG_MAX; lia).
    assert (Hmax3 : pfn_max s3 = page_to_balloon_pfn page)
      by (subst s3; simpl; lia).
    rewrite (bind_Done _ _ _ _ _ (fill_loop_done k true num s3 ltac:(lia))).
    run_prim.
    replace (num_pfns s3 =? 0) with false
      by (symmetry; apply Z.eqb_neq; lia).
    change (negb false) with true. unfold when.
    rewrite (bind_Done _ _ _ _ _
               (set_page_bmap_aligned_single (S k) (pages s3) inflate_vq s3
                  HPS Hbmaps ltac:(congruence) ltac:(lia) ltac:(congruence))).
    unfold mutex_unlock at 1. run_prim. unfold ret. rewrite Hn3. reflexivity. }
  simpl. rewrite <- !app_assoc. repeat split; reflexivity.
Qed.

(** ** Growing until the counter wraps *)

(** One array worth of pages taken on the legacy path, from an allocator
    that always has a page: the call returns 256, the ledger has 256 / K
    pages more, and the device is at rest again. *)
Lemma fill_balloon_one_array fuel vb :
  0 < K -> (K | VIRTIO_BALLOON_ARRAY_PFNS_MAX) ->
  (forall n, alloc_page n <> None) ->
  feat_chunks vb = false -> vq_broken vb = false ->
  balloon_lock vb = false ->
  Z.of_nat (length (pfns vb)) = VIRTIO_BALLOON_ARRAY_PFNS_MAX ->
  VIRTIO_BALLOON_ARRAY_PFNS_MAX <= Z.of_nat fuel ->
  exists vb',
    fill_balloon fuel VIRTIO_BALLOON_ARRAY_PFNS_MAX vb
    = Done VIRTIO_BALLOON_ARRAY_PFNS_MAX vb' /\
    feat_chunks vb' = false /\ vq_broken vb' = false /\
    balloon_lock vb' = false /\
    length (pfns vb') = length (pfns vb) /\
    K * Z.of_nat (length (pages vb'))
    = K * Z.of_nat (length (pages vb)) + VIRTIO_BALLOON_ARRAY_PFNS_MAX.
Proof.
  intros HK Hdiv Halloc Hfeat Hbroken Hlock Hlen Hfuel.
  unfold fill_balloon.
  rewrite bind_get. cbv beta zeta. rewrite Hfeat.
  unfold mutex_lock at 1. run_prim. rewrite Hlock. run_prim.
  match goal with |- context [bind (fill_loop fuel false ?n) _ ?s] =>
    destruct (fill_loop_legacy fuel n s HK Hdiv)
      as (got & exhausted & vb1 & Hrun & Hp & Hn & Hle & Hnum' & Hf & Hnp
          & Ht & Hs1 & Hs2 & Hs3)
  end.
  { lia. }
  { simpl. apply Z.divide_0_r. }
  { simpl. lia. }
  { simpl. exact Hlen. }
  { simpl. lia. }
  simpl in Hp, Hn, Hle, Hnum', Hf, Hnp, Ht, Hs1, Hs2, Hs3.
  assert (Hn256 : num_pfns vb1 <= VIRTIO_BALLOON_ARRAY_PFNS_MAX)
    by (apply Hle; unfold VIRTIO_BALLOON_ARRAY_PFNS_MAX; lia).
  destruct exhausted; [now apply Halloc in Hnum'|].
  rewrite Z.min_id in Hnum'.
  assert (Hfull : num_pfns vb1 = VIRTIO_BALLOON_ARRAY_PFNS_MAX) by lia.
  assert (Hfl := length_flat_page_pfns got ltac:(lia)).
  assert (Hlen1 : length (pfns vb1) = length (pfns vb)).
  { rewrite Hf. apply length_splice. lia. }
  rewrite (bind_Done _ _ _ _ _ Hrun). rewrite bind_get. cbv beta.
  rewrite Hfull.
  change (negb (VIRTIO_BALLOON_ARRAY_PFNS_MAX =? 0)) with true. unfold when.
  rewrite (bind_Done _ _ _ _ _
             (tell_host_legacy inflate_vq vb1 ltac:(congruence)
                ltac:(congruence))).
  unfold mutex_unlock at 1. run_prim. unfold ret.
  eexists. split; [reflexivity|]. simpl.
  split; [congruence|]. split; [congruence|]. split; [reflexivity|].
  split; [exact Hlen1|].
  rewrite Hp, length_app. lia.
Qed.

(** The probed legacy device after [m] such calls, one after the other. *)
Definition fill_arrays (m : nat) : virtio_balloon :=
  Nat.iter m
    (fun vb =>
       state_of (fill_balloon 256 VIRTIO_BALLOON_ARRAY_PFNS_MAX vb))
    (probe_state false false 0).

Lemma reachable_by_arrays (m : nat) :
  0 < K -> (K | VIRTIO_BALLOON_ARRAY_PFNS_MAX) ->
  (forall n, alloc_page n <> None) ->
  reachable (fill_arrays m) /\
  feat_chunks (fill_arrays m) = false /\
  vq_broken (fill_arrays m) = false /\
  balloon_lock (fill_arrays m) = false /\
  Z.of_nat (length (pfns (fill_arrays m))) = VIRTIO_BALLOON_ARRAY_PFNS_MAX /\
  K * Z.of_nat (length (pages (fill_arrays m)))
  = Z.of_nat m * VIRTIO_BALLOON_ARRAY_PFNS_MAX.
Proof.
  intros HK Hdiv Halloc. induction m as [|m IH].
  - split; [apply reach_probe|]. simpl. repeat split; try reflexivity. lia.
  - destruct IH as (Hreach & Hfeat & Hbroken & Hlock & Hlen & Hpages).
    destruct (fill_balloon_one_array 256 (fill_arrays m) HK Hdiv Halloc
                Hfeat Hbroken Hlock Hlen)
      as (vb' & Hrun & Hfeat' & Hbroken' & Hlock' & Hlen' & Hpages').
    { unfold VIRTIO_BALLOON_ARRAY_PFNS_MAX. lia. }
    assert (Hstep : fill_arrays (S m) = vb').
    { unfold fill_arrays at 1. rewrite Nat.iter_succ.
      fold (fill_arrays m). now rewrite Hrun. }
    rewrite Hstep.
    split; [exact (reach_fill _ _ _ _ _ Hreach Hrun)|].
    split; [exact Hfeat'|]. split; [exact Hbroken'|].
    split; [exact Hlock'|]. split; [now rewrite Hlen'|].
    rewrite Hpages', Hpages. lia.
Qed.

(** When K times the number of pages is a multiple of 2^32, the counter of
    a reachable state is 0. *)
Lemma reachable_counter_wraps vb q :
  reachable vb ->
  K * Z.of_nat (length (pages vb)) = q * 2 ^ 32 ->
  num_pages vb = 0.
Proof.
  intros Hreach Hq. pose proof (reachable_ledger_inv vb Hreach) as Hinv.
  unfold ledger_inv in Hinv. rewrite Hinv. fold K. rewrite Hq.
  unfold u32. apply Z.mod_mul. lia.
Qed.



(** ** One bitmap window as runs of set bits *)

Lemma scan_bits_spec want b n pos :
  pos <= scan_bits want b n pos <= pos + Z.of_nat n /\
  (forall q, pos <= q < scan_bits want b n pos ->
             Z.testbit b q = negb want) /\
  (scan_bits want b n pos < pos + Z.of_nat n ->
   Z.testbit b (scan_bits want b n pos) = want).
Proof.
  revert pos. induction n as [|k IH]; intros pos; simpl scan_bits.
  - split; [lia|]. split; intros; lia.
  - destruct (Bool.eqb (Z.testbit b pos) want) eqn:E.
    + apply Bool.eqb_prop in E. split; [lia|]. split; [intros; lia|auto].
    + destruct (IH (pos + 1)) as (Hr & Hlo & Hhi). split; [lia|]. split.
      * intros q Hq. destruct (Z.eq_dec q pos) as [->|Hne].
        -- apply Bool.eqb_false_iff in E.
           destruct (Z.testbit b pos), want; simpl; congruence.
        -- apply Hlo. lia.
      * intros H. apply Hhi. lia.
Qed.

Lemma find_next_bit_spec b size offset :
  offset < size ->
  offset <= find_next_bit b size offset <= size /\
  (forall q, offset <= q < find_next_bit b size offset ->
             Z.testbit b q = false) /\
  (find_next_bit b size offset < size ->
   Z.testbit b (find_next_bit b size offset) = true).
Proof.
  intros Hlt. unfold find_next_bit.
  destruct (Z.leb_spec size offset) as [|_]; [lia|].
  pose proof (scan_bits_spec true b (Z.to_nat (size - offset)) offset) as H.
  replace (offset + Z.of_nat (Z.to_nat (size - offset))) with size in H by lia.
  exact H.
Qed.

Lemma find_next_zero_bit_spec b size offset :
  offset < size ->
  offset <= find_next_zero_bit b size offset <= size /\
  (forall q, offset <= q < find_next_zero_bit b size offset ->
             Z.testbit b q = true) /\
  (find_next_zero_bit b size offset < size ->
   Z.testbit b (find_next_zero_bit b size offset) = false).
Proof.
  intros Hlt. unfold find_next_zero_bit.
  destruct (Z.leb_spec size offset) as [|_]; [lia|].
  pose proof (scan_bits_spec false b (Z.to_nat (size - offset)) offset) as H.
  replace (offset + Z.of_nat (Z.to_nat (size - offset))) with size in H by lia.
  exact H.
Qed.

(** A run [(start, size)] of a window, and the runs of a window from [lo]
    on: in order, each one non-empty and inside the window, and with a gap
    between one run and the next. *)
Definition in_run (p : Z) (r : Z * Z) : Prop := r.1 <= p < r.1 + r.2.

Fixpoint separated (lo hi : Z) (runs : list (Z * Z)) : Prop :=
  match runs with
  | [] => True
  | r :: rest =>
      lo <= r.1 /\ 0 < r.2 /\ r.1 + r.2 <= hi /\
      separated (r.1 + r.2 + 1) hi rest
  end.

Lemma separated_bounds lo hi runs p :
  separated lo hi runs -> Exists (in_run p) runs -> lo <= p < hi.
Proof.
  revert lo. induction runs as [|r rest IH]; intros lo Hsep Hex.
  - inversion Hex.
  - simpl in Hsep. destruct Hsep as (H1 & H2 & H3 & H4).
    apply Exists_cons in Hex as [Hin|Hex].
    + unfold in_run in Hin. lia.
    + specialize (IH _ H4 Hex). lia.
Qed.

(** The chunks of balloon pages that the host has been handed so far,
    followed by those still waiting in the chunk buffer. *)
Definition balloon_chunks_sent (tr : list event) : list page_chunk :=
  flat_map (fun e => match e with
                     | EvSend _ (BalloonChunks chunks) _ => chunks
                     | _ => []
                     end) tr.

Definition balloon_chunks_told (vb : virtio_balloon) : list page_chunk :=
  balloon_chunks_sent (trace vb) ++ balloon_chunks vb.

(** The encoder at work: the transport takes buffers and the chunk buffer
    has room. *)
Definition encoding (vb : virtio_balloon) : Prop :=
  vq_broken vb = false /\
  Z.of_nat (length (balloon_chunks vb)) < MAX_PAGE_CHUNKS.

(** What the encoder may change: the trace and the chunk buffer. *)
Definition encoder_frame (vb vb' : virtio_balloon) : Prop :=
  exists tr chunks, vb' = with_balloon_chunks chunks (with_trace tr vb).

Lemma encoder_frame_refl vb : encoder_frame vb vb.
Proof. exists (trace vb), (balloon_chunks vb). now destruct vb. Qed.

Lemma encoder_frame_trans vb1 vb2 vb3 :
  encoder_frame vb1 vb2 -> encoder_frame vb2 vb3 -> encoder_frame vb1 vb3.
Proof.
  intros (tr & ch & ->) (tr' & ch' & ->). exists tr', ch'. now destruct vb1.
Qed.

Lemma add_balloon_chunk_told vq base size vb :
  encoding vb ->
  exists vb',
    add_one_chunk vq PAGE_CHUNK_TYPE_BALLOON base size vb = Done tt vb' /\
    encoding vb' /\
    encoder_frame vb vb' /\
    balloon_chunks_told vb' = balloon_chunks_told vb ++ [wire_chunk base size].
Proof.
  intros [Hbroken Hlen].
  rewrite (add_one_chunk_flushes_at_cap vq PAGE_CHUNK_TYPE_BALLOON base size vb
             Hbroken Hlen).
  cbv zeta. eexists. split; [reflexivity|].
  unfold encoding, balloon_chunks_told, balloon_chunks_sent.
  destruct (Z.eqb_spec
              (Z.of_nat (length (chunks_of PAGE_CHUNK_TYPE_BALLOON vb
                                   ++ [wire_chunk base size])))
              MAX_PAGE_CHUNKS) as [He|Hne]; simpl.
  - split; [split; [exact Hbroken|unfold MAX_PAGE_CHUNKS; lia]|].
    split.
    { exists (trace vb ++
              [EvSend vq
                 (BalloonChunks (balloon_chunks vb ++ [wire_chunk base size]))
                 Sleeping]), [].
      now destruct vb. }
    rewrite flat_map_app. simpl. now rewrite !app_nil_r, <- app_assoc.
  - split.
    + split; [exact Hbroken|]. simpl in Hne.
      rewrite length_app in *. simpl in *. lia.
    + split; [|now rewrite <- app_assoc].
      exists (trace vb), (balloon_chunks vb ++ [wire_chunk base size]).
      now destruct vb.
Qed.

Lemma chunking_loop_S k vq pfn_start bmap pos end_ :
  chunking_loop (S k) vq pfn_start bmap pos end_
  = if pos <? end_ then
      match bmap with
      | None => stop Fault
      | Some b =>
          let one := find_next_bit b end_ pos in
          if one <? end_ then
            let zero := find_next_zero_bit b end_ (one + 1) in
            let chunk_size :=
              if end_ <=? zero then end_ - one else zero - one in
            when (negb (chunk_size =? 0))
                 (add_one_chunk vq PAGE_CHUNK_TYPE_BALLOON
                    (u64 (pfn_start + one)) chunk_size) ;;
            chunking_loop k vq pfn_start bmap (one + chunk_size) end_
          else ret tt
      end
    else ret tt.
Proof. reflexivity. Qed.

(** The chunk that the encoder makes of a run. *)
Definition run_chunk (pfn_start : Z) (r : Z * Z) : page_chunk :=
  wire_chunk (u64 (pfn_start + r.1)) r.2.

(** The scan of a window from [pos] on makes one chunk of every maximal run
    of set bits, in order. *)
Lemma chunking_loop_runs fuel vq pfn_start b pos end_ vb :
  encoding vb -> end_ - pos <= Z.of_nat fuel ->
  exists runs vb',
    chunking_loop fuel vq pfn_start (Some b) pos end_ vb = Done tt vb' /\
    encoding vb' /\
    encoder_frame vb vb' /\
    balloon_chunks_told vb'
    = balloon_chunks_told vb ++ map (run_chunk pfn_start) runs /\
    separated pos end_ runs /\
    (forall p, pos <= p < end_ ->
               Z.testbit b p = true <-> Exists (in_run p) runs).
Proof.
  revert pos vb. induction fuel as [|k IH]; intros pos vb Henc Hfuel.
  - simpl. destruct (Z.ltb_spec pos end_); [lia|].
    exists [], vb. simpl. rewrite app_nil_r.
    split; [reflexivity|]. split; [exact Henc|].
    split; [apply encoder_frame_refl|].
    split; [reflexivity|]. split; [exact I|]. intros p Hp. lia.
  - rewrite chunking_loop_S.
    destruct (Z.ltb_spec pos end_) as [Hlt|Hge].
    2:{ exists [], vb. simpl. rewrite app_nil_r.
        split; [reflexivity|]. split; [exact Henc|].
        split; [apply encoder_frame_refl|].
        split; [reflexivity|]. split; [exact I|]. intros p Hp. lia. }
    cbv zeta.
    destruct (find_next_bit_spec b end_ pos Hlt) as (Hr1 & Hz1 & Ht1).
    set (one := find_next_bit b end_ pos) in *.
    destruct (Z.ltb_spec one end_) as [Hin|Hout].
    2:{ exists [], vb. simpl. rewrite app_nil_r.
        split; [reflexivity|]. split; [exact Henc|].
        split; [apply encoder_frame_refl|].
        split; [reflexivity|]. split; [exact I|].
        intros p Hp. split.
        - intros Hbit. rewrite Hz1 in Hbit by lia. discriminate.
        - intros Hex. inversion Hex. }
    specialize (Ht1 Hin).
    assert (Hzero :
      one + 1 <= find_next_zero_bit b end_ (one + 1) <= end_ /\
      (forall q, one + 1 <= q < find_next_zero_bit b end_ (one + 1) ->
                 Z.testbit b q = true) /\
      (find_next_zero_bit b end_ (one + 1) < end_ ->
       Z.testbit b (find_next_zero_bit b end_ (one + 1)) = false)).
    { destruct (Z.le_gt_cases end_ (one + 1)) as [Hle|Hgt].
      - unfold find_next_zero_bit.
        destruct (Z.leb_spec end_ (one + 1)); [|lia].
        split; [lia|]. split; intros; lia.
      - apply find_next_zero_bit_spec. lia. }
    set (zero := find_next_zero_bit b end_ (one + 1)) in *.
    destruct Hzero as (Hr0 & Ho0 & Hz0).
    replace (if end_ <=? zero then end_ - one else zero - one)
      with (zero - one) by (destruct (Z.leb_spec end_ zero); lia).
    replace (negb (zero - one =? 0)) with true
      by (symmetry; apply negb_true_iff, Z.eqb_neq; lia).
    unfold when.
    destruct (add_balloon_chunk_told vq (u64 (pfn_start + one)) (zero - one)
                vb Henc) as (vb1 & Hadd & Henc1 & Hbm1 & Htold1).
    rewrite (bind_Done _ _ _ _ _ Hadd).
    replace (one + (zero - one)) with zero by lia.
    destruct (IH zero vb1 Henc1 ltac:(lia))
      as (runs & vb' & Hrun & Henc' & Hbm' & Htold' & Hsep & Hiff).
    exists ((one, zero - one) :: runs), vb'.
    split; [exact Hrun|]. split; [exact Henc'|].
    split; [exact (encoder_frame_trans _ _ _ Hbm1 Hbm')|].
    split.
    { rewrite Htold', Htold1. simpl. now rewrite <- app_assoc. }
    split.
    { simpl. split; [lia|]. split; [lia|]. split; [lia|].
      replace (one + (zero - one) + 1) with (zero + 1) by lia.
      destruct runs as [|r rest]; [exact I|].
      simpl in Hsep |- *. destruct Hsep as (H1 & H2 & H3 & H4).
      split; [|auto].
      assert (Hne : r.1 <> zero).
      { intros E.
        assert (Hbit : Z.testbit b r.1 = true).
        { apply Hiff; [lia|]. left. unfold in_run. lia. }
        rewrite E, Hz0 in Hbit by lia. discriminate. }
      lia. }
    intros p Hp. split.
    + intros Hbit. destruct (Z.lt_ge_cases p zero) as [Hpz|Hpz].
      * left. unfold in_run. simpl.
        destruct (Z.lt_ge_cases p one) as [Hpo|Hpo]; [|lia].
        rewrite Hz1 in Hbit by lia. discriminate.
      * right. apply Hiff; [lia|exact Hbit].
    + intros Hex. apply Exists_cons in Hex as [Hin_run|Hex].
      * unfold in_run in Hin_run. simpl in Hin_run.
        destruct (Z.eq_dec p one) as [->|Hne]; [exact Ht1|].
        apply Ho0. lia.
      * pose proof (separated_bounds _ _ _ _ Hsep Hex).
        apply Hiff; [lia|exact Hex].
Qed.

(** X1.  [chunking_pages_from_bmap] on one window: with a transport that
    takes buffers, the scan returns, and the chunks it hands to
    [add_one_chunk] (sent on the way or left in the buffer) are the maximal
    runs of set bits of the window, in order of position: every set bit
    lies in a run, no clear bit does, and two runs never touch. *)
Theorem chunking_pages_from_bmap_makes_the_runs vq pfn_start b len vb :
  vq_broken vb = false ->
  Z.of_nat (length (balloon_chunks vb)) < MAX_PAGE_CHUNKS ->
  exists runs vb',
    chunking_pages_from_bmap vq pfn_start (Some b) len vb = Done tt vb' /\
    balloon_chunks_told vb'
    = balloon_chunks_told vb ++ map (run_chunk pfn_start) runs /\
    separated 0 (u64 (len * BITS_PER_BYTE)) runs /\
    (forall p, 0 <= p < u64 (len * BITS_PER_BYTE) ->
               Z.testbit b p = true <-> Exists (in_run p) runs).
Proof.
  intros Hbroken Hlen. unfold chunking_pages_from_bmap.
  destruct (chunking_loop_runs (Z.to_nat (u64 (len * BITS_PER_BYTE))) vq
              pfn_start b 0 (u64 (len * BITS_PER_BYTE)) vb)
    as (runs & vb' & Hrun & _ & _ & Htold & Hsep & Hiff).
  - now split.
  - unfold u64. pose proof (Z.mod_pos_bound (len * BITS_PER_BYTE) (2 ^ 64)).
    lia.
  - exists runs, vb'. auto.
Qed.


(** ** A cover that spans every allocated bitmap *)

Lemma read_page_bmap_slot i slot vb :
  0 <= i < PAGE_BMAP_COUNT_MAX ->
  page_bmap vb !! Z.to_nat i = Some slot ->
  read_page_bmap i vb = Done slot vb.
Proof.
  intros Hi Hslot. unfold read_page_bmap, bind, get.
  destruct (Z.leb_spec 0 i); [|lia].
  destruct (Z.ltb_spec i PAGE_BMAP_COUNT_MAX); [|lia].
  simpl. now rewrite Hslot.
Qed.

Lemma read_page_bmap_outside i vb :
  PAGE_BMAP_COUNT_MAX <= i -> read_page_bmap i vb = Stuck Fault vb.
Proof.
  intros Hi. unfold read_page_bmap, bind, get.
  destruct (Z.ltb_spec i PAGE_BMAP_COUNT_MAX); [lia|].
  now rewrite andb_false_r.
Qed.

Lemma chunking_pages_from_bmap_null vq pfn_start len vb :
  0 < u64 (len * BITS_PER_BYTE) ->
  chunking_pages_from_bmap vq pfn_start None len vb = Stuck Fault vb.
Proof.
  intros Hend. unfold chunking_pages_from_bmap.
  destruct (Z.to_nat (u64 (len * BITS_PER_BYTE))) as [|k] eqn:Hk; [lia|].
  rewrite chunking_loop_S.
  destruct (Z.ltb_spec 0 (u64 (len * BITS_PER_BYTE))); [reflexivity|lia].
Qed.

(** The window loop of [tell_host], when it is asked for more windows than
    there are bitmap buffers: the windows that have a buffer are scanned,
    and the next one is a NULL slot or lies behind the array. *)
Lemma tell_host_loop_past_buffers todo vq pfn_start bmaps pfns_len n i vb :
  encoding vb ->
  0 <= i <= n -> n <= PAGE_BMAP_COUNT_MAX -> n < i + Z.of_nat todo ->
  (forall j, i <= j < n ->
             exists b, page_bmap vb !! Z.to_nat j = Some (Some b)) ->
  (n < PAGE_BMAP_COUNT_MAX -> page_bmap vb !! Z.to_nat n = Some None) ->
  0 < u64 ((if n + 1 =? bmaps then u32 (pfns_len - PAGE_BMAP_SIZE * n)
            else u32 PAGE_BMAP_SIZE) * BITS_PER_BYTE) ->
  exists vb', tell_host_loop todo vq pfn_start bmaps pfns_len i vb
              = Stuck Fault vb'.
Proof.
  intros Henc Hi Hn Htodo Hbufs Hnull Hlen.
  revert i vb Henc Hi Htodo Hbufs Hnull.
  induction todo as [|k IH]; intros i vb Henc Hi Htodo Hbufs Hnull; [lia|].
  simpl tell_host_loop.
  destruct (Z.eq_dec i n) as [->|Hne].
  - destruct (Z.eq_dec n PAGE_BMAP_COUNT_MAX) as [Hfull|Hroom].
    + exists vb. unfold bind at 1.
      now rewrite read_page_bmap_outside by lia.
    + exists vb.
      rewrite (bind_Done _ _ _ _ _
                 (read_page_bmap_slot n None vb ltac:(lia)
                    (Hnull ltac:(lia)))).
      unfold bind at 1.
      now rewrite chunking_pages_from_bmap_null by exact Hlen.
  - destruct (Hbufs i ltac:(lia)) as [b Hb].
    rewrite (bind_Done _ _ _ _ _
               (read_page_bmap_slot i (Some b) vb ltac:(lia) Hb)).
    unfold chunking_pages_from_bmap at 1.
    match goal with |- context [chunking_loop ?f vq ?s (Some b) 0 ?e] =>
      destruct (chunking_loop_runs f vq s b 0 e vb Henc)
        as (runs & vb1 & Hrun & Henc1 & Hbm1 & _)
    end.
    { unfold u64.
      match goal with |- context [?x mod 2 ^ 64] =>
        pose proof (Z.mod_pos_bound x (2 ^ 64))
      end. lia. }
    rewrite (bind_Done _ _ _ _ _ Hrun).
    assert (Hsame : page_bmap vb1 = page_bmap vb)
      by (destruct Hbm1 as (tr & ch & ->); reflexivity).
    apply IH; try lia; try exact Henc1; rewrite Hsame.
    + intros j Hj. apply Hbufs. lia.
    + exact Hnull.
Qed.

Lemma PFNS_PER_PAGE_BMAP_pow2 :
  0 <= PAGE_SHIFT -> PFNS_PER_PAGE_BMAP = 2 ^ (PAGE_SHIFT + 6).
Proof.
  intros H. unfold PFNS_PER_PAGE_BMAP, BITS_PER_BYTE.
  rewrite PAGE_BMAP_SIZE_pow2 by lia.
  replace (PAGE_SHIFT + 6) with (PAGE_SHIFT + 3 + 3) by lia.
  rewrite (Z.pow_add_r 2 (PAGE_SHIFT + 3) 3) by lia. lia.
Qed.


Lemma s32_small x : - 2 ^ 31 <= x < 2 ^ 31 -> s32 x = x.
Proof. intros H. unfold s32. rewrite Z.mod_small by lia. lia. Qed.

(** X2.  [tell_host] on a cover that spans all allocated bitmap buffers,
    as [set_page_bmap] sets it up for every pass but the last
    ([pfn_stop = pfn_start + PFNS_PER_PAGE_BMAP * page_bmaps]): the count of
    windows comes out one too high, so after the real buffers the loop
    takes the next slot of [page_bmap], which is NULL or, with all 32
    buffers in use, lies behind the array. *)
Theorem tell_host_full_cover_faults vq vb :
  0 <= PAGE_SHIFT <= 19 ->
  feat_chunks vb = true -> vq_broken vb = false ->
  Z.of_nat (length (balloon_chunks vb)) < MAX_PAGE_CHUNKS ->
  1 <= page_bmaps vb <= PAGE_BMAP_COUNT_MAX ->
  pfn_stop vb = pfn_start vb + PFNS_PER_PAGE_BMAP * page_bmaps vb ->
  (forall j, 0 <= j < page_bmaps vb ->
             exists b, page_bmap vb !! Z.to_nat j = Some (Some b)) ->
  (page_bmaps vb < PAGE_BMAP_COUNT_MAX ->
   page_bmap vb !! Z.to_nat (page_bmaps vb) = Some None) ->
  exists vb', tell_host vq vb = Stuck Fault vb'.
Proof.
  intros HPS Hfeat Hbroken Hroom Hn Hstop Hbufs Hnull.
  unfold PAGE_BMAP_COUNT_MAX in Hn.
  set (n := page_bmaps vb) in *.
  pose proof (PFNS_PER_PAGE_BMAP_pow2 ltac:(lia)) as HP.
  pose proof (PAGE_BMAP_SIZE_pow2 ltac:(lia)) as HB.
  assert (Hm : 1 <= 2 ^ PAGE_SHIFT <= 2 ^ 19).
  { split; [apply (Z.pow_le_mono_r 2 0); lia|apply Z.pow_le_mono_r; lia]. }
  set (m := 2 ^ PAGE_SHIFT) in *.
  assert (HP64 : PFNS_PER_PAGE_BMAP = 64 * m).
  { rewrite HP, Z.pow_add_r by lia. fold m. lia. }
  assert (HB8 : PAGE_BMAP_SIZE = 8 * m).
  { rewrite HB, Z.pow_add_r by lia. fold m. lia. }
  assert (H1 : s32 (pfn_stop vb - pfn_start vb + 1) = 64 * (n * m) + 1).
  { rewrite Hstop, HP64. rewrite s32_small; nia. }
  assert (H2 : roundup (64 * (n * m) + 1) BITS_PER_LONG = 64 * (n * m + 1)).
  { unfold roundup, BITS_PER_LONG, u64.
    rewrite (Z.mod_small (64 * (n * m) + 1 + (64 - 1))) by nia.
    replace ((64 * (n * m) + 1 + (64 - 1)) / 64) with (n * m + 1)
      by (apply Z.div_unique with (r := 0); lia).
    rewrite Z.mod_small by nia. lia. }
  assert (H3 : roundup (64 * (n * m + 1)) PFNS_PER_PAGE_BMAP
               = (n + 1) * (64 * m)).
  { unfold roundup, u64. rewrite HP64.
    rewrite (Z.mod_small (64 * (n * m + 1) + (64 * m - 1))) by nia.
    replace ((64 * (n * m + 1) + (64 * m - 1)) / (64 * m)) with (n + 1)
      by (apply Z.div_unique with (r := 63); nia).
    rewrite Z.mod_small by nia. reflexivity. }
  assert (H4 : s32 ((n + 1) * (64 * m)) = (n + 1) * (64 * m))
    by (apply s32_small; nia).
  assert (H5 : (n + 1) * (64 * m) / (64 * m) = n + 1)
    by (apply Z.div_mul; lia).
  assert (H6 : (n + 1) * (64 * m) / BITS_PER_BYTE = (n + 1) * (8 * m)).
  { unfold BITS_PER_BYTE. symmetry.
    apply Z.div_unique with (r := 0); lia. }
  unfold tell_host. rewrite bind_get. cbv beta. rewrite Hfeat. cbv zeta.
  rewrite H1.
  rewrite H2, H3, H4, HP64, H5, H6.
  rewrite (s32_small (n + 1)) by lia.
  destruct (tell_host_loop_past_buffers (Z.to_nat (n + 1)) vq (pfn_start vb)
              (n + 1) ((n + 1) * (8 * m)) n 0 vb) as [vb' Hrun].
  - now split.
  - lia.
  - unfold PAGE_BMAP_COUNT_MAX. lia.
  - lia.
  - exact Hbufs.
  - exact Hnull.
  - rewrite Z.eqb_refl, HB8.
    replace ((n + 1) * (8 * m) - 8 * m * n) with (8 * m) by lia.
    unfold BITS_PER_BYTE, u32, u64.
    rewrite (Z.mod_small (8 * m)) by lia. rewrite Z.mod_small by lia. lia.
  - exists vb'. unfold bind. now rewrite Hrun.
Qed.


(** X18.  [set_page_bmap]'s marking loop on a cover that spans all the
    allocated bitmap buffers: a page whose balloon page-frame number is
    [pfn_stop] itself passes the range test, and its bit is looked for in
    [page_bmap[page_bmaps]], a slot that is NULL or, with all 32 buffers
    in use, lies behind the array. *)
Theorem mark_pages_page_at_stop_faults page l lo found vb :
  0 <= PAGE_SHIFT ->
  1 <= page_bmaps vb <= PAGE_BMAP_COUNT_MAX ->
  page_to_balloon_pfn page = lo + PFNS_PER_PAGE_BMAP * page_bmaps vb ->
  (page_bmaps vb < PAGE_BMAP_COUNT_MAX ->
   page_bmap vb !! Z.to_nat (page_bmaps vb) = Some None) ->
  mark_pages (page :: l) lo (lo + PFNS_PER_PAGE_BMAP * page_bmaps vb) found vb
  = Stuck Fault vb.
Proof.
  intros HPS Hn Hpfn Hnull.
  pose proof (PFNS_PER_PAGE_BMAP_pow2 HPS) as HP.
  assert (HP0 : 0 < PFNS_PER_PAGE_BMAP)
    by (rewrite HP; apply Z.pow_pos_nonneg; lia).
  simpl mark_pages. rewrite Hpfn.
  destruct (Z.ltb_spec (lo + PFNS_PER_PAGE_BMAP * page_bmaps vb) lo); [nia|].
  rewrite Z.ltb_irrefl. change (false || false) with false. cbv iota.
  replace (lo + PFNS_PER_PAGE_BMAP * page_bmaps vb - lo)
    with (page_bmaps vb * PFNS_PER_PAGE_BMAP) by lia.
  rewrite Z.div_mul by lia. cbv beta iota.
  unfold bind at 1.
  destruct (Z.eq_dec (page_bmaps vb) PAGE_BMAP_COUNT_MAX) as [Hfull|Hroom].
  - now rewrite read_page_bmap_outside by lia.
  - now rewrite (read_page_bmap_slot (page_bmaps vb) None vb ltac:(lia)
                   (Hnull ltac:(lia))).
Qed.


(** ** A batch that one bitmap window covers *)

Lemma testbit_set_bit pos b q :
  0 <= pos ->
  Z.testbit (set_bit pos b) q = Z.testbit b q || (q =? pos).
Proof.
  intros Hpos. unfold set_bit.
  rewrite Z.lor_spec, Z.shiftl_1_l, Z.pow2_bits_eqb by exact Hpos.
  now rewrite (Z.eqb_sym pos q).
Qed.

Lemma with_page_bmap_same vb : with_page_bmap (page_bmap vb) vb = vb.
Proof. now destruct vb. Qed.

Lemma with_page_bmap_twice a b vb :
  with_page_bmap a (with_page_bmap b vb) = with_page_bmap a vb.
Proof. now destruct vb. Qed.

Lemma write_page_bmap_head slot old rest vb :
  page_bmap vb = old :: rest ->
  write_page_bmap 0 slot vb = Done tt (with_page_bmap (slot :: rest) vb).
Proof.
  intros Hb. unfold write_page_bmap. rewrite bind_get. cbv beta. rewrite Hb.
  reflexivity.
Qed.

(** Whether [mark_pages] takes a page for the cover from [lo] to [hi]. *)
Definition in_cover (lo hi page : Z) : bool :=
  negb ((page_to_balloon_pfn page <? lo) || (hi <? page_to_balloon_pfn page)).

(** With a cover shorter than one window, every page of the cover has its
    bit in the first buffer. *)
Lemma mark_pages_single l lo hi found b rest vb :
  page_bmap vb = Some b :: rest ->
  hi - lo < PFNS_PER_PAGE_BMAP ->
  exists b',
    mark_pages l lo hi found vb
    = Done (found || existsb (in_cover lo hi) l)
        (with_page_bmap (Some b' :: rest) vb) /\
    (forall q, Z.testbit b' q
               = Z.testbit b q
                 || existsb (fun page =>
                      in_cover lo hi page
                      && (page_to_balloon_pfn page - lo =? q)) l).
Proof.
  intros Hb Hshort. revert found b vb Hb.
  induction l as [|page l IH]; intros found b vb Hb.
  - exists b. split.
    + simpl. rewrite orb_false_r, <- Hb, with_page_bmap_same. reflexivity.
    + intros q. simpl. now rewrite orb_false_r.
  - simpl mark_pages.
    destruct ((page_to_balloon_pfn page <? lo)
              || (hi <? page_to_balloon_pfn page)) eqn:Hout.
    + assert (Hin : in_cover lo hi page = false)
        by (unfold in_cover; now rewrite Hout).
      destruct (IH found b vb Hb) as (b' & Hrun & Hbits).
      exists b'. simpl existsb. rewrite Hin. split; [exact Hrun|].
      intros q. simpl. exact (Hbits q).
    + assert (Hin : in_cover lo hi page = true)
        by (unfold in_cover; now rewrite Hout).
      apply orb_false_iff in Hout as [H1 H2].
      apply Z.ltb_ge in H1, H2.
      replace ((page_to_balloon_pfn page - lo) / PFNS_PER_PAGE_BMAP) with 0
        by (symmetry; apply Z.div_small; lia).
      rewrite (Z.mod_small (page_to_balloon_pfn page - lo)) by lia.
      rewrite (bind_Done _ _ _ _ _
                 (read_page_bmap_slot 0 (Some b) vb
                    ltac:(unfold PAGE_BMAP_COUNT_MAX; lia)
                    ltac:(now rewrite Hb))).
      rewrite (bind_Done _ _ _ _ _ (write_page_bmap_head _ _ _ vb Hb)).
      destruct (IH true (set_bit (page_to_balloon_pfn page - lo) b)
                  (with_page_bmap
                     (Some (set_bit (page_to_balloon_pfn page - lo) b)
                      :: rest) vb) eq_refl)
        as (b' & Hrun & Hbits).
      exists b'. simpl existsb. rewrite Hin. split.
      * rewrite Hrun, with_page_bmap_twice, orb_true_r. reflexivity.
      * intros q. rewrite Hbits, testbit_set_bit by lia. simpl.
        rewrite (Z.eqb_sym q). now rewrite orb_assoc.
Qed.

Lemma clear_page_bmap_single b rest vb :
  page_bmaps vb = 1 -> page_bmap vb = Some b :: rest ->
  clear_page_bmap vb = Done tt (with_page_bmap (Some 0 :: rest) vb).
Proof.
  intros Hone Hb. unfold clear_page_bmap. rewrite bind_get. cbv beta.
  rewrite Hone. simpl clear_loop.
  rewrite (bind_Done _ _ _ _ _
             (read_page_bmap_slot 0 (Some b) vb
                ltac:(unfold PAGE_BMAP_COUNT_MAX; lia)
                ltac:(now rewrite Hb))).
  rewrite (bind_Done _ _ _ _ _ (write_page_bmap_head _ _ _ vb Hb)).
  reflexivity.
Qed.


(** A range that fits one window needs no further buffer. *)
Lemma extend_page_bmap_size_fits d vb :
  0 <= PAGE_SHIFT <= 19 ->
  0 <= d -> 64 * (d + 1) <= PFNS_PER_PAGE_BMAP ->
  extend_page_bmap_size (u64 (64 * d + 1)) vb = Done tt vb.
Proof.
  intros HPS Hd Hfit.
  pose proof (PFNS_PER_PAGE_BMAP_pow2 ltac:(lia)) as HP.
  pose proof (PAGE_BMAP_SIZE_pow2 ltac:(lia)) as HB.
  assert (Hm : 1 <= 2 ^ PAGE_SHIFT <= 2 ^ 19).
  { split; [apply (Z.pow_le_mono_r 2 0); lia|apply Z.pow_le_mono_r; lia]. }
  set (m := 2 ^ PAGE_SHIFT) in *.
  assert (HP64 : PFNS_PER_PAGE_BMAP = 64 * m).
  { rewrite HP, Z.pow_add_r by lia. fold m. lia. }
  assert (HB8 : PAGE_BMAP_SIZE = 8 * m).
  { rewrite HB, Z.pow_add_r by lia. fold m. lia. }
  assert (H8m : 2 ^ (PAGE_SHIFT + 3) = 8 * m) by lia.
  unfold extend_page_bmap_size.
  change BITS_PER_LONG with (2 ^ 6). rewrite ALIGN_pow2 by lia.
  rewrite HB, ALIGN_pow2 by lia. rewrite H8m.
  unfold u64, BITS_PER_BYTE.
  rewrite (Z.mod_small (64 * d + 1)) by lia.
  rewrite (Z.mod_small (64 * d + 1 + (2 ^ 6 - 1))) by lia.
  replace ((64 * d + 1 + (2 ^ 6 - 1)) / 2 ^ 6) with (d + 1)
    by (apply Z.div_unique with (r := 0); lia).
  replace ((d + 1) * 2 ^ 6 / 8) with (8 * (d + 1))
    by (apply Z.div_unique with (r := 0); lia).
  rewrite (Z.mod_small (8 * (d + 1) + (8 * m - 1))) by lia.
  replace ((8 * (d + 1) + (8 * m - 1)) / (8 * m)) with 1
    by (apply Z.div_unique with (r := 8 * (d + 1) - 1); lia).
  rewrite Z.mul_1_l, Z.div_same by lia. reflexivity.
Qed.

Lemma balloon_chunks_sent_app tr1 tr2 :
  balloon_chunks_sent (tr1 ++ tr2)
  = balloon_chunks_sent tr1 ++ balloon_chunks_sent tr2.
Proof. apply flat_map_app. Qed.

(** [tell_host] for a cover shorter than one window: the one buffer is
    scanned over its whole length and what the chunk buffer holds at the
    end is handed over. *)
Lemma tell_host_single_window vq d b rest vb :
  0 <= PAGE_SHIFT <= 19 ->
  feat_chunks vb = true -> encoding vb ->
  page_bmap vb = Some b :: rest ->
  0 <= pfn_start vb < 2 ^ 63 ->
  pfn_stop vb - pfn_start vb = 64 * d ->
  0 <= d -> 64 * (d + 1) <= PFNS_PER_PAGE_BMAP ->
  exists runs vb',
    tell_host vq vb = Done tt vb' /\
    encoder_frame vb vb' /\ balloon_chunks vb' = [] /\
    balloon_chunks_told vb'
    = balloon_chunks_told vb ++ map (run_chunk (pfn_start vb)) runs /\
    separated 0 PFNS_PER_PAGE_BMAP runs /\
    (forall p, 0 <= p < PFNS_PER_PAGE_BMAP ->
               Z.testbit b p = true <-> Exists (in_run p) runs).
Proof.
  intros HPS Hfeat Henc Hb Hstart Hstop Hd Hfit.
  pose proof (PFNS_PER_PAGE_BMAP_pow2 ltac:(lia)) as HP.
  pose proof (PAGE_BMAP_SIZE_pow2 ltac:(lia)) as HB.
  assert (Hm : 1 <= 2 ^ PAGE_SHIFT <= 2 ^ 19).
  { split; [apply (Z.pow_le_mono_r 2 0); lia|apply Z.pow_le_mono_r; lia]. }
  set (m := 2 ^ PAGE_SHIFT) in *.
  assert (HP64 : PFNS_PER_PAGE_BMAP = 64 * m).
  { rewrite HP, Z.pow_add_r by lia. fold m. lia. }
  assert (HB8 : PAGE_BMAP_SIZE = 8 * m).
  { rewrite HB, Z.pow_add_r by lia. fold m. lia. }
  assert (H1 : s32 (pfn_stop vb - pfn_start vb + 1) = 64 * d + 1).
  { rewrite Hstop. apply s32_small. lia. }
  assert (H2 : roundup (64 * d + 1) BITS_PER_LONG = 64 * (d + 1)).
  { unfold roundup, BITS_PER_LONG, u64.
    rewrite (Z.mod_small (64 * d + 1 + (64 - 1))) by lia.
    replace ((64 * d + 1 + (64 - 1)) / 64) with (d + 1)
      by (apply Z.div_unique with (r := 0); lia).
    rewrite Z.mod_small by lia. lia. }
  assert (H3 : roundup (64 * (d + 1)) PFNS_PER_PAGE_BMAP = 64 * m).
  { unfold roundup, u64. rewrite HP64.
    rewrite (Z.mod_small (64 * (d + 1) + (64 * m - 1))) by lia.
    replace ((64 * (d + 1) + (64 * m - 1)) / (64 * m)) with 1
      by (apply Z.div_unique with (r := 64 * (d + 1) - 1); lia).
    rewrite Z.mod_small by lia. lia. }
  assert (H4 : s32 (64 * m) = 64 * m) by (apply s32_small; lia).
  assert (H5 : 64 * m / (64 * m) = 1) by (apply Z.div_same; lia).
  assert (H6 : 64 * m / BITS_PER_BYTE = 8 * m).
  { unfold BITS_PER_BYTE. symmetry.
    apply Z.div_unique with (r := 0); lia. }
  assert (Hend : u64 (u32 (8 * m - PAGE_BMAP_SIZE * 0) * BITS_PER_BYTE)
                 = PFNS_PER_PAGE_BMAP).
  { rewrite Z.mul_0_r, Z.sub_0_r, HP64. unfold u32, u64, BITS_PER_BYTE.
    rewrite (Z.mod_small (8 * m)) by lia. rewrite Z.mod_small by lia. lia. }
  unfold tell_host. rewrite bind_get. cbv beta. rewrite Hfeat. cbv zeta.
  rewrite H1, H2, H3, H4, HP64, H5, H6.
  rewrite (s32_small 1) by lia.
  change (Z.to_nat 1) with 1%nat. simpl tell_host_loop.
  change (0 + 1 =? 1) with true. cbv iota.
  rewrite bind_assoc.
  rewrite (bind_Done _ _ _ _ _
             (read_page_bmap_slot 0 (Some b) vb
                ltac:(unfold PAGE_BMAP_COUNT_MAX; lia)
                ltac:(now rewrite Hb))).
  rewrite bind_assoc.
  unfold chunking_pages_from_bmap at 1. rewrite Hend.
  rewrite Z.mul_0_l, Z.add_0_r.
  replace (u64 (pfn_start vb)) with (pfn_start vb)
    by (unfold u64; rewrite Z.mod_small; lia).
  destruct (chunking_loop_runs (Z.to_nat PFNS_PER_PAGE_BMAP) vq
              (pfn_start vb) b 0 PFNS_PER_PAGE_BMAP vb Henc ltac:(lia))
    as (runs & vb1 & Hrun & [Hbroken1 Hlen1] & Hframe1 & Htold1 & Hsep & Hiff).
  rewrite (bind_Done _ _ _ _ _ Hrun). rewrite bind_ret, bind_get. cbv beta.
  exists runs.
  destruct (Z.ltb_spec 0 (Z.of_nat (length (balloon_chunks vb1))))
    as [Hsome|Hnone]; unfold when.
  - unfold send_page_chunks. rewrite bind_get. cbv beta.
    rewrite Hbroken1. change (negb false) with true. cbv iota.
    rewrite bind_emit. unfold modify.
    eexists. split; [reflexivity|].
    split.
    { eapply encoder_frame_trans; [exact Hframe1|].
      eexists _, _. reflexivity. }
    split; [reflexivity|].
    split; [|split; [rewrite <- HP64; exact Hsep
                    |intros p Hp; apply Hiff; lia]].
    rewrite <- Htold1. unfold balloon_chunks_told. simpl.
    rewrite balloon_chunks_sent_app. simpl. now rewrite !app_nil_r.
  - exists vb1. split; [reflexivity|].
    split; [exact Hframe1|].
    split; [destruct (balloon_chunks vb1); [reflexivity|simpl in Hnone; lia]|].
    split; [exact Htold1|].
    split; [rewrite <- HP64; exact Hsep|intros p Hp; apply Hiff; lia].
Qed.


(** The cover that [set_page_bmap] works on: the range of the batch, its
    ends rounded to whole words of the bitmap. *)
Definition cover_lo (vb : virtio_balloon) : Z :=
  rounddown (pfn_min vb) BITS_PER_LONG.
Definition cover_hi (vb : virtio_balloon) : Z :=
  roundup (pfn_max vb) BITS_PER_LONG.

Lemma free_extended_page_bmap_none vb :
  page_bmaps vb = 1 -> free_extended_page_bmap vb = Done tt vb.
Proof.
  intros Hone. unfold free_extended_page_bmap. rewrite bind_get. cbv beta.
  now rewrite Hone.
Qed.

(** One pass of [set_page_bmap] over a range shorter than a window: the
    bitmap is cleared, the pages of the list that lie in the range are
    marked, and the runs of set bits go to the host. *)
Lemma set_page_bmap_single_pass fuel l vq b0 rest vb :
  0 <= PAGE_SHIFT <= 19 ->
  feat_chunks vb = true -> vq_broken vb = false ->
  balloon_chunks vb = [] ->
  page_bmaps vb = 1 -> page_bmap vb = Some b0 :: rest ->
  0 <= pfn_min vb < 2 ^ 32 -> 0 <= pfn_max vb < 2 ^ 32 ->
  cover_lo vb < cover_hi vb ->
  cover_hi vb - cover_lo vb < PFNS_PER_PAGE_BMAP ->
  (1 <= fuel)%nat ->
  exists runs vb',
    set_page_bmap fuel l vq vb = Done tt vb' /\
    balloon_chunks vb' = [] /\ page_bmaps vb' = 1 /\
    balloon_chunks_sent (trace vb')
    = balloon_chunks_sent (trace vb) ++ map (run_chunk (cover_lo vb)) runs /\
    separated 0 PFNS_PER_PAGE_BMAP runs /\
    (forall q, cover_lo vb <= q < cover_lo vb + PFNS_PER_PAGE_BMAP ->
       Exists (in_run (q - cover_lo vb)) runs
       <-> exists page, In page l /\ page_to_balloon_pfn page = q /\
                        q <= cover_hi vb).
Proof.
  intros HPS Hfeat Hbroken Hempty Hone Hb Hmin Hmax Hlt Hshort Hfuel.
  pose proof (PFNS_PER_PAGE_BMAP_pow2 ltac:(lia)) as HP.
  assert (Hm : 1 <= 2 ^ PAGE_SHIFT <= 2 ^ 19).
  { split; [apply (Z.pow_le_mono_r 2 0); lia|apply Z.pow_le_mono_r; lia]. }
  assert (HP64 : PFNS_PER_PAGE_BMAP = 64 * 2 ^ PAGE_SHIFT).
  { rewrite HP, Z.pow_add_r by lia. lia. }
  (* the two ends, as multiples of 64 *)
  assert (Hlo : cover_lo vb = 64 * (pfn_min vb / 64)).
  { unfold cover_lo, rounddown, BITS_PER_LONG, u64.
    pose proof (Z.div_mod (pfn_min vb) 64 ltac:(lia)).
    pose proof (Z.mod_pos_bound (pfn_min vb) 64 ltac:(lia)).
    rewrite Z.mod_small; lia. }
  assert (Hhi : cover_hi vb = 64 * ((pfn_max vb + 63) / 64)).
  { unfold cover_hi, roundup, BITS_PER_LONG, u64.
    replace (pfn_max vb + (64 - 1)) with (pfn_max vb + 63) by lia.
    rewrite (Z.mod_small (pfn_max vb + 63)) by lia.
    pose proof (Z.div_mod (pfn_max vb + 63) 64 ltac:(lia)).
    pose proof (Z.mod_pos_bound (pfn_max vb + 63) 64 ltac:(lia)).
    rewrite Z.mod_small; lia. }
  set (lo := cover_lo vb) in *. set (hi := cover_hi vb) in *.
  set (d := (pfn_max vb + 63) / 64 - pfn_min vb / 64).
  assert (Hd : hi - lo = 64 * d) by (unfold d; lia).
  assert (Hlo0 : 0 <= lo < 2 ^ 32).
  { pose proof (Z.div_mod (pfn_min vb) 64 ltac:(lia)).
    pose proof (Z.mod_pos_bound (pfn_min vb) 64 ltac:(lia)). lia. }
  destruct fuel as [|k]; [lia|].
  (* up to the first pass *)
  unfold set_page_bmap. run_prim.
  change (rounddown (pfn_min vb) BITS_PER_LONG) with lo.
  change (roundup (pfn_max (with_pfn_min lo vb)) BITS_PER_LONG) with hi.
  set (s1 := with_pfn_max hi (with_pfn_min lo vb)).
  change (pfn_max s1) with hi. change (pfn_min s1) with lo.
  replace (hi - lo + 1) with (64 * d + 1) by lia.
  rewrite (bind_Done _ _ _ _ _
             (extend_page_bmap_size_fits d s1 HPS ltac:(lia) ltac:(lia))).
  simpl set_page_bmap_loop. rewrite bind_assoc, bind_get. cbv beta.
  change (pfn_max s1) with hi. change (page_bmaps s1) with (page_bmaps vb).
  rewrite Hone, Z.mul_1_r.
  destruct (Z.ltb_spec lo hi) as [_|]; [|lia].
  replace (u64 (lo + PFNS_PER_PAGE_BMAP)) with (lo + PFNS_PER_PAGE_BMAP)
    by (unfold u64; rewrite Z.mod_small; lia).
  destruct (Z.ltb_spec (lo + PFNS_PER_PAGE_BMAP) hi) as [|_]; [lia|].
  run_prim.
  set (s2 := with_pfn_start lo s1).
  rewrite (bind_Done _ _ _ _ _
             (clear_page_bmap_single b0 rest s2 Hone Hb)).
  cbv beta.
  set (s3 := with_page_bmap (Some 0 :: rest) s2).
  destruct (mark_pages_single l lo hi false 0 rest s3 eq_refl Hshort)
    as (b' & Hmark & Hbits).
  rewrite bind_assoc, (bind_Done _ _ _ _ _ Hmark). cbv beta.
  unfold s3. rewrite with_page_bmap_twice.
  set (s4 := with_page_bmap (Some b' :: rest) s2).
  assert (Hpages : forall q,
    (exists page, In page l /\ page_to_balloon_pfn page = q /\ lo <= q <= hi)
    <-> Z.testbit b' (q - lo) = true).
  { intros q. rewrite Hbits, Z.bits_0, orb_false_l, existsb_exists.
    split.
    - intros (page & Hin & Hq & Hr). exists page. split; [exact Hin|].
      unfold in_cover. rewrite Hq.
      destruct (Z.ltb_spec q lo); [lia|].
      destruct (Z.ltb_spec hi q); [lia|]. simpl. apply Z.eqb_refl.
    - intros (page & Hin & Hc). apply andb_true_iff in Hc as [Hc He].
      apply Z.eqb_eq in He. exists page. split; [exact Hin|].
      unfold in_cover in Hc. apply negb_true_iff, orb_false_iff in Hc.
      destruct Hc as [H1 H2]. apply Z.ltb_ge in H1, H2. lia. }
  simpl orb.
  destruct (existsb (in_cover lo hi) l) eqn:Hfound; unfold when.
  - rewrite !bind_assoc, bind_modify. cbv beta.
    set (s5 := with_pfn_stop hi s4).
    destruct (tell_host_single_window vq d b' rest s5 HPS Hfeat)
      as (runs & s6 & Htell & Hframe & Hnone & Htold & Hsep & Hiff).
    { split; [exact Hbroken|]. simpl. rewrite Hempty. simpl.
      unfold MAX_PAGE_CHUNKS. lia. }
    { reflexivity. }
    { simpl. lia. }
    { simpl. lia. }
    { lia. }
    { lia. }
    rewrite (bind_Done _ _ _ _ _ Htell). cbv beta.
    destruct Hframe as (tr & ch & Hs6).
    rewrite (bind_Done _ _ _ _ _
               (set_page_bmap_loop_done k l vq hi s6
                  ltac:(rewrite Hs6; simpl; lia))).
    rewrite free_extended_page_bmap_none by (rewrite Hs6; exact Hone).
    exists runs, s6. split; [reflexivity|]. split; [exact Hnone|].
    split; [rewrite Hs6; exact Hone|].
    split.
    { unfold balloon_chunks_told in Htold. rewrite Hnone in Htold.
      simpl in Htold. rewrite Hempty, !app_nil_r in Htold. exact Htold. }
    split; [exact Hsep|].
    intros q Hq. rewrite <- (Hiff (q - lo)) by lia. rewrite <- Hpages.
    split; intros (page & Hin & Hpq & Hr); exists page;
      (split; [exact Hin|split; [exact Hpq|lia]]).
  - rewrite bind_assoc, bind_ret.
    rewrite (bind_Done _ _ _ _ _
               (set_page_bmap_loop_done k l vq hi s4 ltac:(simpl; lia))).
    rewrite free_extended_page_bmap_none by exact Hone.
    exists [], s4. split; [reflexivity|]. split; [exact Hempty|].
    split; [exact Hone|]. split; [simpl; now rewrite app_nil_r|].
    split; [exact I|].
    intros q Hq. split; [intros Hex; inversion Hex|].
    intros (page & Hin & Hpq & Hr). exfalso.
    assert (Hc : existsb (in_cover lo hi) l = true).
    { apply existsb_exists. exists page. split; [exact Hin|].
      unfold in_cover. rewrite Hpq.
      destruct (Z.ltb_spec q lo); [lia|].
      destruct (Z.ltb_spec hi q); [lia|]. reflexivity. }
    congruence.
Qed.

Lemma separated_In lo hi runs r :
  separated lo hi runs -> In r runs ->
  lo <= r.1 /\ 0 < r.2 /\ r.1 + r.2 <= hi.
Proof.
  revert lo. induction runs as [|r0 rest IH]; intros lo Hsep Hin.
  - inversion Hin.
  - simpl in Hsep. destruct Hsep as (H0 & Hn & Hhi & Hrest).
    destruct Hin as [<-|Hin]; [lia|].
    specialize (IH _ Hrest Hin). lia.
Qed.

Lemma separated_disjoint lo hi runs r r' p :
  separated lo hi runs -> In r runs -> In r' runs ->
  in_run p r -> in_run p r' -> r = r'.
Proof.
  revert lo. induction runs as [|r0 rest IH]; intros lo Hsep Hin Hin' Hp Hp'.
  - inversion Hin.
  - simpl in Hsep. destruct Hsep as (H0 & Hn & Hhi & Hrest).
    unfold in_run in Hp, Hp'.
    destruct Hin as [<-|Hin], Hin' as [<-|Hin'].
    + reflexivity.
    + pose proof (separated_In _ _ _ _ Hrest Hin'). lia.
    + pose proof (separated_In _ _ _ _ Hrest Hin). lia.
    + exact (IH _ Hrest Hin Hin' Hp Hp').
Qed.

(** X14.  [set_page_bmap] for a batch whose rounded range is not empty and
    shorter than one bitmap window, with one bitmap buffer, an empty chunk
    buffer and a transport that takes buffers: it returns after one pass
    and the chunks handed to the host decode to the batch.  Every page of
    the list that lies in the range has its balloon page-frame number in
    exactly one chunk, and every page-frame number that a chunk covers is
    that of a page of the list; the chunk buffer is empty again. *)
Theorem set_page_bmap_one_window fuel l vq b0 rest vb :
  0 <= PAGE_SHIFT <= 19 ->
  feat_chunks vb = true -> vq_broken vb = false ->
  balloon_chunks vb = [] ->
  page_bmaps vb = 1 -> page_bmap vb = Some b0 :: rest ->
  0 <= pfn_min vb < 2 ^ 32 -> 0 <= pfn_max vb < 2 ^ 32 ->
  cover_lo vb < cover_hi vb ->
  cover_hi vb - cover_lo vb < PFNS_PER_PAGE_BMAP ->
  (1 <= fuel)%nat ->
  exists runs vb',
    set_page_bmap fuel l vq vb = Done tt vb' /\
    balloon_chunks vb' = [] /\
    balloon_chunks_sent (trace vb')
    = balloon_chunks_sent (trace vb) ++ map (run_chunk (cover_lo vb)) runs /\
    (forall page,
       In page l ->
       cover_lo vb <= page_to_balloon_pfn page <= cover_hi vb ->
       exists! r,
         In r runs /\ in_run (page_to_balloon_pfn page - cover_lo vb) r) /\
    (forall r p,
       In r runs -> in_run p r ->
       exists page, In page l /\ page_to_balloon_pfn page = cover_lo vb + p).
Proof.
  intros HPS Hfeat Hbroken Hempty Hone Hb Hmin Hmax Hlt Hshort Hfuel.
  destruct (set_page_bmap_single_pass fuel l vq b0 rest vb)
    as (runs & vb' & Hrun & Hnone & _ & Hsent & Hsep & Hiff);
    try assumption.
  exists runs, vb'. split; [exact Hrun|]. split; [exact Hnone|].
  split; [exact Hsent|]. split.
  - intros page Hin Hr.
    assert (Hex : Exists (in_run (page_to_balloon_pfn page - cover_lo vb))
                    runs).
    { apply Hiff; [lia|]. exists page.
      split; [exact Hin|]. split; [reflexivity|lia]. }
    apply List.Exists_exists in Hex as [r [Hr1 Hr2]].
    exists r. split; [now split|].
    intros r' [Hr1' Hr2'].
    exact (separated_disjoint _ _ _ _ _ _ Hsep Hr1 Hr1' Hr2 Hr2').
  - intros r p Hr Hp.
    pose proof (separated_In _ _ _ _ Hsep Hr) as Hb'.
    unfold in_run in Hp.
    assert (Hex : Exists (in_run (cover_lo vb + p - cover_lo vb)) runs).
    { apply List.Exists_exists. exists r. split; [exact Hr|].
      unfold in_run. lia. }
    apply Hiff in Hex; [|lia].
    destruct Hex as (page & Hin & Hq & _).
    exists page. now split.
Qed.


Lemma runs_of_one_bit hi x runs :
  separated 0 hi runs -> 0 <= x < hi ->
  (forall p, 0 <= p < hi -> Exists (in_run p) runs <-> p = x) ->
  runs = [(x, 1)].
Proof.
  intros Hsep Hx Hiff.
  destruct runs as [|[s n] rest].
  - assert (H : Exists (in_run x) []) by (apply Hiff; [lia|reflexivity]).
    inversion H.
  - simpl in Hsep. destruct Hsep as (H0 & Hn & Hhi & Hrest).
    assert (Hs : s = x).
    { apply Hiff; [lia|]. left. unfold in_run. simpl. lia. }
    assert (Hn1 : n = 1).
    { destruct (Z.eq_dec n 1) as [|Hne]; [assumption|].
      assert (s + 1 = x); [|lia].
      apply Hiff; [lia|]. left. unfold in_run. simpl. lia. }
    subst s n. f_equal.
    destruct rest as [|[s' n'] rest']; [reflexivity|].
    simpl in Hrest. destruct Hrest as (H0' & Hn' & Hhi' & _).
    assert (s' = x); [|lia].
    apply Hiff; [lia|]. right. left. unfold in_run. simpl. lia.
Qed.

(** One page taken with the chunk feature, its balloon page-frame number
    not a multiple of BITS_PER_LONG: the range of the batch is the word of
    the bitmap that the number lies in, and the pass over it takes every
    page of the ledger in that word. *)
Lemma fill_balloon_single_page fuel num page b0 rest vb :
  1 <= PAGE_SHIFT <= 19 -> 0 < K ->
  feat_chunks vb = true -> vq_broken vb = false ->
  balloon_lock vb = false ->
  balloon_chunks vb = [] ->
  page_bmaps vb = 1 -> page_bmap vb = Some b0 :: rest ->
  alloc_page (n_alloc vb) = Some page ->
  page_to_balloon_pfn page mod BITS_PER_LONG <> 0 ->
  0 < num <= K -> (1 <= fuel)%nat ->
  exists runs vb',
    fill_balloon fuel num vb = Done K vb' /\
    pages vb' = pages vb ++ [page] /\
    num_pages vb' = u32 (num_pages vb + K) /\
    balloon_chunks vb' = [] /\
    balloon_chunks_sent (trace vb')
    = balloon_chunks_sent (trace vb)
      ++ map (run_chunk (rounddown (page_to_balloon_pfn page) BITS_PER_LONG))
           runs /\
    separated 0 PFNS_PER_PAGE_BMAP runs /\
    (forall p, 0 <= p < PFNS_PER_PAGE_BMAP ->
       Exists (in_run p) runs
       <-> exists page', In page' (pages vb ++ [page]) /\
             page_to_balloon_pfn page'
             = rounddown (page_to_balloon_pfn page) BITS_PER_LONG + p /\
             p <= BITS_PER_LONG).
Proof.
  intros HPS HK Hfeat Hbroken Hlock Hempty Hbmaps Hb Halloc
    Hunaligned Hnum Hfuel.
  assert (HK32 : 0 <= K < 2 ^ 32) by apply u32_range.
  assert (Hf : 0 <= page_to_balloon_pfn page < 2 ^ 32) by apply u32_range.
  set (f := page_to_balloon_pfn page) in *.
  unfold BITS_PER_LONG in *.
  pose proof (Z.div_mod f 64 ltac:(lia)) as Hdm.
  pose proof (Z.mod_pos_bound f 64 ltac:(lia)) as Hmb.
  pose proof (PFNS_PER_PAGE_BMAP_pow2 ltac:(lia)) as HP.
  assert (HP128 : 128 <= PFNS_PER_PAGE_BMAP).
  { rewrite HP. change 128 with (2 ^ 7). apply Z.pow_le_mono_r; lia. }
  assert (Hdown : rounddown f 64 = 64 * (f / 64)).
  { unfold rounddown, u64. rewrite Z.mod_small; lia. }
  destruct fuel as [|k]; [lia|].
  unfold fill_balloon.
  rewrite bind_get. cbv beta zeta. rewrite Hfeat.
  unfold init_page_bmap_range at 1, mutex_lock at 1. run_prim.
  change (balloon_lock (with_pfn_max 0 (with_pfn_min ULONG_MAX vb)))
    with (balloon_lock vb). rewrite Hlock.
  run_prim.
  change (fill_loop (S k) true num) with
    (vb <- get ;;
     if num_pfns vb <? num then
       page <- balloon_page_enqueue ;;
       match page with
       | None => emit (EvMsleep 200)
       | Some page =>
           update_page_bmap_range page ;;
           modify (fun vb => with_num_pages (u32 (num_pages vb + K)) vb) ;;
           modify (fun vb => with_num_pfns (u32 (num_pfns vb + K)) vb) ;;
           fill_loop k true num
       end
     else ret tt).
  run_prim.
  change (num_pfns (with_num_pfns 0 _)) with 0.
  destruct (Z.ltb_spec 0 num) as [_|]; [|lia].
  unfold balloon_page_enqueue at 1. run_prim.
  match goal with |- context [alloc_page (n_alloc ?s)] =>
    change (n_alloc s) with (n_alloc vb)
  end.
  rewrite Halloc.
  unfold balloon_page_insert at 1, update_page_bmap_range at 1. run_prim.
  fold f.
  match goal with |- context [bind (fill_loop k true num) _ ?s] =>
    set (s3 := s)
  end.
  assert (Hn3 : num_pfns s3 = K)
    by (subst s3; simpl; rewrite Z.add_0_l; apply u32_small; lia).
  assert (Hmin3 : pfn_min s3 = f)
    by (subst s3; simpl; unfold ULONG_MAX; lia).
  assert (Hmax3 : pfn_max s3 = f) by (subst s3; simpl; lia).
  assert (Hpages3 : pages s3 = pages vb ++ [page]) by reflexivity.
  assert (Hnp3 : num_pages s3 = u32 (num_pages vb + K)) by reflexivity.
  assert (Htr3 : trace s3 = trace vb ++ [EvLock]) by reflexivity.
  rewrite (bind_Done _ _ _ _ _ (fill_loop_done k true num s3 ltac:(lia))).
  run_prim.
  replace (num_pfns s3 =? 0) with false
    by (symmetry; apply Z.eqb_neq; lia).
  change (negb false) with true. unfold when.
  assert (Hlo3 : cover_lo s3 = 64 * (f / 64)).
  { unfold cover_lo, BITS_PER_LONG. now rewrite Hmin3. }
  assert (Hhi3 : cover_hi s3 = 64 * (f / 64) + 64).
  { unfold cover_hi, roundup, BITS_PER_LONG, u64. rewrite Hmax3.
    rewrite (Z.mod_small (f + (64 - 1))) by lia.
    replace ((f + (64 - 1)) / 64) with (f / 64 + 1)
      by (apply Z.div_unique with (r := f mod 64 - 1); lia).
    rewrite Z.mod_small; lia. }
  destruct (set_page_bmap_single_pass (S k) (pages s3) inflate_vq b0 rest s3)
    as (runs & s4 & Hrun & Hnone & _ & Hsent & Hsep & Hiff);
    try assumption; try lia.
  pose proof (keeps_set_page_bmap (S k) (pages s3) inflate_vq) as Hk.
  pose proof (Hk s3) as Hk3. unfold wp in Hk3. rewrite Hrun in Hk3.
  unfold ledger in Hk3. injection Hk3 as Hnp4 Hp4 Hn4.
  rewrite (bind_Done _ _ _ _ _ Hrun).
  unfold mutex_unlock at 1. run_prim. unfold ret.
  exists runs. eexists. split; [rewrite Hn3; reflexivity|].
  simpl. rewrite balloon_chunks_sent_app, Hsent, Htr3.
  rewrite balloon_chunks_sent_app. simpl. rewrite !app_nil_r.
  rewrite Hdown, <- Hlo3.
  split; [exact Hp4|]. split; [exact Hnp4|]. split; [exact Hnone|].
  split; [reflexivity|]. split; [exact Hsep|].
  intros p Hp.
  rewrite <- (Z.add_simpl_l (cover_lo s3) p) at 1.
  rewrite (Hiff (cover_lo s3 + p)) by lia.
  rewrite Hpages3. split.
  - intros (pg & Hin & Hq & Hr). exists pg. split; [exact Hin|].
    split; [exact Hq|lia].
  - intros (pg & Hin & Hq & Hr). exists pg. split; [exact Hin|].
    split; [exact Hq|lia].
Qed.

(** X15.  [fill_balloon] with the chunk feature, asked for one page on an
    empty ledger, when the balloon page-frame number of the page is not a
    multiple of BITS_PER_LONG: the page is put on the ledger and counted,
    and the host is handed exactly one chunk, the one of base that number
    and of size 1; the chunk buffer is empty afterwards. *)
Theorem fill_balloon_unaligned_page_makes_one_chunk fuel num page b0 rest vb :
  1 <= PAGE_SHIFT <= 19 -> 0 < K ->
  feat_chunks vb = true -> vq_broken vb = false ->
  balloon_lock vb = false ->
  pages vb = [] -> balloon_chunks vb = [] ->
  page_bmaps vb = 1 -> page_bmap vb = Some b0 :: rest ->
  alloc_page (n_alloc vb) = Some page ->
  page_to_balloon_pfn page mod BITS_PER_LONG <> 0 ->
  0 < num <= K -> (1 <= fuel)%nat ->
  exists vb',
    fill_balloon fuel num vb = Done K vb' /\
    pages vb' = [page] /\
    num_pages vb' = u32 (num_pages vb + K) /\
    balloon_chunks vb' = [] /\
    balloon_chunks_sent (trace vb')
    = balloon_chunks_sent (trace vb)
      ++ [wire_chunk (page_to_balloon_pfn page) 1].
Proof.
  intros HPS HK Hfeat Hbroken Hlock Hpages Hempty Hbmaps Hb Halloc
    Hunaligned Hnum Hfuel.
  destruct (fill_balloon_single_page fuel num page b0 rest vb)
    as (runs & vb' & Hrun & Hp & Hnp & Hnone & Hsent & Hsep & Hiff);
    try assumption.
  assert (Hf : 0 <= page_to_balloon_pfn page < 2 ^ 32) by apply u32_range.
  set (f := page_to_balloon_pfn page) in *.
  unfold BITS_PER_LONG in *.
  pose proof (Z.div_mod f 64 ltac:(lia)) as Hdm.
  pose proof (Z.mod_pos_bound f 64 ltac:(lia)) as Hmb.
  assert (HP128 : 128 <= PFNS_PER_PAGE_BMAP).
  { rewrite (PFNS_PER_PAGE_BMAP_pow2 ltac:(lia)).
    change 128 with (2 ^ 7). apply Z.pow_le_mono_r; lia. }
  assert (Hdown : rounddown f 64 = 64 * (f / 64)).
  { unfold rounddown, u64. rewrite Z.mod_small; lia. }
  assert (Hruns : runs = [(f - rounddown f 64, 1)]).
  { apply (runs_of_one_bit PFNS_PER_PAGE_BMAP); [exact Hsep|lia|].
    intros p Hp'. rewrite (Hiff p Hp'), Hpages. split.
    - intros (pg & [<-|[]] & Hq & _). fold f in Hq. lia.
    - intros ->. exists page. split; [now left|]. fold f. lia. }
  exists vb'. split; [exact Hrun|]. split; [now rewrite Hp, Hpages|].
  split; [exact Hnp|]. split; [exact Hnone|].
  rewrite Hsent, Hruns. simpl. unfold run_chunk. simpl.
  replace (rounddown f 64 + (f - rounddown f 64)) with f by lia.
  replace (u64 f) with f by (unfold u64; rewrite Z.mod_small; lia).
  reflexivity.
Qed.

(** X19.  The same batch on a ledger that is not empty: a page taken by an
    earlier batch whose balloon page-frame number lies in the same word of
    the bitmap as the new one (up to the first number of the next word) is
    marked along with it, and its number is again in a chunk handed to the
    host. *)
Theorem fill_balloon_reports_old_pages_again fuel num page old b0 rest vb :
  1 <= PAGE_SHIFT <= 19 -> 0 < K ->
  feat_chunks vb = true -> vq_broken vb = false ->
  balloon_lock vb = false ->
  balloon_chunks vb = [] ->
  page_bmaps vb = 1 -> page_bmap vb = Some b0 :: rest ->
  alloc_page (n_alloc vb) = Some page ->
  page_to_balloon_pfn page mod BITS_PER_LONG <> 0 ->
  0 < num <= K -> (1 <= fuel)%nat ->
  In old (pages vb) ->
  rounddown (page_to_balloon_pfn page) BITS_PER_LONG
  <= page_to_balloon_pfn old
  <= rounddown (page_to_balloon_pfn page) BITS_PER_LONG + BITS_PER_LONG ->
  exists runs vb',
    fill_balloon fuel num vb = Done K vb' /\
    balloon_chunks vb' = [] /\
    balloon_chunks_sent (trace vb')
    = balloon_chunks_sent (trace vb)
      ++ map (run_chunk (rounddown (page_to_balloon_pfn page) BITS_PER_LONG))
           runs /\
    Exists (in_run (page_to_balloon_pfn old
                    - rounddown (page_to_balloon_pfn page) BITS_PER_LONG))
      runs.
Proof.
  intros HPS HK Hfeat Hbroken Hlock Hempty Hbmaps Hb Halloc
    Hunaligned Hnum Hfuel Hold Hnear.
  destruct (fill_balloon_single_page fuel num page b0 rest vb)
    as (runs & vb' & Hrun & Hp & Hnp & Hnone & Hsent & Hsep & Hiff);
    try assumption.
  assert (HP128 : 128 <= PFNS_PER_PAGE_BMAP).
  { rewrite (PFNS_PER_PAGE_BMAP_pow2 ltac:(lia)).
    change 128 with (2 ^ 7). apply Z.pow_le_mono_r; lia. }
  unfold BITS_PER_LONG in *.
  exists runs, vb'. split; [exact Hrun|]. split; [exact Hnone|].
  split; [exact Hsent|].
  apply Hiff; [lia|]. exists old.
  split; [apply in_or_app; now left|]. split; lia.
Qed.


(** ** The bitmap buffers around one encoding *)

(** A state with its bitmap fields and the [kmalloc] count replaced. *)
Definition bm_state (l : list (option Z)) (n : Z) (c : nat)
    (vb : virtio_balloon) : virtio_balloon :=
  with_page_bmap l (with_page_bmaps n (with_n_kmalloc c vb)).

Lemma bm_state_self vb :
  bm_state (page_bmap vb) (page_bmaps vb) (n_kmalloc vb) vb = vb.
Proof. now destruct vb. Qed.

Lemma write_page_bmap_bm (i : nat) slot l n c vb :
  (i < length l)%nat -> (i < 32)%nat ->
  write_page_bmap (Z.of_nat i) slot (bm_state l n c vb)
  = Done tt (bm_state (<[i := slot]> l) n c vb).
Proof.
  intros Hl H32. unfold write_page_bmap, bind, get.
  change (page_bmap (bm_state l n c vb)) with l.
  destruct (Z.leb_spec 0 (Z.of_nat i)); [|lia].
  destruct (Z.ltb_spec (Z.of_nat i) (Z.of_nat (length l))); [|lia].
  destruct (Z.ltb_spec (Z.of_nat i) PAGE_BMAP_COUNT_MAX);
    [|unfold PAGE_BMAP_COUNT_MAX in *; lia].
  simpl. rewrite Nat2Z.id. now destruct vb.
Qed.

Lemma extend_loop_bm todo (i : nat) l c vb :
  (i + todo <= 32)%nat -> length l = 32%nat ->
  (forall k, (i <= k < 32)%nat -> l !! k = Some None) ->
  exists (j : nat) l' c',
    extend_loop todo (Z.of_nat i) (bm_state l (Z.of_nat i) c vb)
    = Done tt (bm_state l' (Z.of_nat (i + j)) c' vb) /\
    (j <= todo)%nat /\ (c <= c' <= c + todo)%nat /\ length l' = 32%nat /\
    (forall k, l' !! k = if decide (i <= k < i + j)%nat
                         then Some (Some 0) else l !! k).
Proof.
  revert i l c. induction todo as [|t IH]; intros i l c Hi Hlen Hnull.
  - exists 0%nat, l, c. simpl. rewrite Nat.add_0_r.
    split; [reflexivity|]. split; [lia|]. split; [lia|]. split; [exact Hlen|].
    intros k. case_decide; [lia|reflexivity].
  - simpl extend_loop.
    unfold bind at 1, kmalloc_bmap at 1, bind at 1, get at 1.
    unfold bind at 1, modify at 1, ret at 1.
    change (n_kmalloc (bm_state l (Z.of_nat i) c vb)) with c.
    change (with_n_kmalloc (S c) (bm_state l (Z.of_nat i) c vb))
      with (bm_state l (Z.of_nat i) (S c) vb).
    rewrite (bind_Done _ _ _ _ _
               (write_page_bmap_bm i _ l (Z.of_nat i) (S c) vb
                  ltac:(lia) ltac:(lia))).
    destruct (kmalloc_ok c).
    + rewrite bind_modify.
      change (with_page_bmaps ?x (bm_state ?l' ?n ?c' vb))
        with (bm_state l' x c' vb).
      change (page_bmaps (bm_state _ (Z.of_nat i) (S c) vb)) with (Z.of_nat i).
      replace (u32 (Z.of_nat i + 1)) with (Z.of_nat (S i))
        by (rewrite u32_small; lia).
      replace (Z.of_nat i + 1) with (Z.of_nat (S i)) by lia.
      destruct (IH (S i) (<[i := Some 0]> l) (S c))
        as (j & l' & c' & Hrun & Hj & Hc & Hlen' & Hl'); try lia.
      { now rewrite length_insert. }
      { intros k Hk. rewrite list_lookup_insert_ne by lia. apply Hnull. lia. }
      exists (S j), l', c'. split.
      { rewrite Hrun. do 3 f_equal. lia. }
      split; [lia|]. split; [lia|]. split; [exact Hlen'|].
      intros k. rewrite Hl'.
      destruct (decide (S i <= k < S i + j)%nat);
        destruct (decide (i <= k < i + S j)%nat); try lia; try reflexivity.
      destruct (decide (k = i)) as [->|Hne].
      * rewrite list_lookup_insert_eq by lia. reflexivity.
      * lia.
      * apply list_lookup_insert_ne. lia.
    + exists 0%nat, (<[i := None]> l), (S c). rewrite Nat.add_0_r.
      split; [reflexivity|]. split; [lia|]. split; [lia|].
      split; [now rewrite length_insert|].
      intros k. case_decide; [lia|].
      destruct (decide (k = i)) as [->|Hne].
      * rewrite list_lookup_insert_eq by lia. symmetry. apply Hnull. lia.
      * apply list_lookup_insert_ne. lia.
Qed.

Lemma free_extended_loop_bm todo (i : nat) l n c vb :
  (i + todo <= 32)%nat -> length l = 32%nat ->
  Z.of_nat todo <= n < 2 ^ 32 ->
  exists l',
    free_extended_loop todo (Z.of_nat i) (bm_state l n c vb)
    = Done tt (bm_state l' (n - Z.of_nat todo) c vb) /\
    length l' = 32%nat /\
    (forall k, l' !! k = if decide (i <= k < i + todo)%nat
                         then Some None else l !! k).
Proof.
  revert i l n. induction todo as [|t IH]; intros i l n Hi Hlen Hn.
  - exists l. simpl. rewrite Z.sub_0_r.
    split; [reflexivity|]. split; [exact Hlen|].
    intros k. case_decide; [lia|reflexivity].
  - simpl free_extended_loop.
    rewrite (bind_Done _ _ _ _ _
               (write_page_bmap_bm i None l n c vb ltac:(lia) ltac:(lia))).
    rewrite bind_modify.
    change (with_page_bmaps ?x (bm_state ?l' ?n' ?c' vb))
      with (bm_state l' x c' vb).
    change (page_bmaps (bm_state _ n c vb)) with n.
    rewrite (u32_small (n - 1)) by lia.
    replace (Z.of_nat i + 1) with (Z.of_nat (S i)) by lia.
    destruct (IH (S i) (<[i := None]> l) (n - 1))
      as (l' & Hrun & Hlen' & Hl'); try lia.
    { now rewrite length_insert. }
    exists l'. split.
    { rewrite Hrun.
      replace (n - 1 - Z.of_nat t) with (n - Z.of_nat (S t)) by lia.
      reflexivity. }
    split; [exact Hlen'|].
    intros k. rewrite Hl'.
    destruct (decide (S i <= k < S i + t)%nat);
      destruct (decide (i <= k < i + S t)%nat); try lia; try reflexivity.
    + destruct (decide (k = i)) as [->|Hne]; [|lia].
      rewrite list_lookup_insert_eq by lia. reflexivity.
    + apply list_lookup_insert_ne. lia.
Qed.

(** X3.  The bitmap buffers that [extend_page_bmap_size] adds are all given
    back by [free_extended_page_bmap]: from a state with one buffer, for
    every size asked for and however many [kmalloc] calls succeed, the two
    in a row return and change nothing but the count of [kmalloc] calls;
    at most 31 buffers are asked for. *)
Theorem extend_then_free_restores_bitmaps pfns vb :
  page_bmaps vb = 1 -> length (page_bmap vb) = 32%nat ->
  (forall k, (1 <= k < 32)%nat -> page_bmap vb !! k = Some None) ->
  exists c,
    (n_kmalloc vb <= c <= n_kmalloc vb + 31)%nat /\
    (extend_page_bmap_size pfns ;; free_extended_page_bmap) vb
    = Done tt (with_n_kmalloc c vb).
Proof.
  intros Hone Hlen Hnull.
  unfold extend_page_bmap_size. cbv zeta.
  match goal with |- context [extend_loop ?t 1] => set (todo := t) end.
  assert (Htodo : (todo <= 31)%nat).
  { unfold todo, PAGE_BMAP_COUNT_MAX. lia. }
  assert (Hvb : bm_state (page_bmap vb) 1 (n_kmalloc vb) vb = vb)
    by (rewrite <- Hone at 1; apply bm_state_self).
  destruct (extend_loop_bm todo 1 (page_bmap vb) (n_kmalloc vb) vb)
    as (j & l1 & c1 & Hext & Hj & Hc & Hlen1 & Hl1); [lia|exact Hlen|exact Hnull|].
  change (Z.of_nat 1) with 1 in Hext. rewrite Hvb in Hext.
  exists c1. split; [lia|].
  rewrite (bind_Done _ _ _ _ _ Hext).
  unfold free_extended_page_bmap. rewrite bind_get.
  change (page_bmaps (bm_state l1 (Z.of_nat (1 + j)) c1 vb))
    with (Z.of_nat (1 + j)).
  rewrite s32_small by lia.
  replace (Z.to_nat (Z.of_nat (1 + j) - 1)) with j by lia.
  destruct (free_extended_loop_bm j 1 l1 (Z.of_nat (1 + j)) c1 vb)
    as (l2 & Hfree & Hlen2 & Hl2); [lia|exact Hlen1|lia|].
  change (Z.of_nat 1) with 1 in Hfree. rewrite Hfree.
  replace (Z.of_nat (1 + j) - Z.of_nat j) with 1 by lia.
  replace l2 with (page_bmap vb).
  - rewrite <- Hone. now destruct vb.
  - apply list_eq. intros k. rewrite Hl2, Hl1.
    destruct (decide (1 <= k < 1 + j)%nat); [|reflexivity].
    apply Hnull. lia.
Qed.


(** ** Emptying the balloon *)

(** The removal loop stops only when it has what was asked for or the
    ledger is empty. *)
Lemma leak_loop_progress fuel chunking num l vb :
  wp (leak_loop fuel chunking num l)
     (fun _ vb' => num <= num_pfns vb' \/ pages vb' = [])
     (fun _ => True) vb.
Proof.
  revert vb l. induction fuel as [|k IH]; intros vb l; simpl.
  - unfold wp, bind, get.
    destruct (Z.ltb_spec (num_pfns vb) num); simpl; auto.
  - apply wp_bind. unfold wp at 1, get.
    destruct (Z.ltb_spec (num_pfns vb) num) as [Hlt|Hge];
      [|unfold wp, ret; auto].
    apply wp_bind. unfold wp at 1, balloon_page_dequeue, bind, get, modify.
    destruct (pages vb) as [|page rest] eqn:Hpages; simpl;
      [right; exact Hpages|].
    apply wp_bind. eapply wp_mono.
    + apply keeps_wp with (P := fun _ => True); [auto with keeps|exact I].
    + simpl. intros _ vb1 _. apply wp_bind. eapply wp_mono.
      * apply keeps_wp with (P := fun _ => True);
          [destruct chunking; auto with keeps|exact I].
      * simpl. intros _ vb2 _. apply IH.
      * auto.
    + auto.
Qed.

Lemma leak_balloon_progress fuel num vb :
  wp (leak_balloon fuel num)
     (fun n vb' =>
        Z.min (Z.min num VIRTIO_BALLOON_ARRAY_PFNS_MAX) (num_pages vb) <= n
        \/ pages vb' = [])
     (fun _ => True) vb.
Proof.
  unfold leak_balloon.
  apply wp_bind. unfold wp at 1, get.
  apply wp_bind. eapply wp_mono.
  { apply keeps_wp with (P := fun l => l.1.1 = num_pages vb);
      [destruct (feat_chunks vb); auto with keeps|reflexivity]. }
  2:{ auto. }
  simpl. intros _ vb1 H1.
  apply wp_bind. eapply wp_mono.
  { apply keeps_wp with (P := fun l => l.1.1 = num_pages vb);
      [auto with keeps|exact H1]. }
  2:{ auto. }
  simpl. intros _ vb2 H2.
  apply wp_bind. unfold wp at 1, get.
  apply wp_bind. unfold wp at 1, modify.
  apply wp_bind. eapply wp_mono.
  { apply leak_loop_progress. }
  2:{ auto. }
  simpl. intros l vb3 H3.
  apply wp_bind. unfold wp at 1, get.
  apply wp_bind. eapply wp_mono.
  { apply keeps_wp with
      (P := fun l => l.1.2 = pages vb3 /\ l.2 = num_pfns vb3);
      [|now split].
    apply keeps_when. destruct (feat_chunks vb); auto with keeps. }
  2:{ auto. }
  simpl. intros _ vb4 H4.
  apply wp_bind. eapply wp_mono.
  { apply keeps_wp with
      (P := fun l => l.1.2 = pages vb3 /\ l.2 = num_pfns vb3);
      [auto with keeps|exact H4]. }
  2:{ auto. }
  simpl. intros _ vb5 H5.
  apply wp_bind. eapply wp_mono.
  { apply keeps_wp with
      (P := fun l => l.1.2 = pages vb3 /\ l.2 = num_pfns vb3);
      [auto with keeps|exact H5]. }
  2:{ auto. }
  simpl. intros _ vb6 [Hp6 _].
  unfold wp, ret. rewrite Hp6.
  destruct H3 as [H3|H3]; [left|right; exact H3].
  rewrite H2 in H3. destruct (feat_chunks vb); lia.
Qed.


(** What a deflate batch of the legacy path leaves of the device: the
    lock is free again and the array has its size. *)
Lemma leak_balloon_legacy_device fuel num vb :
  0 < K -> (K | VIRTIO_BALLOON_ARRAY_PFNS_MAX) ->
  feat_chunks vb = false -> vq_broken vb = false ->
  balloon_lock vb = false ->
  Z.of_nat (length (pfns vb)) = VIRTIO_BALLOON_ARRAY_PFNS_MAX ->
  VIRTIO_BALLOON_ARRAY_PFNS_MAX <= Z.of_nat fuel ->
  exists n vb',
    leak_balloon fuel num vb = Done n vb' /\
    feat_chunks vb' = false /\ vq_broken vb' = false /\
    balloon_lock vb' = false /\
    length (pfns vb') = length (pfns vb).
Proof.
  intros HK Hdiv Hfeat Hbroken Hlock Hlen Hfuel.
  unfold leak_balloon.
  rewrite bind_get. cbv beta zeta. rewrite Hfeat.
  unfold mutex_lock at 1. run_prim. rewrite Hlock. run_prim.
  match goal with |- context [bind (leak_loop fuel false ?n []) _ ?s] =>
    destruct (leak_loop_legacy fuel n [] s HK Hdiv)
      as (deq & vb1 & Hrun & Hp & Hn & Hle & Hf & Hs1 & Hs2 & Hs3 & Hs4)
  end.
  { lia. }
  { simpl. apply Z.divide_0_r. }
  { simpl. lia. }
  { simpl. exact Hlen. }
  { simpl. lia. }
  simpl in Hp, Hn, Hle, Hf, Hs1, Hs2, Hs3, Hs4.
  rewrite (bind_Done _ _ _ _ _ Hrun). rewrite bind_get. cbv beta.
  assert (Hfl := length_flat_page_pfns deq ltac:(lia)).
  assert (Hn256 : num_pfns vb1 <= VIRTIO_BALLOON_ARRAY_PFNS_MAX)
    by (apply Hle; unfold VIRTIO_BALLOON_ARRAY_PFNS_MAX; lia).
  assert (Hlen1 : length (pfns vb1) = length (pfns vb)).
  { rewrite Hf. apply length_splice. lia. }
  exists (num_pfns vb1).
  destruct (Z.eqb_spec (num_pfns vb1) 0) as [Hz|Hnz];
    change (negb true) with false; change (negb false) with true;
    unfold when.
  - eexists. split.
    { rewrite bind_ret.
      rewrite (bind_Done _ _ _ _ _ (release_pages_balloon_spec _ vb1)).
      unfold mutex_unlock at 1. run_prim. unfold ret. reflexivity. }
    simpl. repeat split; congruence.
  - eexists. split.
    { rewrite (bind_Done _ _ _ _ _
                 (tell_host_legacy deflate_vq vb1 ltac:(congruence)
                    ltac:(congruence))).
      match goal with
      | |- context [bind (release_pages_balloon ?l) ?k ?s] =>
          rewrite (bind_Done _ _ _ _ _ (release_pages_balloon_spec l s))
      end.
      unfold mutex_unlock at 1. run_prim. unfold ret. reflexivity. }
    simpl. repeat split; congruence.
Qed.


(** The calls into the transport that end [remove_common]:
    [vdev->config->reset] and [vdev->config->del_vqs]. *)
Inductive config_op := config_reset | config_del_vqs.

(** [while (vb->num_pages) leak_balloon(vb, vb->num_pages);] *)
Fixpoint remove_common_loop (fuel0 fuel : nat) : M unit :=
  vb <- get ;;
  if negb (num_pages vb =? 0) then
    match fuel with
    | O => stop OutOfFuel
    | S k =>
        leak_balloon fuel0 (num_pages vb) ;;
        remove_common_loop fuel0 k
    end
  else ret tt.

(** [remove_common]; the result is the calls made into the transport once
    the balloon is empty, in order. *)
Definition remove_common (fuel : nat) : M (list config_op) :=
  remove_common_loop fuel fuel ;;
  update_balloon_size ;;
  ret [config_reset; config_del_vqs].

(** The pages whose balloon reference a trace has dropped. *)
Definition put_pages (tr : list event) : list Z :=
  flat_map (fun e => match e with EvPutPage page => [page] | _ => [] end) tr.

Lemma put_pages_app tr1 tr2 :
  put_pages (tr1 ++ tr2) = put_pages tr1 ++ put_pages tr2.
Proof. apply flat_map_app. Qed.

Lemma put_pages_released l : put_pages (map EvPutPage l) = l.
Proof. induction l as [|p l IH]; simpl; [reflexivity|now rewrite IH]. Qed.

(** A balloon at rest on the legacy path. *)
Definition legacy_at_rest (vb : virtio_balloon) : Prop :=
  feat_chunks vb = false /\ vq_broken vb = false /\
  balloon_lock vb = false /\
  Z.of_nat (length (pfns vb)) = VIRTIO_BALLOON_ARRAY_PFNS_MAX /\
  num_pages vb = K * Z.of_nat (length (pages vb)) /\
  K * Z.of_nat (length (pages vb)) < 2 ^ 32.

Lemma remove_common_loop_legacy fuel0 fuel vb :
  0 < K -> (K | VIRTIO_BALLOON_ARRAY_PFNS_MAX) ->
  legacy_at_rest vb ->
  VIRTIO_BALLOON_ARRAY_PFNS_MAX <= Z.of_nat fuel0 ->
  (length (pages vb) <= fuel)%nat ->
  exists vb',
    remove_common_loop fuel0 fuel vb = Done tt vb' /\
    legacy_at_rest vb' /\ pages vb' = [] /\
    put_pages (trace vb') ≡ₚ put_pages (trace vb) ++ pages vb.
Proof.
  intros HK Hdiv Hrest Hfuel0. revert vb Hrest.
  induction fuel as [|k IH]; intros vb Hrest Hfuel;
    destruct Hrest as (Hfeat & Hbroken & Hlock & Hlen & Hnp & H32).
  - destruct (pages vb) as [|p l] eqn:Hpages; [|simpl in Hfuel; lia].
    exists vb. simpl in Hnp. simpl. unfold bind, get.
    replace (num_pages vb =? 0) with true by (symmetry; apply Z.eqb_eq; lia).
    simpl. rewrite Hpages, app_nil_r.
    split; [reflexivity|]. split; [|split; [reflexivity|reflexivity]].
    unfold legacy_at_rest. rewrite ?Hpages.
    repeat split; try assumption; simpl in *; lia.
  - simpl remove_common_loop. rewrite bind_get. cbv beta.
    destruct (Z.eqb_spec (num_pages vb) 0) as [Hz|Hnz];
      change (negb true) with false; change (negb false) with true;
      cbv iota.
    + assert (Hpages : pages vb = []).
      { destruct (pages vb); [reflexivity|simpl in Hnp; lia]. }
      exists vb. rewrite Hpages, app_nil_r.
      split; [reflexivity|]. split; [|split; [reflexivity|reflexivity]].
      unfold legacy_at_rest. rewrite ?Hpages.
    repeat split; try assumption; simpl in *; lia.
    + destruct (leak_balloon_legacy fuel0 (num_pages vb) vb HK Hdiv Hfeat
                  Hbroken Hlock Hlen Hfuel0)
        as (deq & n & vb1 & Hrun & Hp & Hn & _ & Htr).
      destruct (leak_balloon_legacy_device fuel0 (num_pages vb) vb HK Hdiv
                  Hfeat Hbroken Hlock Hlen Hfuel0)
        as (n' & vb1' & Hrun' & Hfeat1 & Hbroken1 & Hlock1 & Hlen1).
      rewrite Hrun in Hrun'. injection Hrun' as <- <-.
      pose proof (leak_balloon_counts fuel0 (num_pages vb) vb ltac:(lia))
        as Hcount.
      pose proof (leak_balloon_progress fuel0 (num_pages vb) vb) as Hprog.
      unfold wp in Hcount, Hprog. rewrite Hrun in Hcount, Hprog.
      destruct Hcount as [_ Hnp1].
      assert (Hlens : length (pages vb)
                      = (length deq + length (pages vb1))%nat)
        by (rewrite Hp at 1; apply length_app).
      assert (Hrest1 : legacy_at_rest vb1).
      { unfold legacy_at_rest.
        split; [exact Hfeat1|]. split; [exact Hbroken1|].
        split; [exact Hlock1|]. split; [lia|].
        split; [|nia].
        rewrite Hnp1, Hnp, Hn, Hlens. rewrite u32_small; nia. }
      destruct (IH vb1 Hrest1) as (vb' & Hloop & Hrest' & Hempty & Hput).
      { destruct Hprog as [Hprog|Hprog]; [|rewrite Hprog; simpl; lia].
        unfold VIRTIO_BALLOON_ARRAY_PFNS_MAX in Hprog.
        destruct deq; [simpl in Hn; lia|simpl in Hlens; lia]. }
      exists vb'. rewrite (bind_Done _ _ _ _ _ Hrun).
      split; [exact Hloop|]. split; [exact Hrest'|].
      split; [exact Hempty|].
      rewrite Hput, Htr, !put_pages_app, put_pages_released.
      destruct (n =? 0); simpl; rewrite app_nil_r, <- app_assoc, Hp at 1;
        apply Permutation_app_head, Permutation_app_tail;
        symmetry; apply Permutation_rev.
Qed.

(** X4.  [remove_common] on the legacy path, from a balloon at rest whose
    counter matches its ledger: the loop returns, every page of the ledger
    has had its balloon reference dropped, the counter is zero, and zero is
    the size written to the configuration space, as the last thing before
    the device is reset and its queues are deleted. *)
Theorem remove_common_empties_the_balloon fuel vb :
  0 < K -> (K | VIRTIO_BALLOON_ARRAY_PFNS_MAX) ->
  feat_chunks vb = false -> vq_broken vb = false ->
  balloon_lock vb = false ->
  Z.of_nat (length (pfns vb)) = VIRTIO_BALLOON_ARRAY_PFNS_MAX ->
  num_pages vb = K * Z.of_nat (length (pages vb)) ->
  K * Z.of_nat (length (pages vb)) < 2 ^ 32 ->
  VIRTIO_BALLOON_ARRAY_PFNS_MAX <= Z.of_nat fuel ->
  (length (pages vb) <= fuel)%nat ->
  exists tr vb',
    remove_common fuel vb = Done [config_reset; config_del_vqs] vb' /\
    pages vb' = [] /\ num_pages vb' = 0 /\ config_actual vb' = 0 /\
    balloon_lock vb' = false /\
    trace vb' = tr ++ [EvConfigActual 0] /\
    put_pages tr ≡ₚ put_pages (trace vb) ++ pages vb.
Proof.
  intros HK Hdiv Hfeat Hbroken Hlock Hlen Hnp H32 Hfuel0 Hfuel.
  destruct (remove_common_loop_legacy fuel fuel vb HK Hdiv) as
    (vb1 & Hloop & Hrest & Hempty & Hput); [|exact Hfuel0|exact Hfuel|].
  { unfold legacy_at_rest. auto 10. }
  destruct Hrest as (_ & _ & Hlock1 & _ & Hnp1 & _).
  rewrite Hempty in Hnp1. simpl in Hnp1. rewrite Z.mul_0_r in Hnp1.
  exists (trace vb1). eexists. split.
  { unfold remove_common. rewrite (bind_Done _ _ _ _ _ Hloop).
    unfold update_balloon_size at 1. run_prim. rewrite Hnp1.
    change (u32 0) with 0. unfold ret. reflexivity. }
  simpl. auto 10.
Qed.


(** ** The OOM notifier *)

(** [NOTIFY_OK], of the kernel's notifier interface. *)
Variable NOTIFY_OK : Z.

(** [virtballoon_oom_notify(self, dummy, parm)]: [deflate_on_oom] is
    whether VIRTIO_BALLOON_F_DEFLATE_ON_OOM was negotiated, [oom_pages] the
    module parameter (an [int], passed where a [size_t] is expected) and
    [freed] the value of [*parm] at the call; the result is the returned
    [int] with the value of [*parm] at the return. *)
Definition virtballoon_oom_notify (fuel : nat) (deflate_on_oom : bool)
    (oom_pages freed : Z) : M (Z * Z) :=
  if negb deflate_on_oom then ret (NOTIFY_OK, freed)
  else
    num_freed_pages <- leak_balloon fuel (u64 oom_pages) ;;
    update_balloon_size ;;
    ret (NOTIFY_OK, u64 (freed + num_freed_pages)).

(** A deflate batch that returns has taken off the ledger what it
    returns, one array at most. *)
Lemma leak_balloon_bound fuel num vb :
  0 < K -> (K | VIRTIO_BALLOON_ARRAY_PFNS_MAX) ->
  wp (leak_balloon fuel num)
     (fun n vb' =>
        0 <= n <= VIRTIO_BALLOON_ARRAY_PFNS_MAX /\
        K * Z.of_nat (length (pages vb))
        = K * Z.of_nat (length (pages vb')) + n)
     (fun _ => True) vb.
Proof.
  intros HK Hdiv. unfold leak_balloon.
  apply wp_bind. unfold wp at 1, get.
  apply wp_bind. eapply wp_mono.
  { apply keeps_wp with (P := fun x => x.1.2 = pages vb);
      [destruct (feat_chunks vb); auto with keeps|reflexivity]. }
  2:{ auto. }
  simpl. intros _ vb1 H1.
  apply wp_bind. eapply wp_mono.
  { apply keeps_wp with (P := fun x => x.1.2 = pages vb);
      [auto with keeps|exact H1]. }
  2:{ auto. }
  simpl. intros _ vb2 H2.
  apply wp_bind. unfold wp at 1, get.
  apply wp_bind. unfold wp at 1, modify.
  set (C := K * Z.of_nat (length (pages vb))).
  apply wp_bind. eapply wp_mono.
  { apply leak_loop_bound with (C := C); [exact HK|exact Hdiv|lia|].
    unfold leak_batch. simpl. rewrite H2. unfold C.
    split; [apply Z.divide_0_r|].
    unfold VIRTIO_BALLOON_ARRAY_PFNS_MAX. lia. }
  2:{ auto. }
  simpl. intros l vb3 (Hd & Hr & HC).
  apply wp_bind. unfold wp at 1, get.
  apply wp_bind. eapply wp_mono.
  { apply keeps_wp with (P := fun x => x.1.2 = pages vb3); [|reflexivity].
    apply keeps_when. destruct (feat_chunks vb); auto with keeps. }
  2:{ auto. }
  simpl. intros _ vb4 H4.
  apply wp_bind. eapply wp_mono.
  { apply keeps_wp with (P := fun x => x.1.2 = pages vb3);
      [auto with keeps|exact H4]. }
  2:{ auto. }
  simpl. intros _ vb5 H5.
  apply wp_bind. eapply wp_mono.
  { apply keeps_wp with (P := fun x => x.1.2 = pages vb3);
      [auto with keeps|exact H5]. }
  2:{ auto. }
  simpl. intros _ vb6 H6.
  unfold wp, ret. rewrite H6. split; [exact Hr|]. fold C. lia.
Qed.

(** X5.  [virtballoon_oom_notify]: without VIRTIO_BALLOON_F_DEFLATE_ON_OOM
    it touches nothing.  With it, and in both encoding modes, a call that
    returns has added to [*parm] the balloon units that one deflate batch
    took off the ledger, 256 at most whatever [oom_pages] is, and has
    written the new size to the configuration space as its last act; the
    result is NOTIFY_OK either way. *)
Theorem virtballoon_oom_notify_reports_one_batch fuel oom_pages freed vb :
  0 < K -> (K | VIRTIO_BALLOON_ARRAY_PFNS_MAX) ->
  0 <= num_pages vb < 2 ^ 32 ->
  virtballoon_oom_notify fuel false oom_pages freed vb
  = Done (NOTIFY_OK, freed) vb /\
  forall r vb',
    virtballoon_oom_notify fuel true oom_pages freed vb = Done r vb' ->
    exists n tr,
      r = (NOTIFY_OK, u64 (freed + n)) /\
      0 <= n <= VIRTIO_BALLOON_ARRAY_PFNS_MAX /\
      K * Z.of_nat (length (pages vb))
      = K * Z.of_nat (length (pages vb')) + n /\
      num_pages vb' = u32 (num_pages vb - n) /\
      config_actual vb' = num_pages vb' /\
      trace vb' = tr ++ [EvConfigActual (num_pages vb')].
Proof.
  intros HK Hdiv Hnp. split; [reflexivity|].
  intros r vb'. unfold virtballoon_oom_notify.
  change (negb true) with false. cbv iota.
  pose proof (leak_balloon_bound fuel (u64 oom_pages) vb HK Hdiv) as Hb.
  pose proof (leak_balloon_counts fuel (u64 oom_pages) vb Hnp) as Hc.
  unfold wp in Hb, Hc. unfold bind at 1.
  destruct (leak_balloon fuel (u64 oom_pages) vb) as [n vb1|];
    [|discriminate].
  destruct Hb as [Hn Hpages]. destruct Hc as [_ Hnp1].
  unfold update_balloon_size at 1. run_prim. unfold ret.
  intros [= <- <-]. exists n, (trace vb1). simpl.
  rewrite (u32_small (num_pages vb1)) by (rewrite Hnp1; apply u32_range).
  auto 10.
Qed.


(** ** Edges of the array path *)

Lemma lookup_splice_group off g l i :
  (off + length g <= length l)%nat -> (i < length g)%nat ->
  splice off g l !! (off + i)%nat = g !! i.
Proof.
  intros Hfit Hi. unfold splice.
  rewrite lookup_app_r by (rewrite length_take; lia).
  rewrite length_take.
  replace (off + i - off `min` length l)%nat with i by lia.
  now rewrite lookup_app_l by lia.
Qed.

Lemma lookup_splice_outside off g l j :
  (off + length g <= length l)%nat ->
  (j < off \/ off + length g <= j)%nat ->
  splice off g l !! j = l !! j.
Proof.
  intros Hfit [Hj|Hj]; unfold splice.
  - rewrite lookup_app_l by (rewrite length_take; lia).
    now rewrite lookup_take_lt by lia.
  - rewrite lookup_app_r by (rewrite length_take; lia).
    rewrite length_take.
    rewrite lookup_app_r by lia.
    rewrite lookup_drop. f_equal. lia.
Qed.

Lemma lookup_page_pfns page (i : nat) :
  Z.of_nat i < K ->
  page_pfns page !! i = Some (u32 (page_to_balloon_pfn page + Z.of_nat i)).
Proof.
  intros Hi. unfold page_pfns, pfn_group.
  rewrite list_lookup_fmap, lookup_seq_lt by lia. reflexivity.
Qed.

(** X6.  [set_page_pfns] on K entries that lie inside the array: it
    returns, having written the K balloon page-frame numbers of the page,
    counting up from the first, to the entries from [off] on; no other
    entry and nothing else of the state is changed. *)
Theorem set_page_pfns_writes_one_group off page vb :
  0 < K -> 0 <= off ->
  off + K <= Z.of_nat (length (pfns vb)) ->
  off + K <= VIRTIO_BALLOON_ARRAY_PFNS_MAX ->
  exists vb',
    set_page_pfns off page vb = Done tt vb' /\
    vb' = with_pfns (pfns vb') vb /\
    length (pfns vb') = length (pfns vb) /\
    (forall i : nat, Z.of_nat i < K ->
       pfns vb' !! (Z.to_nat off + i)%nat
       = Some (u32 (page_to_balloon_pfn page + Z.of_nat i))) /\
    (forall j : nat, (j < Z.to_nat off \/ Z.to_nat (off + K) <= j)%nat ->
       pfns vb' !! j = pfns vb !! j).
Proof.
  intros HK H0 H1 H2.
  assert (Hg : length (page_pfns page) = Z.to_nat K)
    by apply length_page_pfns.
  eexists. split; [apply set_page_pfns_spec; lia|].
  split; [simpl; rewrite ?with_pfns_twice; reflexivity|].
  split; [simpl; apply length_splice; lia|].
  split.
  - intros i Hi. simpl.
    rewrite lookup_splice_group by lia. now apply lookup_page_pfns.
  - intros j Hj. simpl. apply lookup_splice_outside; lia.
Qed.


(** ** Results and counters *)

(** X7.  In both encoding modes, what [fill_balloon] returns is what it
    added to [num_pages], and what [leak_balloon] returns is what it took
    off, as 32-bit numbers. *)
Theorem fill_and_leak_return_the_change fuel num vb :
  0 <= num_pages vb < 2 ^ 32 ->
  (forall n vb', fill_balloon fuel num vb = Done n vb' ->
     0 <= n < 2 ^ 32 /\ num_pages vb' = u32 (num_pages vb + n)) /\
  (forall n vb', leak_balloon fuel num vb = Done n vb' ->
     0 <= n < 2 ^ 32 /\ num_pages vb' = u32 (num_pages vb - n)).
Proof.
  intros Hnp. split; intros n vb' Hrun.
  - pose proof (fill_balloon_counts fuel num vb Hnp) as H.
    unfold wp in H. now rewrite Hrun in H.
  - pose proof (leak_balloon_counts fuel num vb Hnp) as H.
    unfold wp in H. now rewrite Hrun in H.
Qed.

(** X8.  With a transport that takes buffers: the chunk that brings the
    count to MAX_PAGE_CHUNKS makes [add_one_chunk] hand the full buffer
    over at once, as one buffer and by a sleeping wait, and the count is
    zero when it returns. *)
Theorem add_one_chunk_sends_the_full_buffer vq type base size vb :
  vq_broken vb = false ->
  Z.of_nat (length (chunks_of type vb)) = MAX_PAGE_CHUNKS - 1 ->
  exists vb',
    add_one_chunk vq type base size vb = Done tt vb' /\
    chunks_of type vb' = [] /\
    trace vb'
    = trace vb
      ++ [EvSend vq
            (chunk_buf type
               (set_chunks_of type
                  (chunks_of type vb ++ [wire_chunk base size]) vb))
            Sleeping].
Proof.
  intros Hbroken Hlen.
  rewrite add_one_chunk_flushes_at_cap by (try exact Hbroken; lia).
  cbv zeta.
  replace (Z.of_nat (length (chunks_of type vb ++ [wire_chunk base size]))
           =? MAX_PAGE_CHUNKS) with true.
  2:{ symmetry. apply Z.eqb_eq. rewrite length_app. simpl. lia. }
  eexists. split; [reflexivity|].
  split; [apply chunks_of_set_chunks_of|].
  now destruct type.
Qed.

(** ** Migration: the other paths *)

(** X9.  [virtballoon_migratepage] when the balloon lock is taken: it gives
    up with -EAGAIN and has done nothing. *)
Theorem virtballoon_migratepage_lock_held newpage page vb :
  balloon_lock vb = true ->
  virtballoon_migratepage newpage page vb = Done (- EAGAIN) vb.
Proof.
  intros Hlock. unfold virtballoon_migratepage.
  rewrite bind_get. cbv beta zeta.
  unfold mutex_trylock at 1. run_prim. now rewrite Hlock.
Qed.


(** Putting a page at the tail of a list and taking off the first
    occurrence of a page that was in the list keeps its length. *)
Lemma length_remove_first_app page newpage l :
  In page l ->
  length (remove_first page (l ++ [newpage])) = length l.
Proof.
  induction l as [|x l IH]; intros Hin; [destruct Hin|].
  simpl. destruct (Z.eqb_spec x page) as [->|Hne].
  - rewrite length_app. simpl. lia.
  - simpl. f_equal. apply IH. destruct Hin as [Heq|Hin]; [congruence|exact Hin].
Qed.

(** X10.  [virtballoon_migratepage] on the legacy path, with a transport
    that takes buffers and the lock free: the new page is put on the
    ledger and the old one taken off, the counter is not touched,
    [isolated_pages] is decremented as the unsigned long it is, the host
    gets the page-frame numbers of the new page on the inflate queue and
    then those of the old page on the deflate queue, each in a buffer of
    its own, and only then is the lock dropped and the old page released.
    When the old page was on the ledger, the ledger has as many pages as
    before, so the counter still matches it. *)
Theorem virtballoon_migratepage_legacy_swaps newpage page vb :
  0 < K <= VIRTIO_BALLOON_ARRAY_PFNS_MAX ->
  feat_chunks vb = false -> vq_broken vb = false ->
  balloon_lock vb = false ->
  Z.of_nat (length (pfns vb)) = VIRTIO_BALLOON_ARRAY_PFNS_MAX ->
  exists vb',
    virtballoon_migratepage newpage page vb = Done MIGRATEPAGE_SUCCESS vb' /\
    pages vb' = remove_first page (pages vb ++ [newpage]) /\
    num_pages vb' = num_pages vb /\
    isolated_pages vb' = u64 (isolated_pages vb - 1) /\
    balloon_lock vb' = false /\
    trace vb'
    = trace vb
      ++ [EvLock; EvGetPage newpage;
          EvSend inflate_vq (PfnArray (page_pfns newpage)) Sleeping;
          EvSend deflate_vq (PfnArray (page_pfns page)) Sleeping;
          EvUnlock; EvPutPage page] /\
    (In page (pages vb) -> length (pages vb') = length (pages vb)).
Proof.
  intros HK Hfeat Hbroken Hlock Hlen.
  assert (Htake : forall p l,
    Z.of_nat (length l) = VIRTIO_BALLOON_ARRAY_PFNS_MAX ->
    take (Z.to_nat K) (splice (Z.to_nat 0) (page_pfns p) l) = page_pfns p).
  { intros p l Hl.
    replace (Z.to_nat K) with (0 + length (page_pfns p))%nat
      by (rewrite length_page_pfns; lia).
    change (Z.to_nat 0) with 0%nat.
    rewrite take_splice by (rewrite length_page_pfns; lia). reflexivity. }
  eexists. split.
  { unfold virtballoon_migratepage.
    rewrite bind_get. cbv beta zeta. rewrite Hfeat.
    rewrite (bind_Done _ _ _ _ _ (mutex_trylock_free vb Hlock)).
    cbv beta. change (negb true) with false. cbv iota.
    unfold balloon_page_insert at 1. run_prim.
    match goal with |- context [bind (set_page_pfns 0 ?p) ?k ?s] =>
      rewrite (bind_Done (set_page_pfns 0 p) k s tt _
                 (set_page_pfns_spec 0 p s ltac:(lia)
                    ltac:(simpl; rewrite ?length_splice;
                          rewrite ?length_page_pfns; simpl; lia)
                    ltac:(lia) ltac:(lia)))
    end.
    match goal with |- context [bind (tell_host ?q) ?k ?s] =>
      rewrite (bind_Done (tell_host q) k s tt _
                 (tell_host_legacy q s ltac:(simpl; congruence)
                    ltac:(simpl; congruence)))
    end.
    unfold balloon_page_delete at 1. run_prim.
    match goal with |- context [bind (set_page_pfns 0 ?p) ?k ?s] =>
      rewrite (bind_Done (set_page_pfns 0 p) k s tt _
                 (set_page_pfns_spec 0 p s ltac:(lia)
                    ltac:(simpl; rewrite ?length_splice;
                          rewrite ?length_page_pfns; simpl; lia)
                    ltac:(lia) ltac:(lia)))
    end.
    match goal with |- context [bind (tell_host ?q) ?k ?s] =>
      rewrite (bind_Done (tell_host q) k s tt _
                 (tell_host_legacy q s ltac:(simpl; congruence)
                    ltac:(simpl; congruence)))
    end.
    unfold mutex_unlock at 1. run_prim. unfold ret. reflexivity. }
  simpl. rewrite !Htake; [|rewrite length_splice;
                            rewrite ?length_page_pfns; simpl; lia|exact Hlen].
  rewrite <- !app_assoc.
  split; [reflexivity|]. split; [reflexivity|]. split; [reflexivity|].
  split; [reflexivity|]. split; [reflexivity|].
  apply length_remove_first_app.
Qed.

(** ** Batches that move nothing *)

(** X11.  [leak_balloon] asked for nothing, or on an empty balloon: in
    both encoding modes it takes the lock, finds nothing to do, and drops
    the lock; no page leaves the ledger and the host is told nothing. *)
Theorem leak_balloon_nothing_to_take fuel num vb :
  balloon_lock vb = false ->
  0 <= num ->
  num = 0 \/ num_pages vb = 0 ->
  exists vb',
    leak_balloon fuel num vb = Done 0 vb' /\
    pages vb' = pages vb /\ num_pages vb' = num_pages vb /\
    balloon_lock vb' = false /\
    trace vb' = trace vb ++ [EvLock; EvUnlock].
Proof.
  intros Hlock Hnum Hnone.
  assert (Hzero : num <= 0 \/ num_pages vb <= 0) by lia.
  assert (Hloop : forall c n s, n <= 0 -> num_pfns s = 0 ->
            leak_loop fuel c n [] s = Done [] s).
  { intros c n s Hn Hs. destruct fuel; simpl; unfold bind, get;
      rewrite Hs; destruct (Z.ltb_spec 0 n); try lia; reflexivity. }
  destruct (feat_chunks vb) eqn:Hfeat.
  - eexists. split.
    { unfold leak_balloon. rewrite bind_get. cbv beta zeta. rewrite Hfeat.
      unfold init_page_bmap_range at 1, mutex_lock at 1. run_prim.
      change (balloon_lock (with_pfn_max 0 (with_pfn_min ULONG_MAX vb)))
        with (balloon_lock vb).
      rewrite Hlock. run_prim.
      match goal with |- context [bind (leak_loop fuel ?c ?n []) _ ?s] =>
        rewrite (bind_Done _ _ _ _ _
                   (Hloop c n s
                      ltac:(simpl; unfold VIRTIO_BALLOON_ARRAY_PFNS_MAX; lia)
                      eq_refl))
      end.
      run_prim. change (negb (0 =? 0)) with false. unfold when.
      run_prim. simpl release_pages_balloon. run_prim.
      unfold mutex_unlock at 1. run_prim. unfold ret. reflexivity. }
    simpl. rewrite <- !app_assoc. repeat split; reflexivity.
  - eexists. split.
    { unfold leak_balloon. rewrite bind_get. cbv beta zeta. rewrite Hfeat.
      unfold mutex_lock at 1. run_prim.
      rewrite Hlock. run_prim.
      match goal with |- context [bind (leak_loop fuel ?c ?n []) _ ?s] =>
        rewrite (bind_Done _ _ _ _ _
                   (Hloop c n s
                      ltac:(simpl; unfold VIRTIO_BALLOON_ARRAY_PFNS_MAX; lia)
                      eq_refl))
      end.
      run_prim. change (negb (0 =? 0)) with false. unfold when.
      run_prim. simpl release_pages_balloon. run_prim.
      unfold mutex_unlock at 1. run_prim. unfold ret. reflexivity. }
    simpl. rewrite <- !app_assoc. repeat split; reflexivity.
Qed.


(** X12.  [fill_balloon] when the allocator has no page at the first
    request: in both encoding modes it sleeps 200 ms once, inside the
    lock, and returns 0; the ledger is as before and the host is told
    nothing. *)
Theorem fill_balloon_out_of_puff fuel num vb :
  balloon_lock vb = false ->
  0 < num -> (1 <= fuel)%nat ->
  alloc_page (n_alloc vb) = None ->
  exists vb',
    fill_balloon fuel num vb = Done 0 vb' /\
    pages vb' = pages vb /\ num_pages vb' = num_pages vb /\
    balloon_lock vb' = false /\
    trace vb' = trace vb ++ [EvLock; EvMsleep 200; EvUnlock].
Proof.
  intros Hlock Hnum Hfuel Halloc.
  destruct fuel as [|k]; [lia|].
  assert (Hloop : forall c n s, 0 < n -> num_pfns s = 0 ->
            alloc_page (n_alloc s) = None ->
            fill_loop (S k) c n s
            = Done tt (with_trace (trace s ++ [EvMsleep 200])
                         (with_n_alloc (S (n_alloc s)) s))).
  { intros c n s Hn Hs Ha. simpl fill_loop. rewrite bind_get. cbv beta.
    rewrite Hs. destruct (Z.ltb_spec 0 n); [|lia].
    unfold balloon_page_enqueue at 1. run_prim. rewrite Ha. run_prim.
    reflexivity. }
  destruct (feat_chunks vb) eqn:Hfeat.
  - eexists. split.
    { unfold fill_balloon. rewrite bind_get. cbv beta zeta. rewrite Hfeat.
      unfold init_page_bmap_range at 1, mutex_lock at 1. run_prim.
      change (balloon_lock (with_pfn_max 0 (with_pfn_min ULONG_MAX vb)))
        with (balloon_lock vb).
      rewrite Hlock. run_prim.
      match goal with |- context [bind (fill_loop (S k) ?c ?n) _ ?s] =>
        rewrite (bind_Done _ _ _ _ _
                   (Hloop c n s ltac:(lia) eq_refl Halloc))
      end.
      run_prim. change (negb (0 =? 0)) with false. unfold when.
      run_prim. unfold mutex_unlock at 1. run_prim. unfold ret.
      reflexivity. }
    simpl. rewrite <- !app_assoc. repeat split; reflexivity.
  - eexists. split.
    { unfold fill_balloon. rewrite bind_get. cbv beta zeta. rewrite Hfeat.
      unfold mutex_lock at 1. run_prim.
      rewrite Hlock. run_prim.
      match goal with |- context [bind (fill_loop (S k) ?c ?n) _ ?s] =>
        rewrite (bind_Done _ _ _ _ _
                   (Hloop c n s
                      ltac:(unfold VIRTIO_BALLOON_ARRAY_PFNS_MAX; lia)
                      eq_refl Halloc))
      end.
      run_prim. change (negb (0 =? 0)) with false. unfold when.
      run_prim. unfold mutex_unlock at 1. run_prim. unfold ret.
      reflexivity. }
    simpl. rewrite <- !app_assoc. repeat split; reflexivity.
Qed.

(** ** The negotiation loop at rest *)

(** X13.  [update_balloon_size_func] when the balloon has the size the
    host asks for: it takes no lock and moves no page; it writes the size
    to the configuration space and does not queue itself again. *)
Theorem update_balloon_size_func_at_target fuel vb :
  u32 (config_num_pages vb) = num_pages vb ->
  update_balloon_size_func fuel vb
  = Done tt
      (with_trace (trace vb ++ [EvConfigActual (u32 (num_pages vb))])
         (with_config_actual (u32 (num_pages vb)) vb)).
Proof.
  intros Htarget. unfold update_balloon_size_func.
  unfold towards_target at 1. run_prim. rewrite Htarget, Z.sub_diag.
  change (0 <? 0) with false. cbv iota. run_prim.
  unfold update_balloon_size at 1. run_prim.
  reflexivity.
Qed.


(** ** A transport that refuses the buffer *)

(** X16.  [fill_balloon] on the legacy path when [virtqueue_add_outbuf]
    refuses the buffer: a call that has taken at least one page never
    returns.  It waits for the host to return a buffer that was never
    queued, with the balloon lock held and the pages already on the ledger
    and counted; only a call that got no page returns, with 0. *)
Theorem fill_balloon_legacy_broken_queue_blocks fuel num vb :
  0 < K -> (K | VIRTIO_BALLOON_ARRAY_PFNS_MAX) ->
  feat_chunks vb = false -> vq_broken vb = true ->
  balloon_lock vb = false ->
  Z.of_nat (length (pfns vb)) = VIRTIO_BALLOON_ARRAY_PFNS_MAX ->
  VIRTIO_BALLOON_ARRAY_PFNS_MAX <= Z.of_nat fuel ->
  match fill_balloon fuel num vb with
  | Done n vb' => n = 0 /\ pages vb' = pages vb
  | Stuck why vb' =>
      why = Blocked /\ balloon_lock vb' = true /\
      List.filter is_send (trace vb') = List.filter is_send (trace vb) /\
      exists got,
        got <> [] /\ pages vb' = pages vb ++ got /\
        num_pages vb' = u32 (num_pages vb + K * Z.of_nat (length got))
  end.
Proof.
  intros HK Hdiv Hfeat Hbroken Hlock Hlen Hfuel.
  unfold fill_balloon.
  rewrite bind_get. cbv beta zeta. rewrite Hfeat.
  unfold mutex_lock at 1. run_prim. rewrite Hlock. run_prim.
  match goal with |- context [bind (fill_loop fuel false ?n) _ ?s] =>
    destruct (fill_loop_legacy fuel n s HK Hdiv)
      as (got & exhausted & vb1 & Hrun & Hp & Hn & Hle & Hnum' & Hf & Hnp
          & Ht & Hs1 & Hs2 & Hs3)
  end.
  { lia. }
  { simpl. apply Z.divide_0_r. }
  { simpl. lia. }
  { simpl. exact Hlen. }
  { simpl. lia. }
  simpl in Hp, Hn, Hle, Hnum', Hf, Hnp, Ht, Hs1, Hs2, Hs3.
  rewrite (bind_Done _ _ _ _ _ Hrun). rewrite bind_get. cbv beta.
  destruct (Z.eqb_spec (num_pfns vb1) 0) as [Hz|Hnz];
    change (negb true) with false; change (negb false) with true;
    unfold when.
  - rewrite bind_ret. unfold mutex_unlock at 1. run_prim. unfold ret.
    split; [exact Hz|]. simpl. rewrite Hp.
    destruct got; [now rewrite app_nil_r|simpl in Hn; lia].
  - unfold bind at 1, tell_host, bind at 1, get at 1.
    rewrite Hs1, Hfeat, Hs2, Hbroken. simpl.
    split; [reflexivity|]. split; [congruence|].
    split.
    { rewrite Ht, !List.filter_app. simpl.
      destruct exhausted; simpl; now rewrite !app_nil_r. }
    exists got. split; [intros ->; simpl in Hn; lia|].
    split; [exact Hp|].
    destruct Hnp as [[-> _]|Hnp]; [simpl in Hn; lia|exact Hnp].
Qed.


(** ** An answer that fits the chunk buffer *)

Lemma with_unused_chunks_same vb :
  with_unused_chunks (unused_chunks vb) vb = vb.
Proof. now destruct vb. Qed.

Lemma with_unused_chunks_twice a b vb :
  with_unused_chunks a (with_unused_chunks b vb) = with_unused_chunks a vb.
Proof. now destruct vb. Qed.

(** [appends m chunks]: as long as the count stays below the cap, [m] only
    puts [chunks] behind the unused-page chunks of the buffer. *)
Definition appends (m : M unit) (chunks : list page_chunk) : Prop :=
  forall vb,
    Z.of_nat (length (unused_chunks vb)) + Z.of_nat (length chunks)
    < MAX_PAGE_CHUNKS ->
    m vb = Done tt (with_unused_chunks (unused_chunks vb ++ chunks) vb).

Lemma appends_ret : appends (ret tt) [].
Proof.
  intros vb _. now rewrite app_nil_r, with_unused_chunks_same.
Qed.

Lemma appends_bind m1 m2 c1 c2 :
  appends m1 c1 -> appends m2 c2 -> appends (m1 ;; m2) (c1 ++ c2).
Proof.
  intros H1 H2 vb Hlen. rewrite length_app in Hlen.
  rewrite (bind_Done _ _ _ _ _ (H1 vb ltac:(lia))).
  rewrite H2 by (simpl; rewrite length_app; lia).
  simpl. now rewrite with_unused_chunks_twice, app_assoc.
Qed.

Lemma appends_inquire_loop blocks order :
  (order <= 30)%nat ->
  appends (inquire_loop blocks miscq order) (map (block_chunk order) blocks).
Proof.
  intros Ho. induction blocks as [|pfn rest IH]; simpl.
  - apply appends_ret.
  - apply (appends_bind _ _ [block_chunk order pfn]); [|exact IH].
    intros vb Hlen. simpl in Hlen.
    rewrite add_one_chunk_below_cap by (simpl; lia).
    rewrite shift_one_order by exact Ho. reflexivity.
Qed.

Lemma appends_migratetype_loop todo zone order migratetype :
  (order <= 30)%nat ->
  appends (migratetype_loop todo miscq zone order migratetype)
    (flat_map (blocks_of_type zone order) (seq migratetype todo)).
Proof.
  intros Ho. revert migratetype.
  induction todo as [|k IH]; intros migratetype; simpl.
  - apply appends_ret.
  - apply appends_bind; [now apply appends_inquire_loop|apply IH].
Qed.

Lemma appends_order_loop order zone :
  (order <= 30)%nat ->
  appends (order_loop order miscq zone)
    (flat_map (blocks_of_order zone) (rev (seq 1 order))).
Proof.
  induction order as [|k IH]; intros Ho.
  - apply appends_ret.
  - change (order_loop (S k) miscq zone)
      with (migratetype_loop MIGRATE_TYPES miscq zone (S k) 0 ;;
            order_loop k miscq zone).
    rewrite seq_S, rev_app_distr. simpl flat_map.
    apply appends_bind; [now apply appends_migratetype_loop|apply IH; lia].
Qed.

Lemma appends_zone_loop zones :
  (MAX_ORDER <= 31)%nat ->
  appends (zone_loop zones miscq)
    (flat_map (fun zone => flat_map (blocks_of_order zone)
                             (rev (seq 1 (MAX_ORDER - 1)))) zones).
Proof.
  intros Hmax. induction zones as [|zone rest IH]; simpl.
  - apply appends_ret.
  - apply appends_bind; [apply appends_order_loop; lia|exact IH].
Qed.

(** X17.  [miscq_send_unused_pages] when the chunks already in the buffer
    and those of the answer stay below MAX_PAGE_CHUNKS together: what was
    in the buffer goes first, the answer follows, and the "complete" flag
    is set.  A transport that takes buffers gets all of it in one buffer,
    waited for busily, and the buffer is empty afterwards; with one that
    refuses, nothing is handed over and the chunks stay in the buffer. *)
Theorem miscq_send_unused_pages_below_the_cap vb :
  (MAX_ORDER <= 31)%nat ->
  Z.of_nat (length (unused_chunks vb)) + Z.of_nat (length reported_chunks)
  < MAX_PAGE_CHUNKS ->
  exists vb',
    miscq_send_unused_pages vb = Done tt vb' /\
    miscq_cmd vb' = VIRTIO_BALLOON_MISCQ_INQUIRE_UNUSED_PAGES /\
    miscq_flags vb' = Z.lor 0 VIRTIO_BALLOON_MISCQ_F_COMPLETE /\
    if vq_broken vb then
      trace vb' = trace vb /\
      unused_chunks vb' = unused_chunks vb ++ reported_chunks
    else
      trace vb' = trace vb ++ [final_flush (unused_chunks vb ++ reported_chunks)]
      /\ unused_chunks vb' = [].
Proof.
  intros Hmax Hlen.
  unfold miscq_send_unused_pages. run_prim.
  match goal with
  | |- context [bind (zone_loop populated_zones miscq) _ ?s] =>
      rewrite (bind_Done _ _ _ _ _
                 (appends_zone_loop populated_zones Hmax s Hlen))
  end.
  run_prim. unfold send_page_chunks. rewrite bind_get. cbv beta.
  change (vq_broken (with_miscq_flags _ _)) with (vq_broken vb).
  destruct (vq_broken vb); change (negb true) with false;
    change (negb false) with true; cbv iota.
  - eexists. split; [reflexivity|]. simpl. auto.
  - rewrite bind_emit. unfold modify. eexists. split; [reflexivity|].
    simpl. auto.
Qed.

(** ** What the encoder adds to the trace *)

(** An event that is a buffer handed to the queue [vq]. *)
Definition sends_on (vq : virtqueue) (e : event) : Prop :=
  match e with
  | EvSend q _ _ => q = vq
  | _ => False
  end.

(** [m] adds nothing to the trace but buffers handed to [vq], however it
    ends. *)
Definition only_sends {A} (vq : virtqueue) (m : M A) : Prop :=
  forall vb, exists tr,
    trace (state_of (m vb)) = trace vb ++ tr /\ Forall (sends_on vq) tr.

Lemma only_sends_ret {A} vq (a : A) : only_sends vq (ret a).
Proof. intros vb. exists []. simpl. now rewrite app_nil_r. Qed.

Lemma only_sends_get vq : only_sends vq get.
Proof. intros vb. exists []. simpl. now rewrite app_nil_r. Qed.

Lemma only_sends_stop {A} vq why : only_sends vq (@stop A why).
Proof. intros vb. exists []. simpl. now rewrite app_nil_r. Qed.

Lemma only_sends_modify vq f :
  (forall vb, trace (f vb) = trace vb) -> only_sends vq (modify f).
Proof. intros H vb. exists []. simpl. now rewrite H, app_nil_r. Qed.

Lemma only_sends_emit vq buf w : only_sends vq (emit (EvSend vq buf w)).
Proof.
  intros vb. exists [EvSend vq buf w]. split; [reflexivity|].
  constructor; [reflexivity|constructor].
Qed.

Lemma only_sends_bind {A B} vq (m : M A) (k : A -> M B) :
  only_sends vq m -> (forall a, only_sends vq (k a)) ->
  only_sends vq (bind m k).
Proof.
  intros Hm Hk vb. unfold bind. destruct (Hm vb) as (tr1 & Htr1 & Hs1).
  destruct (m vb) as [a vb1|why vb1]; simpl in *.
  - destruct (Hk a vb1) as (tr2 & Htr2 & Hs2).
    exists (tr1 ++ tr2). rewrite Htr2, Htr1, <- app_assoc.
    split; [reflexivity|]. apply Forall_app. now split.
  - now exists tr1.
Qed.

Lemma only_sends_when vq b m : only_sends vq m -> only_sends vq (when b m).
Proof. destruct b; simpl; auto using only_sends_ret. Qed.

Lemma trace_set_chunks_of type l vb :
  trace (set_chunks_of type l vb) = trace vb.
Proof. now destruct type. Qed.

(** One step through the structure of a piece of driver code. *)
Ltac sends_step :=
  lazymatch goal with
  | |- only_sends _ (bind _ _) => apply only_sends_bind; [|intros ?]
  | |- only_sends _ (ret _) => apply only_sends_ret
  | |- only_sends _ get => apply only_sends_get
  | |- only_sends _ (stop _) => apply only_sends_stop
  | |- only_sends _ (emit _) => apply only_sends_emit
  | |- only_sends _ (modify (set_chunks_of _ _)) =>
      apply only_sends_modify, trace_set_chunks_of
  | |- only_sends _ (modify _) =>
      apply only_sends_modify; intros ?; reflexivity
  | |- only_sends _ (when _ _) => apply only_sends_when
  | |- only_sends _ (if ?b then _ else _) => destruct b
  | |- only_sends _ (match ?x with _ => _ end) => destruct x
  end.

Lemma only_sends_read_page_bmap vq i : only_sends vq (read_page_bmap i).
Proof. unfold read_page_bmap. repeat sends_step. Qed.

Lemma only_sends_write_page_bmap vq i slot :
  only_sends vq (write_page_bmap i slot).
Proof. unfold write_page_bmap. repeat sends_step. Qed.

Lemma only_sends_kmalloc_bmap vq : only_sends vq kmalloc_bmap.
Proof. unfold kmalloc_bmap. repeat sends_step. Qed.

Lemma only_sends_extend_loop vq todo i : only_sends vq (extend_loop todo i).
Proof.
  revert i. induction todo as [|k IH]; intros i; simpl;
    repeat first [apply IH | apply only_sends_kmalloc_bmap
                 | apply only_sends_write_page_bmap | sends_step].
Qed.

Lemma only_sends_free_extended_loop vq todo i :
  only_sends vq (free_extended_loop todo i).
Proof.
  revert i. induction todo as [|k IH]; intros i; simpl;
    repeat first [apply IH | apply only_sends_write_page_bmap | sends_step].
Qed.

Lemma only_sends_free_extended_page_bmap vq :
  only_sends vq free_extended_page_bmap.
Proof.
  unfold free_extended_page_bmap. sends_step; [sends_step|].
  apply only_sends_free_extended_loop.
Qed.

Lemma only_sends_clear_loop vq todo i : only_sends vq (clear_loop todo i).
Proof.
  revert i. induction todo as [|k IH]; intros i; simpl;
    repeat first [apply IH | apply only_sends_read_page_bmap
                 | apply only_sends_write_page_bmap | sends_step].
Qed.

Lemma only_sends_clear_page_bmap vq : only_sends vq clear_page_bmap.
Proof.
  unfold clear_page_bmap. sends_step; [sends_step|].
  apply only_sends_clear_loop.
Qed.

Lemma only_sends_send_page_chunks vq type busy_wait :
  only_sends vq (send_page_chunks vq type busy_wait).
Proof. unfold send_page_chunks. repeat sends_step. Qed.

Lemma only_sends_add_one_chunk vq type base size :
  only_sends vq (add_one_chunk vq type base size).
Proof.
  unfold add_one_chunk.
  repeat first [apply only_sends_send_page_chunks | sends_step].
Qed.

Lemma only_sends_chunking_loop fuel vq pfn_start bmap pos end_ :
  only_sends vq (chunking_loop fuel vq pfn_start bmap pos end_).
Proof.
  revert pos. induction fuel as [|k IH]; intros pos; simpl;
    repeat first [apply IH | apply only_sends_add_one_chunk | sends_step].
Qed.

Lemma only_sends_tell_host_loop todo vq pfn_start page_bmaps pfns_len i :
  only_sends vq (tell_host_loop todo vq pfn_start page_bmaps pfns_len i).
Proof.
  revert i. induction todo as [|k IH]; intros i; simpl;
    repeat first [apply IH | apply only_sends_read_page_bmap
                 | apply only_sends_chunking_loop | sends_step].
Qed.

Lemma only_sends_tell_host vq : only_sends vq (tell_host vq).
Proof.
  unfold tell_host.
  repeat first [apply only_sends_tell_host_loop
               | apply only_sends_send_page_chunks | sends_step].
Qed.

Lemma only_sends_mark_pages vq l pfn_start pfn_stop found :
  only_sends vq (mark_pages l pfn_start pfn_stop found).
Proof.
  revert found. induction l as [|page rest IH]; intros found; simpl;
    repeat first [apply IH | apply only_sends_read_page_bmap
                 | apply only_sends_write_page_bmap | sends_step].
Qed.

Lemma only_sends_set_page_bmap_loop fuel l vq pfn_start :
  only_sends vq (set_page_bmap_loop fuel l vq pfn_start).
Proof.
  revert pfn_start. induction fuel as [|k IH]; intros pfn_start; simpl;
    repeat first [apply IH | apply only_sends_clear_page_bmap
                 | apply only_sends_mark_pages | apply only_sends_tell_host
                 | sends_step].
Qed.

Lemma only_sends_set_page_bmap fuel l vq :
  only_sends vq (set_page_bmap fuel l vq).
Proof.
  unfold set_page_bmap.
  repeat first [apply only_sends_free_extended_page_bmap
               | apply only_sends_extend_loop
               | apply only_sends_set_page_bmap_loop | sends_step].
Qed.

(** X21.  However they end, [tell_host] and [set_page_bmap] add nothing
    to the trace but buffers handed to the queue they were given: they
    take no lock and drop none, release no page, do not sleep and do not
    write to the configuration space. *)
Theorem encoder_only_sends fuel l vq vb :
  (exists tr,
     trace (state_of (tell_host vq vb)) = trace vb ++ tr /\
     Forall (sends_on vq) tr) /\
  (exists tr,
     trace (state_of (set_page_bmap fuel l vq vb)) = trace vb ++ tr /\
     Forall (sends_on vq) tr).
Proof.
  split; [apply only_sends_tell_host|apply only_sends_set_page_bmap].
Qed.

(** ** One page given back with the chunk feature *)

Lemma leak_loop_done fuel chunking num l vb :
  num <= num_pfns vb -> leak_loop fuel chunking num l vb = Done l vb.
Proof.
  intros H. destruct fuel; simpl; unfold bind, get;
    destruct (Z.ltb_spec (num_pfns vb) num); try lia; reflexivity.
Qed.

(** X20.  [leak_balloon] with the chunk feature, asked for one page, when
    the balloon page-frame number of the oldest page of the ledger is not
    a multiple of BITS_PER_LONG: that page leaves the ledger and is
    uncounted; under the lock, the deflate queue is handed exactly one
    chunk, of base that number and of size 1, and nothing else happens
    until the page is released, after which the lock is dropped.  Only
    the page given back is marked: the pages that stay on the ledger are
    in no chunk. *)
Theorem leak_balloon_unaligned_page_makes_one_chunk
    fuel num page others b0 rest vb :
  1 <= PAGE_SHIFT <= 19 -> 0 < K <= VIRTIO_BALLOON_ARRAY_PFNS_MAX ->
  feat_chunks vb = true -> vq_broken vb = false ->
  balloon_lock vb = false ->
  balloon_chunks vb = [] ->
  page_bmaps vb = 1 -> page_bmap vb = Some b0 :: rest ->
  Z.of_nat (length (pfns vb)) = VIRTIO_BALLOON_ARRAY_PFNS_MAX ->
  pages vb = page :: others ->
  page_to_balloon_pfn page mod BITS_PER_LONG <> 0 ->
  0 < num <= K -> 0 < num_pages vb -> (1 <= fuel)%nat ->
  exists tr vb',
    leak_balloon fuel num vb = Done K vb' /\
    pages vb' = others /\
    num_pages vb' = u32 (num_pages vb - K) /\
    balloon_chunks vb' = [] /\
    balloon_lock vb' = false /\
    trace vb' = trace vb ++ [EvLock] ++ tr ++ [EvPutPage page; EvUnlock] /\
    Forall (sends_on deflate_vq) tr /\
    balloon_chunks_sent tr = [wire_chunk (page_to_balloon_pfn page) 1].
Proof.
  intros HPS HK Hfeat Hbroken Hlock Hempty Hbmaps Hb Hlen Hpages
    Hunaligned Hnum Hnp Hfuel.
  assert (HK32 : 0 <= K < 2 ^ 32) by apply u32_range.
  assert (Hf : 0 <= page_to_balloon_pfn page < 2 ^ 32) by apply u32_range.
  set (f := page_to_balloon_pfn page) in *.
  unfold BITS_PER_LONG in *.
  pose proof (Z.div_mod f 64 ltac:(lia)) as Hdm.
  pose proof (Z.mod_pos_bound f 64 ltac:(lia)) as Hmb.
  pose proof (PFNS_PER_PAGE_BMAP_pow2 ltac:(lia)) as HP.
  assert (HP128 : 128 <= PFNS_PER_PAGE_BMAP).
  { rewrite HP. change 128 with (2 ^ 7). apply Z.pow_le_mono_r; lia. }
  assert (Hdown : rounddown f 64 = 64 * (f / 64)).
  { unfold rounddown, u64. rewrite Z.mod_small; lia. }
  destruct fuel as [|k]; [lia|].
  unfold leak_balloon.
  rewrite bind_get. cbv beta zeta. rewrite Hfeat.
  unfold init_page_bmap_range at 1, mutex_lock at 1. run_prim.
  change (balloon_lock (with_pfn_max 0 (with_pfn_min ULONG_MAX vb)))
    with (balloon_lock vb). rewrite Hlock.
  run_prim.
  match goal with |- context [leak_loop (S k) true ?n []] =>
    set (numm := n)
  end.
  assert (Hnumm : 0 < numm <= K).
  { subst numm. simpl. lia. }
  change (leak_loop (S k) true numm []) with
    (vb <- get ;;
     if num_pfns vb <? numm then
       page <- balloon_page_dequeue ;;
       match page with
       | None => ret []
       | Some page =>
           set_page_pfns (num_pfns vb) page ;;
           update_page_bmap_range page ;;
           modify (fun vb => with_num_pages (u32 (num_pages vb - K)) vb) ;;
           modify (fun vb => with_num_pfns (u32 (num_pfns vb + K)) vb) ;;
           leak_loop k true numm [page]
       end
     else ret []).
  run_prim.
  change (num_pfns (with_num_pfns 0 _)) with 0.
  destruct (Z.ltb_spec 0 numm) as [_|]; [|lia].
  unfold balloon_page_dequeue at 1. run_prim.
  match goal with |- context [match pages ?s with _ => _ end] =>
    change (pages s) with (pages vb)
  end.
  rewrite Hpages. run_prim.
  match goal with |- context [bind (set_page_pfns 0 page) ?k0 ?s] =>
    rewrite (bind_Done (set_page_pfns 0 page) k0 s tt _
               (set_page_pfns_spec 0 page s ltac:(lia)
                  ltac:(simpl; lia) ltac:(lia) ltac:(lia)))
  end.
  unfold update_page_bmap_range at 1. run_prim.
  fold f.
  match goal with |- context [bind (leak_loop k true numm [page]) _ ?s] =>
    set (s3 := s)
  end.
  assert (Hn3 : num_pfns s3 = K)
    by (subst s3; simpl; rewrite Z.add_0_l; apply u32_small; lia).
  assert (Hmin3 : pfn_min s3 = f)
    by (subst s3; simpl; unfold ULONG_MAX; lia).
  assert (Hmax3 : pfn_max s3 = f) by (subst s3; simpl; lia).
  assert (Hpages3 : pages s3 = others) by reflexivity.
  assert (Hnp3 : num_pages s3 = u32 (num_pages vb - K)) by reflexivity.
  assert (Htr3 : trace s3 = trace vb ++ [EvLock]) by reflexivity.
  rewrite (bind_Done _ _ _ _ _
             (leak_loop_done k true numm [page] s3 ltac:(lia))).
  run_prim.
  replace (num_pfns s3 =? 0) with false
    by (symmetry; apply Z.eqb_neq; lia).
  change (negb false) with true. unfold when.
  assert (Hlo3 : cover_lo s3 = 64 * (f / 64)).
  { unfold cover_lo, BITS_PER_LONG. now rewrite Hmin3. }
  assert (Hhi3 : cover_hi s3 = 64 * (f / 64) + 64).
  { unfold cover_hi, roundup, BITS_PER_LONG, u64. rewrite Hmax3.
    rewrite (Z.mod_small (f + (64 - 1))) by lia.
    replace ((f + (64 - 1)) / 64) with (f / 64 + 1)
      by (apply Z.div_unique with (r := f mod 64 - 1); lia).
    rewrite Z.mod_small; lia. }
  destruct (set_page_bmap_single_pass (S k) [page] deflate_vq b0 rest s3)
    as (runs & s4 & Hrun & Hnone & _ & Hsent & Hsep & Hiff);
    try assumption; try lia.
  assert (Hruns : runs = [(f - cover_lo s3, 1)]).
  { apply (runs_of_one_bit PFNS_PER_PAGE_BMAP); [exact Hsep|lia|].
    intros p Hp.
    rewrite <- (Z.add_simpl_l (cover_lo s3) p) at 1.
    rewrite (Hiff (cover_lo s3 + p)) by lia. split.
    - intros (pg & [<-|[]] & Hq & _). fold f in Hq. lia.
    - intros ->. exists page. split; [now left|]. fold f. lia. }
  pose proof (keeps_set_page_bmap (S k) [page] deflate_vq) as Hk.
  pose proof (Hk s3) as Hk3. unfold wp in Hk3. rewrite Hrun in Hk3.
  unfold ledger in Hk3. injection Hk3 as Hnp4 Hp4 Hn4.
  rewrite (bind_Done _ _ _ _ _ Hrun).
  simpl release_pages_balloon.
  unfold mutex_unlock at 1. run_prim. unfold ret.
  destruct (only_sends_set_page_bmap (S k) [page] deflate_vq s3)
    as (tr & Htr & Hsends).
  rewrite Hrun in Htr. simpl in Htr.
  rewrite Htr, balloon_chunks_sent_app in Hsent.
  apply app_inv_head in Hsent.
  exists tr. eexists. split; [rewrite Hn3; reflexivity|].
  simpl. rewrite Htr, ?Htr3, Hsent, Hruns.
  split; [now rewrite Hp4|]. split; [now rewrite Hnp4|].
  split; [exact Hnone|]. split; [reflexivity|].
  split; [now rewrite <- !app_assoc|].
  split; [exact Hsends|].
  unfold run_chunk. simpl.
  replace (cover_lo s3 + (f - cover_lo s3)) with f by lia.
  replace (u64 f) with f by (unfold u64; rewrite Z.mod_small; lia).
  reflexivity.
Qed.

End Driver.


(** * Concrete runs

    The kernel configurations used below: 4 KiB pages ([PAGE_SHIFT = 12],
    K = 1) and 64 KiB pages ([PAGE_SHIFT = 16], K = 16), both with
    [VIRTIO_BALLOON_PFN_SHIFT = 12] and chunk shifts of 12. *)

(** An allocator that always has a page: page-frame numbers 4096, 4097,
    and so on. *)
Definition never_exhausted (n : nat) : option Z := Some (Z.of_nat n + 4096).

Definition kmalloc_always (n : nat) : bool := true.

(** A balloon of 20 pages (page-frame numbers 100 to 119) and 320 units,
    for K = 16. *)
Definition balloon_of_20_pages (chunking : bool) : virtio_balloon :=
  with_num_pages 320
    (with_pages (map Z.of_nat (seq 100 20)) (probe_state chunking false 0)).

(** C1 at a state reached by one inflate of three pages, K = 16. *)
Lemma ledger_counter_is_K_times_pages_mod_2_32_witness :
  num_pages
    (state_of (fill_balloon 16 12 12 12 never_exhausted kmalloc_always 300 40
                 (probe_state false false 40)))
  = (VIRTIO_BALLOON_PAGES_PER_PAGE 16 12
     * Z.of_nat
         (length
            (pages
               (state_of
                  (fill_balloon 16 12 12 12 never_exhausted kmalloc_always
                     300 40 (probe_state false false 40))))))
    mod 2 ^ 32 /\
  (VIRTIO_BALLOON_PAGES_PER_PAGE 16 12
   * Z.of_nat
       (length
          (pages
             (state_of
                (fill_balloon 16 12 12 12 never_exhausted kmalloc_always
                   300 40 (probe_state false false 40)))))
   < 2 ^ 32 ->
   num_pages
     (state_of (fill_balloon 16 12 12 12 never_exhausted kmalloc_always 300 40
                  (probe_state false false 40)))
   = VIRTIO_BALLOON_PAGES_PER_PAGE 16 12
     * Z.of_nat
         (length
            (pages
               (state_of
                  (fill_balloon 16 12 12 12 never_exhausted kmalloc_always
                     300 40 (probe_state false false 40)))))).
Proof.
  apply (ledger_counter_is_K_times_pages_mod_2_32 16 12 12 12
           never_exhausted kmalloc_always).
  apply (reach_fill 16 12 12 12 never_exhausted kmalloc_always
           (probe_state false false 40) 300 40 48).
  - apply reach_probe.
  - vm_compute. reflexivity.
Defined.

(** C1 as first stated, where it fails.  With 64 KiB pages (K = 16) the
    legacy device that has been asked 2^24 times for one array worth of
    pages holds 2^28 pages, that is 2^32 balloon units: the 32-bit counter
    has wrapped to 0. *)
Lemma ledger_counter_wraps_at_2_28_pages :
  reachable 16 12 12 12 never_exhausted kmalloc_always
    (fill_arrays 16 12 12 12 never_exhausted kmalloc_always
       (Z.to_nat (2 ^ 24))) /\
  Z.of_nat
    (length
       (pages (fill_arrays 16 12 12 12 never_exhausted kmalloc_always
                 (Z.to_nat (2 ^ 24)))))
  = 2 ^ 28 /\
  num_pages (fill_arrays 16 12 12 12 never_exhausted kmalloc_always
               (Z.to_nat (2 ^ 24)))
  = 0 /\
  num_pages (fill_arrays 16 12 12 12 never_exhausted kmalloc_always
               (Z.to_nat (2 ^ 24)))
  <> VIRTIO_BALLOON_PAGES_PER_PAGE 16 12
     * Z.of_nat
         (length
            (pages (fill_arrays 16 12 12 12 never_exhausted kmalloc_always
                      (Z.to_nat (2 ^ 24))))).
Proof.
  assert (HK : VIRTIO_BALLOON_PAGES_PER_PAGE 16 12 = 16) by reflexivity.
  destruct (reachable_by_arrays 16 12 12 12 never_exhausted kmalloc_always
              (Z.to_nat (2 ^ 24)))
    as (Hreach & _ & _ & _ & _ & Hpages).
  { rewrite HK. lia. }
  { rewrite HK. exists 16. reflexivity. }
  { intros n. discriminate. }
  rewrite HK in Hpages. unfold VIRTIO_BALLOON_ARRAY_PFNS_MAX in Hpages.
  rewrite Z2Nat.id in Hpages by lia.
  pose proof (reachable_counter_wraps 16 12 12 12 never_exhausted
                kmalloc_always _ 1 Hreach) as Hzero.
  rewrite HK in Hzero.
  split; [exact Hreach|]. split; [lia|].
  split; [apply Hzero; lia|].
  rewrite Hzero by lia. rewrite HK. lia.
Qed.

(** C10 with the chunk feature: asked for 1000 units of a balloon of 320,
    one call takes 256. *)
Lemma leak_balloon_at_most_one_array_witness :
  match
    leak_balloon 16 12 12 12 kmalloc_always 300 1000 (balloon_of_20_pages true)
  with
  | Done n vb' =>
      n = units_removed 16 12 (balloon_of_20_pages true) vb' /\
      0 <= n <= VIRTIO_BALLOON_ARRAY_PFNS_MAX
  | Stuck _ vb' =>
      0 <= units_removed 16 12 (balloon_of_20_pages true) vb'
      <= VIRTIO_BALLOON_ARRAY_PFNS_MAX
  end.
Proof.
  apply (leak_balloon_at_most_one_array 16 12 12 12 kmalloc_always 300 1000
           (balloon_of_20_pages true)).
  - vm_compute. reflexivity.
  - exists 16. vm_compute. reflexivity.
Defined.

(** C9 on the legacy path: a deflate of 40 units, K = 16. *)
Lemma leak_balloon_pfns_are_dequeued_pages_witness :
  exists deq n vb',
    leak_balloon 16 12 12 12 kmalloc_always 300 40 (balloon_of_20_pages false)
    = Done n vb' /\
    pages (balloon_of_20_pages false) = deq ++ pages vb' /\
    n = VIRTIO_BALLOON_PAGES_PER_PAGE 16 12 * Z.of_nat (length deq) /\
    take (Z.to_nat n) (pfns vb') = flat_map (page_pfns 16 12) deq /\
    trace vb'
    = trace (balloon_of_20_pages false) ++ [EvLock]
      ++ (if n =? 0 then []
          else [EvSend deflate_vq (PfnArray (flat_map (page_pfns 16 12) deq))
                  Sleeping])
      ++ map EvPutPage (rev deq) ++ [EvUnlock] /\
    leak_balloon_fill_once 16 12 12 12 kmalloc_always 300 40
      (balloon_of_20_pages false)
    = Done n vb'.
Proof.
  apply (leak_balloon_pfns_are_dequeued_pages 16 12 12 12 kmalloc_always 300
           40 (balloon_of_20_pages false)).
  - vm_compute. reflexivity.
  - exists 16. vm_compute. reflexivity.
  - reflexivity.
  - reflexivity.
  - reflexivity.
  - vm_compute. reflexivity.
  - vm_compute. discriminate.
Defined.

(** C6 as stated fails: [fill_balloon] asked for 1024 units on the legacy
    path, K = 16, allocator never exhausted, returns 256; the balloon then
    holds 256 units in 16 pages, not 1024, and one buffer went to the
    host. *)
Lemma fill_balloon_1024_reaches_256_only :
  exists vb',
    fill_balloon 16 12 12 12 never_exhausted kmalloc_always 2000 1024
      (probe_state false false 1024)
    = Done 256 vb' /\
    num_pages vb' = 256 /\
    (num_pages vb' =? 1024) = false /\
    length (pages vb') = 16%nat /\
    length (List.filter is_send (trace vb')) = 1%nat.
Proof.
  eexists. split; [vm_compute; reflexivity|].
  vm_compute. repeat split; reflexivity.
Defined.

Lemma fill_balloon_1024_adds_one_array_witness :
  exists got vb',
    fill_balloon 16 12 12 12 never_exhausted kmalloc_always 2000 1024
      (probe_state false false 1024)
    = Done VIRTIO_BALLOON_ARRAY_PFNS_MAX vb' /\
    pages vb' = pages (probe_state false false 1024) ++ got /\
    VIRTIO_BALLOON_PAGES_PER_PAGE 16 12 * Z.of_nat (length got)
    = VIRTIO_BALLOON_ARRAY_PFNS_MAX /\
    num_pages vb'
    = u32 (num_pages (probe_state false false 1024)
           + VIRTIO_BALLOON_ARRAY_PFNS_MAX) /\
    trace vb'
    = trace (probe_state false false 1024)
      ++ [EvLock;
          EvSend inflate_vq (PfnArray (flat_map (page_pfns 16 12) got))
            Sleeping;
          EvUnlock].
Proof.
  apply (fill_balloon_1024_adds_one_array 16 12 12 12 never_exhausted
           kmalloc_always 2000 (probe_state false false 1024)).
  - vm_compute. reflexivity.
  - exists 16. vm_compute. reflexivity.
  - reflexivity.
  - reflexivity.
  - reflexivity.
  - vm_compute. reflexivity.
  - vm_compute. discriminate.
  - intros i _. eexists. reflexivity.
Defined.

(** X22 for the target 500 on an empty balloon, K = 16. *)
Lemma update_balloon_size_func_legacy_step_witness :
  exists vb',
    update_balloon_size_func 16 12 12 12 never_exhausted kmalloc_always 300
      (probe_state false false 500)
    = Done tt vb' /\
    config_actual vb' = num_pages vb' /\
    exists pre,
      trace vb'
      = pre ++ step_end (u32 (config_num_pages (probe_state false false 500)))
                 vb'.
Proof.
  apply (update_balloon_size_func_legacy_step 16 12 12 12
           never_exhausted kmalloc_always 300 (probe_state false false 500)).
  - vm_compute. split; [discriminate|reflexivity].
  - vm_compute. reflexivity.
  - exists 16. vm_compute. reflexivity.
  - reflexivity.
  - reflexivity.
  - reflexivity.
  - vm_compute. reflexivity.
  - vm_compute. discriminate.
Defined.

(** A chunk buffer one short of the cap, on a broken queue. *)
Definition almost_full_broken : virtio_balloon :=
  with_balloon_chunks (replicate 4095 (mk_chunk 0 4096))
    (probe_state true true 0).

(** C4 at that state. *)
Lemma add_one_chunk_broken_queue_overruns_witness :
  exists vb',
    add_one_chunk 12 12 inflate_vq PAGE_CHUNK_TYPE_BALLOON 7 1
      almost_full_broken
    = Done tt vb' /\
    Z.of_nat (length (chunks_of PAGE_CHUNK_TYPE_BALLOON vb')) = MAX_PAGE_CHUNKS /\
    trace vb' = trace almost_full_broken /\
    add_one_chunk 12 12 inflate_vq PAGE_CHUNK_TYPE_BALLOON 9 1 vb'
    = Stuck Fault vb'.
Proof.
  apply (add_one_chunk_broken_queue_overruns 12 12 inflate_vq
           PAGE_CHUNK_TYPE_BALLOON 7 1 9 1 almost_full_broken).
  - reflexivity.
  - vm_compute. reflexivity.
Defined.

(** A machine with one populated zone whose only free block is a single
    page (order 0) at page-frame number 7. *)
Definition one_free_page (zone order migratetype : nat) : list Z :=
  match order, migratetype with
  | O, O => [7]
  | _, _ => []
  end.

(** C8 as stated fails: the free page of order 0 gets no chunk.  The
    answer carries no chunk at all, only the "complete" flag, while the
    free lists hold one block. *)
Lemma order_0_block_is_not_reported :
  unused_chunks_sent
    (trace (state_of (miscq_send_unused_pages 12 12 0 1 11 6 [0%nat]
                        one_free_page (probe_state false false 0))))
  = [] /\
  all_free_chunks 12 12 11 6 [0%nat] one_free_page = [block_chunk 12 12 0 7] /\
  trace (state_of (miscq_send_unused_pages 12 12 0 1 11 6 [0%nat]
                     one_free_page (probe_state false false 0)))
  = [EvSend miscq (UnusedChunks 0 1 []) BusyWait].
Proof. vm_compute. repeat split; reflexivity. Defined.

(** Free blocks of order 3 and of order 1, in two migratetypes. *)
Definition some_free_blocks (zone order migratetype : nat) : list Z :=
  match order, migratetype with
  | 3%nat, 0%nat => [8; 64]
  | 1%nat, 2%nat => [2]
  | 0%nat, 0%nat => [7]
  | _, _ => []
  end.

Lemma miscq_send_unused_pages_reports_orders_above_0_witness :
  exists batches rest vb',
    miscq_send_unused_pages 12 12 0 1 11 6 [0%nat] some_free_blocks
      (probe_state false false 0)
    = Done tt vb' /\
    concat batches ++ rest
    = reported_chunks 12 12 11 6 [0%nat] some_free_blocks /\
    Forall (fun b => Z.of_nat (length b) = MAX_PAGE_CHUNKS) batches /\
    Z.of_nat (length rest) < MAX_PAGE_CHUNKS /\
    trace vb'
    = trace (probe_state false false 0)
      ++ map (mid_flush 0) batches ++ [final_flush 0 1 rest] /\
    unused_chunks vb' = [].
Proof.
  apply (miscq_send_unused_pages_reports_orders_above_0 12 12 0 1 11 6
           [0%nat] some_free_blocks (probe_state false false 0)).
  - vm_compute. lia.
  - reflexivity.
  - reflexivity.
Defined.

(** C3 with the chunk feature: page 5 migrates to page 9. *)
Lemma virtballoon_migratepage_chunks_stay_in_buffer_witness :
  exists vb',
    virtballoon_migratepage 12 12 12 12 9 5 (probe_state true false 0)
    = Done MIGRATEPAGE_SUCCESS vb' /\
    trace vb'
    = trace (probe_state true false 0)
      ++ [EvLock; EvGetPage 9; EvUnlock; EvPutPage 5] /\
    balloon_chunks vb'
    = balloon_chunks (probe_state true false 0)
      ++ [wire_chunk 12 12 9 1; wire_chunk 12 12 5 1].
Proof.
  apply (virtballoon_migratepage_chunks_stay_in_buffer 12 12 12 12 9 5
           (probe_state true false 0)).
  - reflexivity.
  - reflexivity.
  - vm_compute. reflexivity.
Defined.

(** C7 at the page with page-frame number 64, K = 1. *)
Lemma fill_balloon_aligned_page_makes_no_chunk_witness :
  exists vb',
    fill_balloon 12 12 12 12 (fun _ => Some 64) kmalloc_always 8 1
      (probe_state true false 1)
    = Done (VIRTIO_BALLOON_PAGES_PER_PAGE 12 12) vb' /\
    pages vb' = pages (probe_state true false 1) ++ [64] /\
    num_pages vb'
    = u32 (num_pages (probe_state true false 1)
           + VIRTIO_BALLOON_PAGES_PER_PAGE 12 12) /\
    balloon_chunks vb' = balloon_chunks (probe_state true false 1) /\
    trace vb' = trace (probe_state true false 1) ++ [EvLock; EvUnlock].
Proof.
  apply (fill_balloon_aligned_page_makes_no_chunk 12 12 12 12
           (fun _ => Some 64) kmalloc_always 8 1 64
           (probe_state true false 1)).
  - lia.
  - vm_compute. reflexivity.
  - reflexivity.
  - reflexivity.
  - reflexivity.
  - reflexivity.
  - vm_compute. reflexivity.
  - vm_compute. split; [reflexivity|discriminate].
  - lia.
Defined.

(** The same batch one page-frame number further: one chunk, of one page,
    in one buffer. *)
Example fill_balloon_page_65_makes_one_chunk :
  exists vb',
    fill_balloon 12 12 12 12 (fun _ => Some 65) kmalloc_always 8 1
      (probe_state true false 1)
    = Done 1 vb' /\
    trace vb'
    = [EvLock;
       EvSend inflate_vq (BalloonChunks [wire_chunk 12 12 65 1]) Sleeping;
       EvUnlock].
Proof. eexists. split; vm_compute; reflexivity. Qed.

(** The allocator of the multi-pass batch: page-frame numbers 1 and
    8388678, which lie more than 32 bitmap buffers apart. *)
Definition two_far_pages (n : nat) : option Z :=
  Some (match n with O => 1 | S _ => 8388678 end).

(** C2, where it fails.  A batch of the two pages 1 and 8388678 (K = 1)
    needs a second pass over the bitmaps.  The first pass covers one
    page-frame number more than the 32 buffers hold, so [tell_host] reads
    [page_bmap[32]], outside the array: the call does not return, nothing
    has been handed to the host, and page 8388678, which is on the ledger,
    has no chunk. *)
Theorem fill_balloon_two_passes_faults :
  exists vb',
    fill_balloon 12 12 12 12 two_far_pages kmalloc_always 8 2
      (probe_state true false 2)
    = Stuck Fault vb' /\
    pages vb' = [1; 8388678] /\
    page_bmaps vb' = PAGE_BMAP_COUNT_MAX /\
    pfn_start vb' = 0 /\
    pfn_stop vb' = 32 * PFNS_PER_PAGE_BMAP 12 /\
    balloon_chunks vb' = [wire_chunk 12 12 1 1] /\
    trace vb' = [EvLock].
Proof.
  eexists. split; [vm_compute; reflexivity|].
  vm_compute. repeat split; reflexivity.
Qed.

(** C5, where it fails.  The step of the negotiation that is to take these
    two pages (target 2, K = 1, chunk feature) stops in that same read of
    [page_bmap[32]]: the two pages are counted, but [update_balloon_size]
    is not reached, so the configuration space still says 0, the work is
    not queued again, and the lock is still held. *)
Theorem update_balloon_size_func_faults_before_publishing :
  exists vb',
    update_balloon_size_func 12 12 12 12 two_far_pages kmalloc_always 8
      (probe_state true false 2)
    = Stuck Fault vb' /\
    num_pages vb' = 2 /\
    config_actual vb' = 0 /\
    balloon_lock vb' = true /\
    trace vb' = [EvLock].
Proof.
  eexists. split; [vm_compute; reflexivity|].
  vm_compute. repeat split; reflexivity.
Qed.


(** * Concrete runs of the other properties *)

(** X1 on the byte 0110 1101 of a window that starts at page-frame number
    4096. *)
Lemma chunking_pages_from_bmap_makes_the_runs_witness :
  exists runs vb',
    chunking_pages_from_bmap 12 12 inflate_vq 4096 (Some 109) 1
      (probe_state true false 0)
    = Done tt vb' /\
    balloon_chunks_told vb'
    = balloon_chunks_told (probe_state true false 0)
      ++ map (run_chunk 12 12 4096) runs /\
    separated 0 (u64 (1 * BITS_PER_BYTE)) runs /\
    (forall p, 0 <= p < u64 (1 * BITS_PER_BYTE) ->
               Z.testbit 109 p = true <-> Exists (in_run p) runs).
Proof.
  apply (chunking_pages_from_bmap_makes_the_runs 12 12 inflate_vq 4096 109 1
           (probe_state true false 0)).
  - reflexivity.
  - vm_compute. reflexivity.
Defined.

(** One bitmap buffer, and a cover of exactly its 262144 page-frame
    numbers. *)
Definition one_full_window : virtio_balloon :=
  with_pfn_stop 262144 (probe_state true false 0).

(** X2 at that state. *)
Lemma tell_host_full_cover_faults_witness :
  exists vb', tell_host 12 12 12 inflate_vq one_full_window = Stuck Fault vb'.
Proof.
  apply (tell_host_full_cover_faults 12 12 12 inflate_vq one_full_window).
  - lia.
  - reflexivity.
  - reflexivity.
  - vm_compute. reflexivity.
  - vm_compute. split; discriminate.
  - vm_compute. reflexivity.
  - intros j Hj. exists 0.
    change (page_bmaps one_full_window) with 1 in Hj.
    replace j with 0 by lia. reflexivity.
  - intros _. reflexivity.
Defined.

(** X3 for a range of ten million page-frame numbers, every [kmalloc]
    succeeding. *)
Lemma extend_then_free_restores_bitmaps_witness :
  exists c,
    (n_kmalloc (probe_state true false 0) <= c
     <= n_kmalloc (probe_state true false 0) + 31)%nat /\
    (extend_page_bmap_size 12 kmalloc_always 10000000 ;;
     free_extended_page_bmap) (probe_state true false 0)
    = Done tt (with_n_kmalloc c (probe_state true false 0)).
Proof.
  apply (extend_then_free_restores_bitmaps 12 kmalloc_always 10000000
           (probe_state true false 0)).
  - reflexivity.
  - reflexivity.
  - intros k Hk.
    do 32 (destruct k as [|k]; [first [lia|reflexivity]|]). lia.
Defined.

(** A batch of the pages 65, 66 and 70 (K = 1) after the allocation loop. *)
Definition batch_65_66_70 : virtio_balloon :=
  with_pfn_max 70 (with_pfn_min 65 (probe_state true false 3)).

(** X14 on that batch. *)
Lemma set_page_bmap_one_window_witness :
  exists runs vb',
    set_page_bmap 12 12 12 12 kmalloc_always 1 [65; 66; 70] inflate_vq
      batch_65_66_70
    = Done tt vb' /\
    balloon_chunks vb' = [] /\
    balloon_chunks_sent (trace vb')
    = balloon_chunks_sent (trace batch_65_66_70)
      ++ map (run_chunk 12 12 (cover_lo batch_65_66_70)) runs /\
    (forall page,
       In page [65; 66; 70] ->
       cover_lo batch_65_66_70 <= page_to_balloon_pfn 12 12 page
       <= cover_hi batch_65_66_70 ->
       exists! r,
         In r runs /\
         in_run (page_to_balloon_pfn 12 12 page - cover_lo batch_65_66_70) r)
    /\
    (forall r p,
       In r runs -> in_run p r ->
       exists page,
         In page [65; 66; 70] /\
         page_to_balloon_pfn 12 12 page = cover_lo batch_65_66_70 + p).
Proof.
  apply (set_page_bmap_one_window 12 12 12 12 kmalloc_always 1 [65; 66; 70]
           inflate_vq 0 (replicate 31 None) batch_65_66_70).
  - lia.
  - reflexivity.
  - reflexivity.
  - reflexivity.
  - reflexivity.
  - reflexivity.
  - vm_compute. split; [discriminate|reflexivity].
  - vm_compute. split; [discriminate|reflexivity].
  - vm_compute. reflexivity.
  - vm_compute. reflexivity.
  - lia.
Defined.

(** X15 for the page 65 (K = 1). *)
Lemma fill_balloon_unaligned_page_makes_one_chunk_witness :
  exists vb',
    fill_balloon 12 12 12 12 (fun _ => Some 65) kmalloc_always 8 1
      (probe_state true false 1)
    = Done (VIRTIO_BALLOON_PAGES_PER_PAGE 12 12) vb' /\
    pages vb' = [65] /\
    num_pages vb'
    = u32 (num_pages (probe_state true false 1)
           + VIRTIO_BALLOON_PAGES_PER_PAGE 12 12) /\
    balloon_chunks vb' = [] /\
    balloon_chunks_sent (trace vb')
    = balloon_chunks_sent (trace (probe_state true false 1))
      ++ [wire_chunk 12 12 (page_to_balloon_pfn 12 12 65) 1].
Proof.
  apply (fill_balloon_unaligned_page_makes_one_chunk 12 12 12 12
           (fun _ => Some 65) kmalloc_always 8 1 65 0 (replicate 31 None)
           (probe_state true false 1)).
  - lia.
  - vm_compute. reflexivity.
  - reflexivity.
  - reflexivity.
  - reflexivity.
  - reflexivity.
  - reflexivity.
  - reflexivity.
  - reflexivity.
  - reflexivity.
  - vm_compute. discriminate.
  - vm_compute. split; [reflexivity|discriminate].
  - lia.
Defined.

(** X4 on a balloon of 20 pages, K = 16. *)
Lemma remove_common_empties_the_balloon_witness :
  exists tr vb',
    remove_common 16 12 12 12 kmalloc_always 300 (balloon_of_20_pages false)
    = Done [config_reset; config_del_vqs] vb' /\
    pages vb' = [] /\ num_pages vb' = 0 /\ config_actual vb' = 0 /\
    balloon_lock vb' = false /\
    trace vb' = tr ++ [EvConfigActual 0] /\
    put_pages tr
    ≡ₚ put_pages (trace (balloon_of_20_pages false))
       ++ pages (balloon_of_20_pages false).
Proof.
  apply (remove_common_empties_the_balloon 16 12 12 12 kmalloc_always 300
           (balloon_of_20_pages false)).
  - vm_compute. reflexivity.
  - exists 16. vm_compute. reflexivity.
  - reflexivity.
  - reflexivity.
  - reflexivity.
  - vm_compute. reflexivity.
  - vm_compute. reflexivity.
  - vm_compute. reflexivity.
  - vm_compute. discriminate.
  - simpl. lia.
Defined.

(** X5 on the same balloon, with the default of 256 for [oom_pages]. *)
Lemma virtballoon_oom_notify_reports_one_batch_witness :
  virtballoon_oom_notify 16 12 12 12 kmalloc_always 1 300 false 256 0
    (balloon_of_20_pages false)
  = Done (1, 0) (balloon_of_20_pages false) /\
  forall r vb',
    virtballoon_oom_notify 16 12 12 12 kmalloc_always 1 300 true 256 0
      (balloon_of_20_pages false)
    = Done r vb' ->
    exists n tr,
      r = (1, u64 (0 + n)) /\
      0 <= n <= VIRTIO_BALLOON_ARRAY_PFNS_MAX /\
      VIRTIO_BALLOON_PAGES_PER_PAGE 16 12
      * Z.of_nat (length (pages (balloon_of_20_pages false)))
      = VIRTIO_BALLOON_PAGES_PER_PAGE 16 12 * Z.of_nat (length (pages vb'))
        + n /\
      num_pages vb' = u32 (num_pages (balloon_of_20_pages false) - n) /\
      config_actual vb' = num_pages vb' /\
      trace vb' = tr ++ [EvConfigActual (num_pages vb')].
Proof.
  apply (virtballoon_oom_notify_reports_one_batch 16 12 12 12 kmalloc_always
           1 300 256 0 (balloon_of_20_pages false)).
  - vm_compute. reflexivity.
  - exists 16. vm_compute. reflexivity.
  - vm_compute. split; [discriminate|reflexivity].
Defined.

(** X6 for the first group of the array, K = 16. *)
Lemma set_page_pfns_writes_one_group_witness :
  exists vb',
    set_page_pfns 16 12 0 7 (probe_state false false 0) = Done tt vb' /\
    vb' = with_pfns (pfns vb') (probe_state false false 0) /\
    length (pfns vb') = length (pfns (probe_state false false 0)) /\
    (forall i : nat, Z.of_nat i < VIRTIO_BALLOON_PAGES_PER_PAGE 16 12 ->
       pfns vb' !! (Z.to_nat 0 + i)%nat
       = Some (u32 (page_to_balloon_pfn 16 12 7 + Z.of_nat i))) /\
    (forall j : nat,
       (j < Z.to_nat 0
        \/ Z.to_nat (0 + VIRTIO_BALLOON_PAGES_PER_PAGE 16 12) <= j)%nat ->
       pfns vb' !! j = pfns (probe_state false false 0) !! j).
Proof.
  apply (set_page_pfns_writes_one_group 16 12 0 7 (probe_state false false 0)).
  - vm_compute. reflexivity.
  - lia.
  - vm_compute. discriminate.
  - vm_compute. discriminate.
Defined.

(** X7 for a request of 40 units, K = 16. *)
Lemma fill_and_leak_return_the_change_witness :
  (forall n vb',
     fill_balloon 16 12 12 12 never_exhausted kmalloc_always 300 40
       (balloon_of_20_pages false)
     = Done n vb' ->
     0 <= n < 2 ^ 32 /\
     num_pages vb' = u32 (num_pages (balloon_of_20_pages false) + n)) /\
  (forall n vb',
     leak_balloon 16 12 12 12 kmalloc_always 300 40
       (balloon_of_20_pages false)
     = Done n vb' ->
     0 <= n < 2 ^ 32 /\
     num_pages vb' = u32 (num_pages (balloon_of_20_pages false) - n)).
Proof.
  apply (fill_and_leak_return_the_change 16 12 12 12 never_exhausted
           kmalloc_always 300 40 (balloon_of_20_pages false)).
  vm_compute. split; [discriminate|reflexivity].
Defined.

(** A chunk buffer one short of the cap, on a queue that works. *)
Definition almost_full : virtio_balloon :=
  with_balloon_chunks (replicate 4095 (mk_chunk 0 4096))
    (probe_state true false 0).

(** X8 at that state. *)
Lemma add_one_chunk_sends_the_full_buffer_witness :
  exists vb',
    add_one_chunk 12 12 inflate_vq PAGE_CHUNK_TYPE_BALLOON 7 1 almost_full
    = Done tt vb' /\
    chunks_of PAGE_CHUNK_TYPE_BALLOON vb' = [] /\
    trace vb'
    = trace almost_full
      ++ [EvSend inflate_vq
            (chunk_buf PAGE_CHUNK_TYPE_BALLOON
               (set_chunks_of PAGE_CHUNK_TYPE_BALLOON
                  (chunks_of PAGE_CHUNK_TYPE_BALLOON almost_full
                   ++ [wire_chunk 12 12 7 1]) almost_full))
            Sleeping].
Proof.
  apply (add_one_chunk_sends_the_full_buffer 12 12 inflate_vq
           PAGE_CHUNK_TYPE_BALLOON 7 1 almost_full).
  - reflexivity.
  - vm_compute. reflexivity.
Defined.

(** X9 with the lock taken by a batch. *)
Lemma virtballoon_migratepage_lock_held_witness :
  virtballoon_migratepage 16 12 12 12 9 105
    (with_balloon_lock true (balloon_of_20_pages false))
  = Done (- EAGAIN) (with_balloon_lock true (balloon_of_20_pages false)).
Proof.
  apply (virtballoon_migratepage_lock_held 16 12 12 12 9 105
           (with_balloon_lock true (balloon_of_20_pages false))).
  reflexivity.
Defined.

(** X10: page 105 of the balloon of 20 pages moves to page 9, K = 16. *)
Lemma virtballoon_migratepage_legacy_swaps_witness :
  exists vb',
    virtballoon_migratepage 16 12 12 12 9 105 (balloon_of_20_pages false)
    = Done MIGRATEPAGE_SUCCESS vb' /\
    pages vb'
    = remove_first 105 (pages (balloon_of_20_pages false) ++ [9]) /\
    num_pages vb' = num_pages (balloon_of_20_pages false) /\
    isolated_pages vb' = u64 (isolated_pages (balloon_of_20_pages false) - 1) /\
    balloon_lock vb' = false /\
    trace vb'
    = trace (balloon_of_20_pages false)
      ++ [EvLock; EvGetPage 9;
          EvSend inflate_vq (PfnArray (page_pfns 16 12 9)) Sleeping;
          EvSend deflate_vq (PfnArray (page_pfns 16 12 105)) Sleeping;
          EvUnlock; EvPutPage 105] /\
    (In 105 (pages (balloon_of_20_pages false)) ->
     length (pages vb') = length (pages (balloon_of_20_pages false))).
Proof.
  apply (virtballoon_migratepage_legacy_swaps 16 12 12 12 9 105
           (balloon_of_20_pages false)).
  - vm_compute. split; [reflexivity|discriminate].
  - reflexivity.
  - reflexivity.
  - reflexivity.
  - vm_compute. reflexivity.
Defined.

(** X11 on an empty balloon, with the chunk feature. *)
Lemma leak_balloon_nothing_to_take_witness :
  exists vb',
    leak_balloon 12 12 12 12 kmalloc_always 0 5 (probe_state true false 0)
    = Done 0 vb' /\
    pages vb' = pages (probe_state true false 0) /\
    num_pages vb' = num_pages (probe_state true false 0) /\
    balloon_lock vb' = false /\
    trace vb' = trace (probe_state true false 0) ++ [EvLock; EvUnlock].
Proof.
  apply (leak_balloon_nothing_to_take 12 12 12 12 kmalloc_always 0 5
           (probe_state true false 0)).
  - reflexivity.
  - lia.
  - right. reflexivity.
Defined.

(** An allocator with no page left. *)
Definition out_of_pages (n : nat) : option Z := None.

(** X12 with that allocator. *)
Lemma fill_balloon_out_of_puff_witness :
  exists vb',
    fill_balloon 16 12 12 12 out_of_pages kmalloc_always 1 10
      (probe_state false false 10)
    = Done 0 vb' /\
    pages vb' = pages (probe_state false false 10) /\
    num_pages vb' = num_pages (probe_state false false 10) /\
    balloon_lock vb' = false /\
    trace vb'
    = trace (probe_state false false 10) ++ [EvLock; EvMsleep 200; EvUnlock].
Proof.
  apply (fill_balloon_out_of_puff 16 12 12 12 out_of_pages kmalloc_always 1
           10 (probe_state false false 10)).
  - reflexivity.
  - reflexivity.
  - lia.
  - reflexivity.
Defined.

(** X13 on the balloon of 20 pages when the host asks for its 320 units. *)
Lemma update_balloon_size_func_at_target_witness :
  update_balloon_size_func 16 12 12 12 never_exhausted kmalloc_always 300
    (with_num_pages 320 (probe_state false false 320))
  = Done tt
      (with_trace
         (trace (with_num_pages 320 (probe_state false false 320))
          ++ [EvConfigActual
                (u32 (num_pages
                        (with_num_pages 320 (probe_state false false 320))))])
         (with_config_actual
            (u32 (num_pages
                    (with_num_pages 320 (probe_state false false 320))))
            (with_num_pages 320 (probe_state false false 320)))).
Proof.
  apply (update_balloon_size_func_at_target 16 12 12 12 never_exhausted
           kmalloc_always 300
           (with_num_pages 320 (probe_state false false 320))).
  vm_compute. reflexivity.
Defined.

(** X16: a request of 40 units, K = 16, on a queue that refuses the
    buffer. *)
Lemma fill_balloon_legacy_broken_queue_blocks_witness :
  match
    fill_balloon 16 12 12 12 never_exhausted kmalloc_always 300 40
      (probe_state false true 40)
  with
  | Done n vb' => n = 0 /\ pages vb' = pages (probe_state false true 40)
  | Stuck why vb' =>
      why = Blocked /\ balloon_lock vb' = true /\
      List.filter is_send (trace vb')
      = List.filter is_send (trace (probe_state false true 40)) /\
      exists got,
        got <> [] /\ pages vb' = pages (probe_state false true 40) ++ got /\
        num_pages vb'
        = u32 (num_pages (probe_state false true 40)
               + VIRTIO_BALLOON_PAGES_PER_PAGE 16 12 * Z.of_nat (length got))
  end.
Proof.
  apply (fill_balloon_legacy_broken_queue_blocks 16 12 12 12 never_exhausted
           kmalloc_always 300 40 (probe_state false true 40)).
  - vm_compute. reflexivity.
  - exists 16. vm_compute. reflexivity.
  - reflexivity.
  - reflexivity.
  - reflexivity.
  - vm_compute. reflexivity.
  - vm_compute. discriminate.
Defined.

(** X17 for the free blocks used above, on a queue that refuses the
    buffer. *)
Lemma miscq_send_unused_pages_below_the_cap_witness :
  exists vb',
    miscq_send_unused_pages 12 12 0 1 11 6 [0%nat] some_free_blocks
      (probe_state true true 0)
    = Done tt vb' /\
    miscq_cmd vb' = 0 /\
    miscq_flags vb' = Z.lor 0 1 /\
    if vq_broken (probe_state true true 0) then
      trace vb' = trace (probe_state true true 0) /\
      unused_chunks vb'
      = unused_chunks (probe_state true true 0)
        ++ reported_chunks 12 12 11 6 [0%nat] some_free_blocks
    else
      trace vb'
      = trace (probe_state true true 0)
        ++ [final_flush 0 1
              (unused_chunks (probe_state true true 0)
               ++ reported_chunks 12 12 11 6 [0%nat] some_free_blocks)]
      /\ unused_chunks vb' = [].
Proof.
  apply (miscq_send_unused_pages_below_the_cap 12 12 0 1 11 6 [0%nat]
           some_free_blocks (probe_state true true 0)).
  - vm_compute. lia.
  - vm_compute. reflexivity.
Defined.

(** X18: one bitmap buffer, and the page 262145 in a cover that starts at
    page-frame number 1. *)
Lemma mark_pages_page_at_stop_faults_witness :
  mark_pages 12 12 [262145] 1
    (1 + PFNS_PER_PAGE_BMAP 12 * page_bmaps (probe_state true false 0))
    false (probe_state true false 0)
  = Stuck Fault (probe_state true false 0).
Proof.
  apply (mark_pages_page_at_stop_faults 12 12 262145 [] 1 false
           (probe_state true false 0)).
  - lia.
  - vm_compute. split; discriminate.
  - vm_compute. reflexivity.
  - intros _. reflexivity.
Defined.

(** A balloon with the chunk feature that holds the pages 65 and 70. *)
Definition balloon_of_65_70 : virtio_balloon :=
  with_pages [65; 70] (with_num_pages 2 (probe_state true false 3)).

(** X19: the page 66 arrives (K = 1); the page 70 of the ledger lies in
    the same word. *)
Lemma fill_balloon_reports_old_pages_again_witness :
  exists runs vb',
    fill_balloon 12 12 12 12 (fun _ => Some 66) kmalloc_always 8 1
      balloon_of_65_70
    = Done (VIRTIO_BALLOON_PAGES_PER_PAGE 12 12) vb' /\
    balloon_chunks vb' = [] /\
    balloon_chunks_sent (trace vb')
    = balloon_chunks_sent (trace balloon_of_65_70)
      ++ map (run_chunk 12 12
                (rounddown (page_to_balloon_pfn 12 12 66) BITS_PER_LONG))
           runs /\
    Exists (in_run (page_to_balloon_pfn 12 12 70
                    - rounddown (page_to_balloon_pfn 12 12 66)
                        BITS_PER_LONG))
      runs.
Proof.
  apply (fill_balloon_reports_old_pages_again 12 12 12 12
           (fun _ => Some 66) kmalloc_always 8 1 66 70 0
           (replicate 31 None) balloon_of_65_70).
  - lia.
  - vm_compute. reflexivity.
  - reflexivity.
  - reflexivity.
  - reflexivity.
  - reflexivity.
  - reflexivity.
  - reflexivity.
  - reflexivity.
  - vm_compute. discriminate.
  - vm_compute. split; [reflexivity|discriminate].
  - lia.
  - simpl. right. left. reflexivity.
  - vm_compute. split; discriminate.
Defined.

(** X20: the page 65 is given back (K = 1), the page 70 stays. *)
Lemma leak_balloon_unaligned_page_makes_one_chunk_witness :
  exists tr vb',
    leak_balloon 12 12 12 12 kmalloc_always 8 1 balloon_of_65_70
    = Done (VIRTIO_BALLOON_PAGES_PER_PAGE 12 12) vb' /\
    pages vb' = [70] /\
    num_pages vb'
    = u32 (num_pages balloon_of_65_70
           - VIRTIO_BALLOON_PAGES_PER_PAGE 12 12) /\
    balloon_chunks vb' = [] /\
    balloon_lock vb' = false /\
    trace vb'
    = trace balloon_of_65_70 ++ [EvLock] ++ tr ++ [EvPutPage 65; EvUnlock] /\
    Forall (sends_on deflate_vq) tr /\
    balloon_chunks_sent tr
    = [wire_chunk 12 12 (page_to_balloon_pfn 12 12 65) 1].
Proof.
  apply (leak_balloon_unaligned_page_makes_one_chunk 12 12 12 12
           kmalloc_always 8 1 65 [70] 0 (replicate 31 None)
           balloon_of_65_70).
  - lia.
  - vm_compute. split; [reflexivity|discriminate].
  - reflexivity.
  - reflexivity.
  - reflexivity.
  - reflexivity.
  - reflexivity.
  - reflexivity.
  - vm_compute. reflexivity.
  - reflexivity.
  - vm_compute. discriminate.
  - vm_compute. split; [reflexivity|discriminate].
  - vm_compute. reflexivity.
  - lia.
Defined.
